(** * Live fan-out of the gRPC task service: TaskService and ChatService

    A shallow embedding of [services/TaskService.js] (the stream registry
    [streamingSessions] and the dispatcher [notifyStreams]) and of
    [services/ChatService.js] (the room registry [rooms], [_broadcast] and
    the [Chat] handlers), followed by the properties of the fan-out
    subsystem.

    Conventions of the embedding.
    - A JavaScript string is its sequence of UTF-16 code units.
    - A [Map] or [Set] is the list of its entries in insertion order, which
      is the order in which [for ... of] visits them and therefore the
      order of the writes of a dispatch.
    - A call object is identified by a number; everything written with
      [call.write] is appended to the [wire] of the world together with the
      outcome of the write ([false] when the write threw).
    - The results of external calls (the database, [uuidv4], [Date.now])
      are arguments of the handler that consumes them. *)

From Stdlib Require Import List Bool Arith ZArith NArith Lia String Ascii.
Import ListNotations.
Open Scope list_scope.

(** ** JavaScript strings and optional values *)

Module Js.

Definition jsstring := list N.

(** An ASCII literal as a JavaScript string. *)
Definition lit (s : string) : jsstring :=
  List.map N_of_ascii (list_ascii_of_string s).

Definition jsstring_dec : forall a b : jsstring, {a = b} + {a <> b} :=
  list_eq_dec N.eq_dec.

Definition streq (a b : jsstring) : bool :=
  if jsstring_dec a b then true else false.

(** WhiteSpace and LineTerminator code points of ECMAScript, the ones
    [String.prototype.trim] removes. *)
Definition is_white_space (c : N) : bool :=
  (N.eqb c 9 || N.eqb c 10 || N.eqb c 11 || N.eqb c 12 || N.eqb c 13
   || N.eqb c 32 || N.eqb c 160 || N.eqb c 5760
   || (N.leb 8192 c && N.leb c 8202)
   || N.eqb c 8232 || N.eqb c 8233 || N.eqb c 8239 || N.eqb c 8287
   || N.eqb c 12288 || N.eqb c 65279)%N.

Fixpoint trimStart (s : jsstring) : jsstring :=
  match s with
  | c :: s' => if is_white_space c then trimStart s' else s
  | [] => []
  end.

Definition trimEnd (s : jsstring) : jsstring := rev (trimStart (rev s)).

Definition trim (s : jsstring) : jsstring := trimEnd (trimStart s).

(** Truthiness of a string: every string but the empty one. *)
Definition truthy (s : jsstring) : bool :=
  match s with [] => false | _ :: _ => true end.

(** [a || b] on strings. *)
Definition or_else (a b : jsstring) : jsstring := if truthy a then a else b.

Fixpoint startsWith (s p : jsstring) : bool :=
  match p, s with
  | [], _ => true
  | _ :: _, [] => false
  | x :: p', y :: s' => N.eqb x y && startsWith s' p'
  end.

(** [s.slice(n)] for [0 <= n]. *)
Definition slice (n : nat) (s : jsstring) : jsstring := skipn n s.

(** [toLowerCase] on the letters A-Z; the other code units are left as
    they are (the service lower-cases ASCII action names only). *)
Definition toLowerCase (s : jsstring) : jsstring :=
  List.map (fun c => if (N.leb 65 c && N.leb c 90)%N then (c + 32)%N else c) s.

(** [s.replace(a, b)] with one-unit strings [a] and [b]: the first
    occurrence only. *)
Fixpoint replace_first (a b : N) (s : jsstring) : jsstring :=
  match s with
  | [] => []
  | c :: s' => if N.eqb c a then b :: s' else c :: replace_first a b s'
  end.

(** A property that may be [undefined], [null] or hold a value. *)
Inductive jsopt (A : Type) : Type :=
| JUndefined
| JNull
| JVal (a : A).
Arguments JUndefined {A}.
Arguments JNull {A}.
Arguments JVal {A} a.

(** [x || ''] and truthiness for an optional string. *)
Definition str_or_empty (x : jsopt jsstring) : jsstring :=
  match x with JVal s => s | _ => [] end.

(** [Math.floor(Date.now() / 1000)] for a clock reading in milliseconds. *)
Definition seconds (now_ms : Z) : Z := (now_ms / 1000)%Z.

End Js.

(** ** [Map] and [Set] with insertion order *)

Module JsMap.
Section Map.
Context {K V : Type} (K_dec : forall a b : K, {a = b} + {a <> b}).

Definition keyb (a b : K) : bool := if K_dec a b then true else false.

Fixpoint get (k : K) (m : list (K * V)) : option V :=
  match m with
  | [] => None
  | (k', v) :: m' => if K_dec k k' then Some v else get k m'
  end.

Definition has (k : K) (m : list (K * V)) : bool :=
  match get k m with Some _ => true | None => false end.

(** [m.set(k, v)]: an existing key keeps its place, a new one goes last. *)
Fixpoint set (k : K) (v : V) (m : list (K * V)) : list (K * V) :=
  match m with
  | [] => [(k, v)]
  | (k', v') :: m' =>
      if K_dec k k' then (k, v) :: m' else (k', v') :: set k v m'
  end.

(** [m.delete(k)]. *)
Definition delete (k : K) (m : list (K * V)) : list (K * V) :=
  filter (fun kv => negb (keyb k (fst kv))) m.

Definition keys (m : list (K * V)) : list K := List.map fst m.
End Map.
End JsMap.

Module JsSet.
Section Set_.
Context {A : Type} (A_dec : forall a b : A, {a = b} + {a <> b}).

Definition mem (a : A) (s : list A) : bool :=
  existsb (fun x => if A_dec a x then true else false) s.

(** [s.add(a)]. *)
Definition add (a : A) (s : list A) : list A :=
  if mem a s then s else s ++ [a].

(** [s.delete(a)]. *)
Definition delete (a : A) (s : list A) : list A :=
  filter (fun x => if A_dec a x then false else true) s.
End Set_.
End JsSet.

(** ** Calls, writes and thrown values *)

(** The identity of a call object. *)
Definition Conn := nat.

(** One invocation of [call.write(payload)]; [wc_ok] is [false] when the
    invocation threw. *)
Record WriteCall (P : Type) : Type := mkWrite {
  wc_conn : Conn;
  wc_payload : P;
  wc_ok : bool
}.
Arguments mkWrite {P} _ _ _.
Arguments wc_conn {P} _.
Arguments wc_payload {P} _.
Arguments wc_ok {P} _.

(** The writes made on one call, in order. *)
Definition writes_to {P} (c : Conn) (l : list (WriteCall P)) : list (WriteCall P) :=
  filter (fun wc => Nat.eqb (wc_conn wc) c) l.

(** The payloads a peer got: the writes on its call that did not throw. *)
Definition delivered {P} (c : Conn) (l : list (WriteCall P)) : list P :=
  List.map wc_payload (filter (fun wc => wc_ok wc) (writes_to c l)).

Definition is_broken (broken : list Conn) (c : Conn) : bool :=
  existsb (Nat.eqb c) broken.

(** errors/grpc.js: a [GrpcAppError] carries a status code, any other
    thrown value only its message. *)
Inductive JsError : Type :=
| GrpcAppError (code : N) (details : Js.jsstring)
| PlainError (message : Js.jsstring).

(** The members of [grpc.status] the services use. *)
Module status.
Definition INVALID_ARGUMENT : N := 3.
Definition NOT_FOUND : N := 5.
Definition INTERNAL : N := 13.
Definition UNAUTHENTICATED : N := 16.
End status.

Definition error_message (e : JsError) : Js.jsstring :=
  match e with GrpcAppError _ m => m | PlainError m => m end.

(** errors/grpc.js, [toServiceError]: the code and message given to the
    callback. *)
Definition toServiceError (e : JsError) : N * Js.jsstring :=
  match e with
  | GrpcAppError c m => (c, m)
  | PlainError m => (status.INTERNAL, Js.or_else m (Js.lit "Erro interno"))
  end.

(** [JSON.stringify] of a string and of an object with one string
    member. *)
Module JSON.
Import Js.

Definition hex_digit (d : N) : N :=
  if N.ltb d 10 then (48 + d)%N else (87 + d)%N.

(** The escape of a code unit, with four lower-case hexadecimal digits. *)
Definition unicode_escape (c : N) : jsstring :=
  [92%N; 117%N;
   hex_digit ((c / 4096) mod 16); hex_digit ((c / 256) mod 16);
   hex_digit ((c / 16) mod 16); hex_digit (c mod 16)].

Definition is_leading_surrogate (c : N) : bool := (N.leb 55296 c && N.leb c 56319)%bool.
Definition is_trailing_surrogate (c : N) : bool := (N.leb 56320 c && N.leb c 57343)%bool.

(** A code unit that is not a surrogate: the short escapes, the escape of
    a control character, or the unit itself. *)
Definition quote_unit (c : N) : jsstring :=
  if N.eqb c 8 then [92%N; 98%N]
  else if N.eqb c 9 then [92%N; 116%N]
  else if N.eqb c 10 then [92%N; 110%N]
  else if N.eqb c 12 then [92%N; 102%N]
  else if N.eqb c 13 then [92%N; 114%N]
  else if N.eqb c 34 then [92%N; 34%N]
  else if N.eqb c 92 then [92%N; 92%N]
  else if N.ltb c 32 then unicode_escape c
  else [c].

(** A surrogate pair stays as it is; a surrogate on its own is escaped. *)
Fixpoint quote_units (s : jsstring) : jsstring :=
  match s with
  | [] => []
  | c :: rest =>
      if is_leading_surrogate c then
        match rest with
        | d :: rest' =>
            if is_trailing_surrogate d then c :: d :: quote_units rest'
            else unicode_escape c ++ quote_units rest
        | [] => unicode_escape c
        end
      else if is_trailing_surrogate c then unicode_escape c ++ quote_units rest
      else quote_unit c ++ quote_units rest
  end.

Definition stringify_string (s : jsstring) : jsstring :=
  [34%N] ++ quote_units s ++ [34%N].

(** [JSON.stringify({ name: value })] for a string [value]. *)
Definition stringify_member (name value : jsstring) : jsstring :=
  lit "{" ++ stringify_string name ++ lit ":" ++ stringify_string value ++ lit "}".
End JSON.

(** [/^[ -~]*$/], the test of grpc-js on the value of a metadata key that
    is not binary. *)
Definition isLegalNonBinaryValue (s : Js.jsstring) : bool :=
  forallb (fun c => (N.leb 32 c && N.leb c 126)%bool) s.

(** No code unit above [~]. *)
Definition plain_ascii (s : Js.jsstring) : bool :=
  forallb (fun c => N.leb c 126) s.

(** What [Metadata.add] throws for a value that fails the test. *)
Definition illegal_value (value : Js.jsstring) : JsError :=
  PlainError (Js.lit "Metadata string value " ++ [34%N] ++ value ++ [34%N]
              ++ Js.lit " contains illegal characters").

(** errors/grpc.js, [new GrpcAppError(code, message, meta)] in a [throw]:
    the value that is thrown. [meta] is given as [JSON.stringify(meta)],
    [None] when [meta] is falsy and the constructor adds no metadata. With a
    [meta], [md.add('app-error', ...)] throws when the string is not
    printable ASCII, and that error is thrown in place of the
    [GrpcAppError]. *)
Definition new_GrpcAppError (code : N) (message : Js.jsstring)
           (meta : option Js.jsstring) : JsError :=
  match meta with
  | None => GrpcAppError code message
  | Some json =>
      if isLegalNonBinaryValue json then GrpcAppError code message
      else illegal_value json
  end.

(** [{ field: name }] and [{ task_id }] as [meta]. *)
Definition meta_field (name : Js.jsstring) : option Js.jsstring :=
  Some (JSON.stringify_member (Js.lit "field") name).

Definition meta_task_id (task_id : Js.jsstring) : option Js.jsstring :=
  Some (JSON.stringify_member (Js.lit "task_id") task_id).

(** A [try] block: a value or the thrown error. *)
Inductive Result (A : Type) : Type :=
| Ok (a : A)
| Throw (e : JsError).
Arguments Ok {A} a.
Arguments Throw {A} e.

Definition bind {A B} (r : Result A) (k : A -> Result B) : Result B :=
  match r with Ok a => k a | Throw e => Throw e end.

Notation "x <- r ;; k" := (bind r (fun x => k))
  (at level 61, r at next level, right associativity).
Notation "r ;;; k" := (bind r (fun _ => k))
  (at level 61, right associativity).

(** The payload of a verified token, [{ id, username, ... }]. *)
Record User : Type := mkUser {
  user_id : Js.jsstring;
  user_username : Js.jsstring
}.

(** The signals of the transport the services listen to with [call.on]. *)
Inductive Signal : Type := sig_end | sig_cancelled | sig_error.

Definition Signal_eqb (a b : Signal) : bool :=
  match a, b with
  | sig_end, sig_end | sig_cancelled, sig_cancelled | sig_error, sig_error => true
  | _, _ => false
  end.

(** ** services/TaskService.js *)

Module TaskService.
Import Js.

(** The fields of a [Task] the service sets and reads ([models/Task] builds
    the object from them). *)
Record Task : Type := mkTask {
  task_id : jsstring;
  task_title : jsstring;
  task_description : jsstring;
  task_priority : jsstring;
  task_userId : jsstring;
  task_completed : bool
}.

(** A row of the table [tasks]; [completed] is stored as a number. *)
Record Row : Type := mkRow {
  row_id : jsstring;
  row_title : jsstring;
  row_description : jsstring;
  row_priority : jsstring;
  row_userId : jsstring;
  row_completed : N
}.

(** [new Task({ ...row, completed: row.completed === 1 })]. *)
Definition Task_of_row (r : Row) : Task :=
  mkTask (row_id r) (row_title r) (row_description r) (row_priority r)
         (row_userId r) (N.eqb (row_completed r) 1).

(** What the awaited calls of [database] settle to. *)
Inductive RunResult : Type :=
| RunRejects (message : jsstring)
| RunResolves (changes : N).

Inductive GetResult : Type :=
| GetRejects (message : jsstring)
| GetResolves (row : option Row).

Inductive AllResult : Type :=
| AllRejects (message : jsstring)
| AllResolves (rows : list Row).

(** The collaborators of the service that live in other modules. *)
Record Externals : Type := {
  Proto : Type;                               (* what [task.toProtobuf()] returns *)
  toProtobuf : Task -> Proto;
  jwt_verify : jsstring -> option User;       (* [jwt.verify(token, 'secret')], [None] when it throws *)
  task_is_valid : Task -> bool;               (* [task.validate().isValid] *)
  validation_errors : Task -> option jsstring;
    (* [JSON.stringify(task.validate().errors)], [None] when [errors] is falsy *)
  leading_digit : Z -> Z;
    (* the first digit of [String(n)] for a whole [n] of 1e21 or more, which
       is written with an exponent *)
  convertFromPriority : jsopt N -> jsstring;  (* [ProtoLoader.convertFromPriority] *)
  write_error : JsError                       (* what a failing [call.write] throws *)
}.

Section Service.
Context (X : Externals).

(** The object written on a notification stream. *)
Record Notification : Type := mkNotification {
  n_type : option N;
  n_task : option (Proto X);
  n_message : jsstring;
  n_timestamp : Z
}.

Inductive Payload : Type :=
| PTask (p : Proto X)
| PNotification (n : Notification).

(** [filter: { completed }]. *)
Record Filter : Type := mkFilter { filter_completed : jsopt bool }.

(** A value of [streamingSessions]: [{ call, userId, filter }] for a task
    stream, [{ call, userId, type: 'notifications' }] for a notification
    stream. *)
Record Session : Type := mkSession {
  session_call : Conn;
  session_userId : jsstring;
  session_type : option jsstring;
  session_filter : option Filter
}.

Record World : Type := mkWorld {
  streamingSessions : list (jsstring * Session);
  listeners : list (Conn * Signal * jsstring);  (* [call.on(signal, () => delete(sessionId))] *)
  wire : list (WriteCall Payload);
  destroyed : list (Conn * jsstring);           (* [call.destroy(new Error(message))] *)
  broken : list Conn;                           (* calls whose [write] throws *)
  dispatched : list (jsstring * Task)           (* history of the calls of [notifyStreams] *)
}.

Definition init : World := mkWorld [] [] [] [] [] [].

Definition with_sessions (s : list (jsstring * Session)) (w : World) : World :=
  mkWorld s (listeners w) (wire w) (destroyed w) (broken w) (dispatched w).

Definition sessions_set (sid : jsstring) (s : Session) (w : World) : World :=
  with_sessions (JsMap.set jsstring_dec sid s (streamingSessions w)) w.

Definition sessions_delete (sid : jsstring) (w : World) : World :=
  with_sessions (JsMap.delete jsstring_dec sid (streamingSessions w)) w.

Definition add_listener (c : Conn) (sg : Signal) (sid : jsstring) (w : World) : World :=
  mkWorld (streamingSessions w) (listeners w ++ [(c, sg, sid)]) (wire w)
          (destroyed w) (broken w) (dispatched w).

(** [call.write(p)]: the world after the call and whether it returned. *)
Definition call_write (c : Conn) (p : Payload) (w : World) : World * bool :=
  let ok := negb (is_broken (broken w) c) in
  (mkWorld (streamingSessions w) (listeners w) (wire w ++ [mkWrite c p ok])
           (destroyed w) (broken w) (dispatched w), ok).

(** [call.destroy(new Error(error.message || 'Erro no streaming'))]. *)
Definition call_destroy (c : Conn) (e : JsError) (w : World) : World :=
  mkWorld (streamingSessions w) (listeners w) (wire w)
          (destroyed w ++ [(c, or_else (error_message e) (lit "Erro no streaming"))])
          (broken w) (dispatched w).

Definition record_dispatch (action : jsstring) (task : Task) (w : World) : World :=
  mkWorld (streamingSessions w) (listeners w) (wire w) (destroyed w) (broken w)
          (dispatched w ++ [(action, task)]).

Definition Token_invalido : jsstring := lit "Token inv" ++ [225%N] ++ lit "lido".

Definition validateToken (token : jsstring) : Result User :=
  match jwt_verify X token with
  | Some u => Ok u
  | None => Throw (GrpcAppError status.UNAUTHENTICATED Token_invalido)
  end.

(** *** notifyStreams *)

Definition notificationTypeMap : list (jsstring * N) :=
  [ (lit "TASK_CREATED", 0%N); (lit "TASK_UPDATED", 1%N);
    (lit "TASK_DELETED", 2%N); (lit "TASK_COMPLETED", 3%N) ].

(** [`Tarefa ${action.toLowerCase().replace('_', ' ')}`]. *)
Definition notification_message (action : jsstring) : jsstring :=
  lit "Tarefa " ++ replace_first 95 32 (toLowerCase action).

Definition notification_of (action : jsstring) (task : Task) (now : Z) : Notification :=
  mkNotification (JsMap.get jsstring_dec action notificationTypeMap)
                 (Some (toProtobuf X task))
                 (notification_message action)
                 (seconds now).

(** [completed === undefined || completed === task.completed]. *)
Definition filter_matches (f : Filter) (task : Task) : bool :=
  match filter_completed f with
  | JUndefined => true
  | JNull => false
  | JVal b => Bool.eqb b (task_completed task)
  end.

(** [session.type === 'notifications']; a task stream has no [type]. *)
Definition is_notifications (ty : option jsstring) : bool :=
  match ty with Some t => streq t (lit "notifications") | None => false end.

(** The body of the [try] of one turn of the loop: the argument of its
    [session.call.write], [None] when the turn writes nothing. *)
Definition payload_for (action : jsstring) (task : Task) (now : Z) (s : Session)
  : option Payload :=
  if streq (session_userId s) (task_userId task) then
    if is_notifications (session_type s) then
      Some (PNotification (notification_of action task now))
    else
      match session_filter s with
      | Some f =>
          if filter_matches f task then
            if negb (streq action (lit "TASK_DELETED"))
            then Some (PTask (toProtobuf X task)) else None
          else None
      | None => None
      end
  else None.

(** One turn of the loop: the [try] and its [catch], which deletes the
    session whose write threw. *)
Definition notify_session (action : jsstring) (task : Task) (now : Z)
           (w : World) (entry : jsstring * Session) : World :=
  match payload_for action task now (snd entry) with
  | None => w
  | Some p =>
      let (w', ok) := call_write (session_call (snd entry)) p w in
      if ok then w' else sessions_delete (fst entry) w'
  end.

(** [notifyStreams(action, task)]. The loop runs over the entries of the
    live map; the one change a turn makes to the map is the deletion of
    its own key, so the turns that follow are those of the entries the map
    had when the loop started. *)
Definition notifyStreams (action : jsstring) (task : Task) (now : Z) (w : World) : World :=
  fold_left (notify_session action task now) (streamingSessions w)
            (record_dispatch action task w).

(** *** The unary handlers that change tasks *)

Record CreateRequest : Type := mkCreateRequest {
  create_token : jsstring;
  create_title : jsopt jsstring;
  create_description : jsopt jsstring;
  create_priority : jsopt N
}.

Record UpdateRequest : Type := mkUpdateRequest {
  update_token : jsstring;
  update_task_id : jsstring;
  update_title : jsopt jsstring;
  update_description : jsopt jsstring;
  update_completed : jsopt bool;
  update_priority : jsopt N
}.

Record DeleteRequest : Type := mkDeleteRequest {
  delete_token : jsstring;
  delete_task_id : jsstring
}.

(** The arguments of [callback]: a response, or the code and message of
    [toServiceError(err)]. *)
Inductive Reply : Type :=
| Success (message : jsstring) (task : option (Proto X))
| Failure (code : N) (details : jsstring).

Definition reply_error (e : JsError) : Reply :=
  Failure (fst (toServiceError e)) (snd (toServiceError e)).

(** [await database.run(...)]. *)
Definition await_run (r : RunResult) : Result N :=
  match r with
  | RunRejects m => Throw (PlainError m)
  | RunResolves changes => Ok changes
  end.

(** [await database.get(...)]. *)
Definition await_get (r : GetResult) : Result (option Row) :=
  match r with
  | GetRejects m => Throw (PlainError m)
  | GetResolves row => Ok row
  end.

Definition Titulo_obrigatorio : jsstring :=
  lit "T" ++ [237%N] ++ lit "tulo " ++ [233%N] ++ lit " obrigat" ++ [243%N] ++ lit "rio".
Definition Dados_invalidos : jsstring := lit "Dados inv" ++ [225%N] ++ lit "lidos".
Definition Tarefa_nao_encontrada : jsstring :=
  lit "Tarefa n" ++ [227%N] ++ lit "o encontrada".

(** [new Task(taskData)] of [createTask]. *)
Definition taskData (req : CreateRequest) (uuid : jsstring) (user : User) : Task :=
  mkTask uuid
         (trim (str_or_empty (create_title req)))
         (str_or_empty (create_description req))
         (convertFromPriority X (create_priority req))
         (user_id user)
         false.

(** The [try] block of [createTask] up to the call of [notifyStreams]. *)
Definition createTask_commit (req : CreateRequest) (uuid : jsstring) (run : RunResult)
  : Result Task :=
  user <- validateToken (create_token req) ;;
  (if truthy (str_or_empty (create_title req))
      && truthy (trim (str_or_empty (create_title req)))
   then Ok tt
   else Throw (new_GrpcAppError status.INVALID_ARGUMENT Titulo_obrigatorio
                                (meta_field (lit "title")))) ;;;
  let task := taskData req uuid user in
  (if task_is_valid X task then Ok tt
   else Throw (new_GrpcAppError status.INVALID_ARGUMENT Dados_invalidos
                                (validation_errors X task))) ;;;
  await_run run ;;;
  Ok task.

Definition createTask (req : CreateRequest) (uuid : jsstring) (run : RunResult)
           (now : Z) (w : World) : World * Reply :=
  match createTask_commit req uuid run with
  | Ok task =>
      (notifyStreams (lit "TASK_CREATED") task now w,
       Success (lit "Tarefa criada com sucesso") (Some (toProtobuf X task)))
  | Throw e => (w, reply_error e)
  end.

(** The [try] block of [updateTask] up to the call of [notifyStreams].
    The row written by the UPDATE is built from the request and the
    existing row; the task that is dispatched is the row read back. *)
Definition updateTask_commit (req : UpdateRequest)
           (existing : GetResult) (run : RunResult) (updated : GetResult)
  : Result Task :=
  validateToken (update_token req) ;;;
  found <- await_get existing ;;
  match found with
  | None => Throw (new_GrpcAppError status.NOT_FOUND Tarefa_nao_encontrada
                                    (meta_task_id (update_task_id req)))
  | Some _ =>
      changes <- await_run run ;;
      if N.eqb changes 0
      then Throw (GrpcAppError status.INTERNAL (lit "Falha ao atualizar tarefa"))
      else
        again <- await_get updated ;;
        match again with
        | None =>
            (* [updated.completed] on [undefined] throws a TypeError *)
            Throw (PlainError (lit "Cannot read properties of undefined (reading 'completed')"))
        | Some row => Ok (Task_of_row row)
        end
  end.

Definition updateTask (req : UpdateRequest)
           (existing : GetResult) (run : RunResult) (updated : GetResult)
           (now : Z) (w : World) : World * Reply :=
  match updateTask_commit req existing run updated with
  | Ok task =>
      (notifyStreams (lit "TASK_UPDATED") task now w,
       Success (lit "Tarefa atualizada com sucesso") (Some (toProtobuf X task)))
  | Throw e => (w, reply_error e)
  end.

(** The [try] block of [deleteTask] up to the call of [notifyStreams]. *)
Definition deleteTask_commit (req : DeleteRequest)
           (existing : GetResult) (run : RunResult) : Result Task :=
  validateToken (delete_token req) ;;;
  found <- await_get existing ;;
  match found with
  | None => Throw (new_GrpcAppError status.NOT_FOUND Tarefa_nao_encontrada
                                    (meta_task_id (delete_task_id req)))
  | Some row =>
      changes <- await_run run ;;
      if N.eqb changes 0
      then Throw (GrpcAppError status.INTERNAL (lit "Falha ao deletar tarefa"))
      else Ok (Task_of_row row)
  end.

Definition deleteTask (req : DeleteRequest)
           (existing : GetResult) (run : RunResult)
           (now : Z) (w : World) : World * Reply :=
  match deleteTask_commit req existing run with
  | Ok task =>
      (notifyStreams (lit "TASK_DELETED") task now w,
       Success (lit "Tarefa deletada com sucesso") None)
  | Throw e => (w, reply_error e)
  end.

(** *** The streams *)

Record StreamRequest : Type := mkStreamRequest {
  stream_token : jsstring;
  stream_completed : jsopt bool
}.

(** The loop that sends the existing tasks; it stops at the first write
    that throws. *)
Fixpoint replay (c : Conn) (rows : list Row) (w : World) : World * bool :=
  match rows with
  | [] => (w, true)
  | row :: rows' =>
      let (w', ok) := call_write c (PTask (toProtobuf X (Task_of_row row))) w in
      if ok then replay c rows' w' else (w', false)
  end.

(** [streamTasks(call)]. The session is registered after the last
    existing task was written, so the pauses between those writes let
    no dispatch reach the call; the handler is taken as one step. *)
Definition streamTasks (c : Conn) (req : StreamRequest) (all : AllResult)
           (uuid : jsstring) (w : World) : World :=
  match validateToken (stream_token req) with
  | Throw e => call_destroy c e w
  | Ok user =>
      match all with
      | AllRejects m => call_destroy c (PlainError m) w
      | AllResolves rows =>
          let (w1, ok) := replay c rows w in
          if ok then
            add_listener c sig_cancelled uuid
              (sessions_set uuid
                 (mkSession c (user_id user) None
                            (Some (mkFilter (stream_completed req)))) w1)
          else call_destroy c (write_error X) w1
      end
  end.

Definition Stream_iniciado : jsstring :=
  lit "Stream de notifica" ++ [231%N; 245%N] ++ lit "es iniciado".

(** The object of the first write of [streamNotifications]. *)
Definition initial_notification (now : Z) : Notification :=
  mkNotification (Some 0%N) None Stream_iniciado (seconds now).

(** [streamNotifications(call)]. *)
Definition streamNotifications (c : Conn) (token : jsstring) (uuid : jsstring)
           (now : Z) (w : World) : World :=
  match validateToken token with
  | Throw e => call_destroy c e w
  | Ok user =>
      let w1 := sessions_set uuid
                  (mkSession c (user_id user) (Some (lit "notifications")) None) w in
      let (w2, ok) := call_write c (PNotification (initial_notification now)) w1 in
      if ok then
        add_listener c sig_error uuid (add_listener c sig_cancelled uuid w2)
      else call_destroy c (write_error X) w2
  end.

(** The transport emits [sg] on the call [c]: the listeners installed for
    it run in the order of their installation. *)
Definition emit (c : Conn) (sg : Signal) (w : World) : World :=
  fold_left
    (fun w' l =>
       match l with
       | (c', sg', sid) =>
           if Nat.eqb c c' && Signal_eqb sg sg' then sessions_delete sid w' else w'
       end)
    (listeners w) w.

(** The peer of [c] goes away: from now on [write] throws on [c]. *)
Definition break (c : Conn) (w : World) : World :=
  mkWorld (streamingSessions w) (listeners w) (wire w) (destroyed w)
          (c :: broken w) (dispatched w).

(** *** Executions of the service

    The handlers that only read the database ([getTasks], [getTask],
    [getTaskStats]) touch neither the registry nor a stream and are left
    out. *)
Inductive Event : Type :=
| EvCreateTask (req : CreateRequest) (uuid : jsstring) (run : RunResult) (now : Z)
| EvUpdateTask (req : UpdateRequest) (existing : GetResult) (run : RunResult)
               (updated : GetResult) (now : Z)
| EvDeleteTask (req : DeleteRequest) (existing : GetResult) (run : RunResult) (now : Z)
| EvStreamTasks (c : Conn) (req : StreamRequest) (all : AllResult) (uuid : jsstring)
| EvStreamNotifications (c : Conn) (token : jsstring) (uuid : jsstring) (now : Z)
| EvSignal (c : Conn) (sg : Signal)
| EvBreak (c : Conn).

Definition handle (w : World) (e : Event) : World :=
  match e with
  | EvCreateTask req uuid run now => fst (createTask req uuid run now w)
  | EvUpdateTask req existing run updated now =>
      fst (updateTask req existing run updated now w)
  | EvDeleteTask req existing run now => fst (deleteTask req existing run now w)
  | EvStreamTasks c req all uuid => streamTasks c req all uuid w
  | EvStreamNotifications c token uuid now => streamNotifications c token uuid now w
  | EvSignal c sg => emit c sg w
  | EvBreak c => break c w
  end.

Definition run (events : list Event) (w : World) : World :=
  fold_left handle events w.
End Service.

Arguments mkNotification {X} _ _ _ _.
Arguments PTask {X} _.
Arguments PNotification {X} _.
Arguments mkWorld {X} _ _ _ _ _ _.
Arguments streamingSessions {X} _.
Arguments listeners {X} _.
Arguments wire {X} _.
Arguments destroyed {X} _.
Arguments broken {X} _.
Arguments dispatched {X} _.
Arguments n_type {X} _.
Arguments n_task {X} _.
Arguments n_message {X} _.
Arguments n_timestamp {X} _.
End TaskService.

(** ** services/ChatService.js *)

Module ChatService.
Import Js.

(** A message of the chat stream as the service writes it. *)
Record ChatMessage : Type := mkChatMessage {
  msg_room : jsstring;
  msg_text : jsstring;
  msg_sender_id : jsstring;
  msg_sender_name : jsstring;
  msg_timestamp : Z;
  msg_type : N
}.

(** The two fields the service reads of a message it receives. *)
Record Inbound : Type := mkInbound {
  in_room : jsopt jsstring;
  in_text : jsopt jsstring
}.

(** Where [validateToken(source)] looks for a token:
    [source.metadata.get('authorization')[0]] and [source.request.token]. *)
Record Source : Type := mkSource {
  metadata_authorization : option jsstring;
  request_token : option jsstring
}.

(** The variables [joinedRoom] and [user] of one invocation of
    [Chat(call)], with the credentials of the call. *)
Record Local : Type := mkLocal {
  joinedRoom : option jsstring;
  user : option User;
  source : Source
}.

Record Externals : Type := {
  jwt_verify : jsstring -> option User;  (* [jwt.verify(token, 'secret')], [None] when it throws *)
  write_error : JsError                  (* what a failing [call.write] throws *)
}.

Record World : Type := mkWorld {
  rooms : list (jsstring * list Conn);
  streams : list (Conn * Local);         (* the closures of the calls given to [Chat] *)
  wire : list (WriteCall ChatMessage);
  destroyed : list (Conn * JsError);     (* [call.destroy(err)] *)
  ended : list Conn;                     (* [call.end()] *)
  broken : list Conn                     (* calls whose [write] throws *)
}.

Definition init : World := mkWorld [] [] [] [] [] [].

Definition with_rooms (r : list (jsstring * list Conn)) (w : World) : World :=
  mkWorld r (streams w) (wire w) (destroyed w) (ended w) (broken w).

Definition with_local (c : Conn) (st : Local) (w : World) : World :=
  mkWorld (rooms w) (JsMap.set Nat.eq_dec c st (streams w)) (wire w)
          (destroyed w) (ended w) (broken w).

(** [call.write(m)]: the world after the call and whether it returned. *)
Definition call_write (c : Conn) (m : ChatMessage) (w : World) : World * bool :=
  let ok := negb (is_broken (broken w) c) in
  (mkWorld (rooms w) (streams w) (wire w ++ [mkWrite c m ok])
           (destroyed w) (ended w) (broken w), ok).

(** [call.destroy(err)]; what the transport emits on the call after it is
    an event of its own. *)
Definition call_destroy (c : Conn) (e : JsError) (w : World) : World :=
  mkWorld (rooms w) (streams w) (wire w) (destroyed w ++ [(c, e)])
          (ended w) (broken w).

(** [safeEnd]: [call.end()] inside a [try] whose [catch] is empty. *)
Definition safeEnd (c : Conn) (w : World) : World :=
  mkWorld (rooms w) (streams w) (wire w) (destroyed w) (ended w ++ [c]) (broken w).

(** The members of a room, none when the room is not in the registry. *)
Definition members (room : jsstring) (w : World) : list Conn :=
  match JsMap.get jsstring_dec room (rooms w) with
  | Some s => s
  | None => []
  end.

Definition Token_ausente : jsstring := lit "Token ausente".
Definition Token_invalido : jsstring := lit "Token inv" ++ [225%N] ++ lit "lido".
Definition room_obrigatorio : jsstring :=
  lit "room " ++ [233%N] ++ lit " obrigat" ++ [243%N] ++ lit "rio".

Section Service.
Context (X : Externals).

Definition validateToken (src : Source) : Result User :=
  let token :=
    match metadata_authorization src with
    | Some auth => if startsWith auth (lit "Bearer ") then slice 7 auth else []
    | None => []
    end in
  let token :=
    if truthy token then token
    else match request_token src with Some t => t | None => [] end in
  if truthy token then
    match jwt_verify X token with
    | Some u => Ok u
    | None => Throw (GrpcAppError status.UNAUTHENTICATED Token_invalido)
    end
  else Throw (GrpcAppError status.UNAUTHENTICATED Token_ausente).

(** [_ensureRoom(room)]; the set it returns is the value of the key. *)
Definition _ensureRoom (room : jsstring) (w : World) : World :=
  if JsMap.has jsstring_dec room (rooms w) then w
  else with_rooms (JsMap.set jsstring_dec room [] (rooms w)) w.

Definition is_except (exceptCall : option Conn) (c : Conn) : bool :=
  match exceptCall with Some x => Nat.eqb c x | None => false end.

(** [_broadcast(room, message, exceptCall)]: the [catch] of each write is
    empty. *)
Definition _broadcast (room : jsstring) (message : ChatMessage)
           (exceptCall : option Conn) (w : World) : World :=
  match JsMap.get jsstring_dec room (rooms w) with
  | None => w
  | Some set =>
      fold_left
        (fun w' c => if is_except exceptCall c then w' else fst (call_write c message w'))
        set w
  end.

Definition leave_message (room : jsstring) (u : option User) (now : Z) : ChatMessage :=
  mkChatMessage room
    (or_else (match u with Some x => user_username x | None => [] end)
             (lit "algu" ++ [233%N] ++ lit "m")
     ++ lit " saiu da sala")
    (match u with Some x => user_id x | None => [] end)
    (match u with Some x => user_username x | None => [] end)
    (seconds now) 2.

(** [leaveRoom] of the call [c]. *)
Definition leaveRoom (c : Conn) (now : Z) (w : World) : World :=
  match JsMap.get Nat.eq_dec c (streams w) with
  | None => w
  | Some st =>
      let w1 :=
        match joinedRoom st with
        | Some room =>
            match JsMap.get jsstring_dec room (rooms w) with
            | Some set =>
                if truthy room then
                  let set' := JsSet.delete Nat.eq_dec c set in
                  let w_deleted :=
                    with_rooms (JsMap.set jsstring_dec room set' (rooms w)) w in
                  let w_dropped :=
                    if Nat.eqb (List.length set') 0
                    then with_rooms (JsMap.delete jsstring_dec room (rooms w_deleted)) w_deleted
                    else w_deleted in
                  _broadcast room (leave_message room (user st) now) None w_dropped
                else w
            | None => w
            end
        | None => w
        end in
      with_local c (mkLocal None (user st) (source st)) w1
  end.

Definition join_message (room : jsstring) (u : User) (now : Z) : ChatMessage :=
  mkChatMessage room (user_username u ++ lit " entrou na sala")
                (user_id u) (user_username u) (seconds now) 1.

Definition welcome_message (room : jsstring) (now : Z) : ChatMessage :=
  mkChatMessage room (lit "Bem-vindo " ++ [224%N] ++ lit " sala " ++ room ++ lit "!")
                (lit "system") (lit "system") (seconds now) 3.

Definition text_message (room : jsstring) (text : jsstring) (u : User) (now : Z)
  : ChatMessage :=
  mkChatMessage room text (user_id u) (user_username u) (seconds now) 0.

(** [joinedRoom] is a room: not [null] and not the empty string. *)
Definition joined (st : Local) : option jsstring :=
  match joinedRoom st with
  | Some r => if truthy r then Some r else None
  | None => None
  end.

(** The block [if (!joinedRoom) { ... }] of the data handler: the world
    after it, the value of [joinedRoom] after it and whether it ran to
    its end (the write of the welcome message is not guarded). *)
Definition join_block (c : Conn) (st : Local) (u : User) (room : jsstring) (now : Z)
           (w : World) : World * jsstring * bool :=
  match joined st with
  | Some r => (w, r, true)
  | None =>
      let w1 := with_local c (mkLocal (Some room) (Some u) (source st)) w in
      let w2 := _ensureRoom room w1 in
      let w3 := with_rooms
                  (JsMap.set jsstring_dec room
                     (JsSet.add Nat.eq_dec c (members room w2)) (rooms w2)) w2 in
      let w4 := _broadcast room (join_message room u now) None w3 in
      let (w5, ok) := call_write c (welcome_message room now) w4 in
      (w5, room, ok)
  end.

(** [if (!user) user = await this.validateToken(call)]: the value of
    [user] after the statement, or what it throws. *)
Definition authenticate (st : Local) : Result User :=
  match user st with
  | Some u => Ok u
  | None => validateToken (source st)
  end.

(** The handler of ['data'] of the call [c]. Its one [await] is the
    verification of the token, which waits for nothing outside the
    process, so a run of the handler is one step. One reading of the clock
    stands for the readings of one run. *)
Definition on_data (c : Conn) (msg : Inbound) (now : Z) (w : World) : World :=
  match JsMap.get Nat.eq_dec c (streams w) with
  | None => w
  | Some st =>
      match authenticate st with
      | Throw e => call_destroy c e w
      | Ok u =>
          let w0 := with_local c (mkLocal (joinedRoom st) (Some u) (source st)) w in
          let room := trim (str_or_empty (in_room msg)) in
          if truthy room then
            match join_block c st u room now w0 with
            | (w1, r, true) =>
                if truthy (str_or_empty (in_text msg))
                   && truthy (trim (str_or_empty (in_text msg)))
                then _broadcast r (text_message r (trim (str_or_empty (in_text msg))) u now)
                                None w1
                else w1
            | (w1, _, false) => call_destroy c (write_error X) w1
            end
          else call_destroy c (GrpcAppError status.INVALID_ARGUMENT room_obrigatorio) w0
      end
  end.

(** The handlers of ['end'], ['cancelled'] and ['error'] are the same. *)
Definition on_signal (c : Conn) (now : Z) (w : World) : World :=
  safeEnd c (leaveRoom c now w).

(** [Chat(call)], which the transport invokes once for a call: fresh
    variables, and the handlers are installed. An event of a call that was
    not given to [Chat] finds no handler. *)
Definition Chat (c : Conn) (src : Source) (w : World) : World :=
  with_local c (mkLocal None None src) w.

Definition break (c : Conn) (w : World) : World :=
  mkWorld (rooms w) (streams w) (wire w) (destroyed w) (ended w) (c :: broken w).

Inductive Event : Type :=
| EvChat (c : Conn) (src : Source)
| EvData (c : Conn) (msg : Inbound) (now : Z)
| EvSignal (c : Conn) (sg : Signal) (now : Z)
| EvBreak (c : Conn).

Definition handle (w : World) (e : Event) : World :=
  match e with
  | EvChat c src => Chat c src w
  | EvData c msg now => on_data c msg now w
  | EvSignal c _ now => on_signal c now w
  | EvBreak c => break c w
  end.

Definition run (events : list Event) (w : World) : World :=
  fold_left handle events w.
End Service.
End ChatService.

(** ** Two small executions

    The executions below are used to run the model: a registry of streams
    of two users, and a room with three members. In both, a token is the
    name of its user. *)

Module Scenario.
Import Js.

Definition verify (token : jsstring) : option User :=
  if truthy token then Some (mkUser token token) else None.

(** The first decimal digit of a positive number with at most [fuel]
    digits more than one. The large numbers of the scenarios are a digit
    followed by zeros, and that digit is the first of [String(n)]. *)
Fixpoint first_digit_in (fuel : nat) (n : Z) : Z :=
  match fuel with
  | O => n
  | S fuel' => if Z.ltb n 10 then n else first_digit_in fuel' (n / 10)
  end.

Definition first_decimal_digit (n : Z) : Z := first_digit_in 400 n.

Definition T : TaskService.Externals :=
  {| TaskService.Proto := TaskService.Task;
     TaskService.toProtobuf := fun t => t;
     TaskService.jwt_verify := verify;
     TaskService.task_is_valid := fun _ => true;
     TaskService.validation_errors := fun _ => Some (lit "[]");
     TaskService.leading_digit := first_decimal_digit;
     TaskService.convertFromPriority := fun _ => lit "medium";
     TaskService.write_error := PlainError (lit "write after end") |}.

Definition C : ChatService.Externals :=
  {| ChatService.jwt_verify := verify;
     ChatService.write_error := PlainError (lit "write after end") |}.

(** Calls 1 and 4 are notification streams of [u1] and [u2]; calls 2, 3
    and 5 are task streams of [u1] with the filters [false], none and
    [true]; the peer of call 5 is gone. *)
Definition streams_open : list TaskService.Event :=
  [ TaskService.EvStreamNotifications 1 (lit "u1") (lit "s1") 5000%Z;
    TaskService.EvStreamTasks 2 (TaskService.mkStreamRequest (lit "u1") (JVal false))
                              (TaskService.AllResolves []) (lit "s2");
    TaskService.EvStreamTasks 3 (TaskService.mkStreamRequest (lit "u1") JUndefined)
                              (TaskService.AllResolves []) (lit "s3");
    TaskService.EvStreamNotifications 4 (lit "u2") (lit "s4") 6000%Z;
    TaskService.EvStreamTasks 5 (TaskService.mkStreamRequest (lit "u1") (JVal true))
                              (TaskService.AllResolves []) (lit "s5");
    TaskService.EvBreak 5 ].

Definition task_world : @TaskService.World T :=
  TaskService.run T streams_open (TaskService.init T).

Definition a_task (completed : bool) : TaskService.Task :=
  TaskService.mkTask (lit "t1") (lit "Comprar leite") [] (lit "medium") (lit "u1") completed.

Definition a_row (completed : N) : TaskService.Row :=
  TaskService.mkRow (lit "t1") (lit "Comprar leite") [] (lit "medium") (lit "u1") completed.

Definition create_request : TaskService.CreateRequest :=
  TaskService.mkCreateRequest (lit "u1") (JVal (lit " Comprar leite ")) JUndefined JUndefined.

Definition update_request : TaskService.UpdateRequest :=
  TaskService.mkUpdateRequest (lit "u1") (lit "t1") JUndefined JUndefined (JVal true)
                              JUndefined.

Definition bearer (name : string) : ChatService.Source :=
  ChatService.mkSource (Some (lit "Bearer " ++ lit name)) None.

Definition says (room text : string) : ChatService.Inbound :=
  ChatService.mkInbound (JVal (lit room)) (JVal (lit text)).

(** [ana], [bob] and [eva] join the room [general] on the calls 1, 2 and
    3; then the peer of call 2 goes away. *)
Definition three_join : list ChatService.Event :=
  [ ChatService.EvChat 1 (bearer "ana");
    ChatService.EvChat 2 (bearer "bob");
    ChatService.EvChat 3 (bearer "eva");
    ChatService.EvData 1 (says " general " "") 1000%Z;
    ChatService.EvData 2 (says "general" "") 2000%Z;
    ChatService.EvData 3 (says "general" "") 2500%Z;
    ChatService.EvBreak 2 ].

Definition chat_world : ChatService.World :=
  ChatService.run C three_join ChatService.init.

(** [ana] alone in the room [sala], and [bob] connected and in no room. *)
Definition one_joins : list ChatService.Event :=
  [ ChatService.EvChat 1 (bearer "ana");
    ChatService.EvChat 2 (bearer "bob");
    ChatService.EvData 1 (says "sala" "") 1000%Z ].

Definition lonely_world : ChatService.World :=
  ChatService.run C one_joins ChatService.init.

(** The message of [ana] for the text [" hello "] read at 3000 ms. *)
Definition hello : ChatService.ChatMessage :=
  ChatService.mkChatMessage (lit "general") (lit "hello") (lit "ana") (lit "ana") 3 0.
End Scenario.

(** ** Observations used in the statements *)

(** The writes a step appended to the wire. *)
Definition added {P} (before after : list (WriteCall P)) : list (WriteCall P) :=
  skipn (List.length before) after.

(** No call object belongs to two sessions of the registry (every stream
    handler is given a call of its own). *)
Definition calls_distinct {X} (w : @TaskService.World X) : Prop :=
  NoDup (List.map (fun e => TaskService.session_call (snd e))
                  (TaskService.streamingSessions w)).

(** The write of one turn of the loop of [notifyStreams], if the turn
    writes. *)
Definition write_of (X : TaskService.Externals) (action : Js.jsstring) (task : TaskService.Task) (now : Z)
           (broken : list Conn) (entry : Js.jsstring * TaskService.Session)
  : list (WriteCall (TaskService.Payload X)) :=
  match TaskService.payload_for X action task now (snd entry) with
  | Some p =>
      [mkWrite (TaskService.session_call (snd entry)) p
               (negb (is_broken broken (TaskService.session_call (snd entry))))]
  | None => []
  end.

(** A turn of the loop ends in the [catch]. *)
Definition write_throws (X : TaskService.Externals) (action : Js.jsstring) (task : TaskService.Task) (now : Z)
           (broken : list Conn) (entry : Js.jsstring * TaskService.Session) : bool :=
  match TaskService.payload_for X action task now (snd entry) with
  | Some _ => is_broken broken (TaskService.session_call (snd entry))
  | None => false
  end.

(** The actions the handlers give to [notifyStreams]. *)
Definition three_actions : list Js.jsstring :=
  [Js.lit "TASK_CREATED"; Js.lit "TASK_UPDATED"; Js.lit "TASK_DELETED"].

(** A notification has one of the types 0, 1 and 2. *)
Definition typed_below_3 {X} (wc : WriteCall (TaskService.Payload X)) : Prop :=
  match wc_payload wc with
  | TaskService.PNotification n =>
      TaskService.n_type n = Some 0%N \/ TaskService.n_type n = Some 1%N
      \/ TaskService.n_type n = Some 2%N
  | TaskService.PTask _ => True
  end.




(** The writes of a broadcast of [m] to the calls [l], in order. *)
Definition sends (broken : list Conn) (m : ChatService.ChatMessage) (l : list Conn)
  : list (WriteCall ChatService.ChatMessage) :=
  List.map (fun c => mkWrite c m (negb (is_broken broken c))) l.

(** No room of the registry has an empty member set. *)
Definition rooms_nonempty (m : list (Js.jsstring * list Conn)) : Prop :=
  Forall (fun e => snd e <> []) m.

(** ** services/TaskService.js: the handlers that read tasks, and the row
    of an update *)

Module TaskQueries.
Import Js.

(** A value bound to a [?] of a statement. *)
Inductive SqlValue : Type :=
| SqlText (s : jsstring)
| SqlInt (n : Z)
| SqlNull.

(** The request of [getTasks]. [page] and [limit] are whole numbers, what
    an integer field of the request decodes to. *)
Record ListRequest : Type := mkListRequest {
  list_token : jsstring;
  list_completed : jsopt bool;
  list_priority : jsopt N;
  list_page : jsopt Z;
  list_limit : jsopt Z
}.

(** [parseInt(n, 10)] of a whole number: [String(n)] is read up to its
    first character that is no digit. Below 1e21 in size [String(n)] is the
    decimal form of [n]. From 1e21 on it has an exponent, as in [1e+21] and
    [-2.5e+22], and what is read is its first digit with the sign. *)
Definition parseInt10 (leading : Z -> Z) (n : Z) : Z :=
  if Z.ltb (Z.abs n) (10 ^ 21) then n
  else (Z.sgn n * leading (Z.abs n))%Z.

(** The arguments of [database.getAllWithPagination]. *)
Record Query : Type := mkQuery {
  q_sql : jsstring;
  q_params : list SqlValue;
  q_page : Z;
  q_limit : Z
}.

(** What [database.getAllWithPagination] settles to. *)
Inductive PageResult : Type :=
| PageRejects (message : jsstring)
| PageResolves (rows : list TaskService.Row) (total page limit : Z).

Record GetRequest : Type := mkGetRequest {
  get_token : jsstring;
  get_task_id : jsstring
}.

(** [updateData] of [updateTask]; [None] is [null]. *)
Record UpdateData : Type := mkUpdateData {
  ud_title : jsstring;
  ud_description : option jsstring;
  ud_completed : option bool;
  ud_priority : jsstring
}.

Section Service.
Context (X : TaskService.Externals).

(** The arguments of [callback] in [getTasks]. *)
Inductive ListReply : Type :=
| ListSuccess (tasks : list (TaskService.Proto X)) (total page limit : Z)
| ListFailure (code : N) (details : jsstring).

(** [n ? parseInt(n, 10) : d]: [undefined], [null] and [0] are falsy. *)
Definition parsed_or (n : jsopt Z) (d : Z) : Z :=
  match n with
  | JVal v => if Z.eqb v 0 then d else parseInt10 (TaskService.leading_digit X) v
  | _ => d
  end.

(** The [try] block of [getTasks] up to the call of the database. *)
Definition getTasks_query (req : ListRequest) : Result Query :=
  user <- TaskService.validateToken X (list_token req) ;;
  let page := parsed_or (list_page req) 1 in
  let limit := parsed_or (list_limit req) 10 in
  (if Z.ltb page 1
   then Throw (new_GrpcAppError status.INVALID_ARGUMENT (lit "page deve ser >= 1")
                                (meta_field (lit "page")))
   else Ok tt) ;;;
  (if Z.ltb limit 1 || Z.ltb 100 limit
   then Throw (new_GrpcAppError status.INVALID_ARGUMENT
                                (lit "limit deve estar entre 1 e 100")
                                (meta_field (lit "limit")))
   else Ok tt) ;;;
  let sql0 := lit "SELECT * FROM tasks WHERE userId = ?" in
  let params0 := [SqlText (user_id user)] in
  let sql1 :=
    match list_completed req with
    | JVal _ => sql0 ++ lit " AND completed = ?"
    | _ => sql0
    end in
  let params1 :=
    match list_completed req with
    | JVal b => params0 ++ [SqlInt (if b then 1 else 0)]
    | _ => params0
    end in
  let sql2 :=
    match list_priority req with
    | JVal _ => sql1 ++ lit " AND priority = ?"
    | _ => sql1
    end in
  let params2 :=
    match list_priority req with
    | JVal p => params1 ++ [SqlText (TaskService.convertFromPriority X (JVal p))]
    | _ => params1
    end in
  Ok (mkQuery (sql2 ++ lit " ORDER BY createdAt DESC") params2 page limit).

(** [getTasks]: the query handed to the database, if the handler got that
    far, and the arguments of [callback]. *)
Definition getTasks (req : ListRequest) (result : PageResult) : ListReply :=
  match getTasks_query req with
  | Throw e => ListFailure (fst (toServiceError e)) (snd (toServiceError e))
  | Ok _ =>
      match result with
      | PageRejects m =>
          ListFailure (fst (toServiceError (PlainError m)))
                      (snd (toServiceError (PlainError m)))
      | PageResolves rows total page limit =>
          ListSuccess
            (List.map (fun row => TaskService.toProtobuf X (TaskService.Task_of_row row)) rows)
            total page limit
      end
  end.

(** [getTask]. *)
Definition getTask (req : GetRequest) (existing : TaskService.GetResult)
  : TaskService.Reply X :=
  match
    (TaskService.validateToken X (get_token req) ;;;
     found <- TaskService.await_get existing ;;
     match found with
     | None => Throw (new_GrpcAppError status.NOT_FOUND TaskService.Tarefa_nao_encontrada
                                       (meta_task_id (get_task_id req)))
     | Some row => Ok (TaskService.Task_of_row row)
     end)
  with
  | Ok task =>
      TaskService.Success X (lit "Tarefa encontrada") (Some (TaskService.toProtobuf X task))
  | Throw e => TaskService.reply_error X e
  end.

(** [updateData] of [updateTask], from the request and the existing row. *)
Definition updateData (req : TaskService.UpdateRequest) (existing : TaskService.Row)
  : UpdateData :=
  mkUpdateData
    (match TaskService.update_title req with
     | JVal t => t
     | _ => TaskService.row_title existing
     end)
    (match TaskService.update_description req with
     | JUndefined => Some (TaskService.row_description existing)
     | JNull => None
     | JVal d => Some d
     end)
    (match TaskService.update_completed req with
     | JUndefined => Some (N.eqb (TaskService.row_completed existing) 1)
     | JNull => None
     | JVal b => Some b
     end)
    (match TaskService.update_priority req with
     | JUndefined => TaskService.row_priority existing
     | p => TaskService.convertFromPriority X p
     end).

(** The values bound to the UPDATE of [updateTask]. *)
Definition update_params (req : TaskService.UpdateRequest) (existing : TaskService.Row)
           (user : User) : list SqlValue :=
  let d := updateData req existing in
  [ SqlText (ud_title d);
    match ud_description d with Some s => SqlText s | None => SqlNull end;
    SqlInt (match ud_completed d with Some true => 1 | _ => 0 end);
    SqlText (ud_priority d);
    SqlText (TaskService.update_task_id req);
    SqlText (user_id user) ].
End Service.

(** The number of [?] in a statement. *)
Definition placeholders (sql : jsstring) : nat :=
  List.length (filter (N.eqb 63) sql).
End TaskQueries.

(** ** middleware/auth.js *)

Module AuthInterceptor.
Import Js.

(** The options of [authInterceptor] with the variable [JWT_SECRET] of the
    environment. *)
Record Config : Type := mkConfig {
  secret : option jsstring;
  env_JWT_SECRET : option jsstring;
  publicMethods : list jsstring
}.

(** What the interceptor reads of a call: the values of the key
    [authorization] of [call.metadata] ([None] when the call has no
    metadata) and [call.request.token]. *)
Record Call : Type := mkCall {
  authorization : option (list jsstring);
  request_token : option jsstring
}.

(** The interceptor goes on with [next(call)], [call.user] set or not, or
    answers with [call.sendStatus]. *)
Inductive Outcome : Type :=
| Next (user : option User)
| SendStatus (code : N) (details : jsstring).

Definition opt_or (a : option jsstring) (b : jsstring) : jsstring :=
  match a with Some s => or_else s b | None => b end.

(** [secret || process.env.JWT_SECRET || 'secret']. *)
Definition jwtSecret (cfg : Config) : jsstring :=
  opt_or (secret cfg) (opt_or (env_JWT_SECRET cfg) (lit "secret")).

(** The token the interceptor settles on, the empty string when it finds
    none. *)
Definition token_of (call : Call) : jsstring :=
  let from_metadata :=
    match authorization call with
    | Some (raw :: _) => if startsWith raw (lit "Bearer ") then slice 7 raw else raw
    | _ => []
    end in
  if truthy from_metadata then from_metadata
  else match request_token call with Some t => t | None => [] end.

Definition Token_ausente : jsstring :=
  lit "Token de autentica" ++ [231%N; 227%N] ++ lit "o ausente".
Definition Token_invalido : jsstring :=
  lit "Token inv" ++ [225%N] ++ lit "lido ou expirado".

Section Interceptor.
(** [jwt.verify(token, secret)], [None] when it throws. *)
Context (jwt_verify : jsstring -> jsstring -> option User).

(** The function [authInterceptor(options)] returns, applied to a call and
    to the path of its method. *)
Definition authInterceptor (cfg : Config) (call : Call) (path : jsstring) : Outcome :=
  if existsb (streq path) (publicMethods cfg) then Next None
  else
    let token := token_of call in
    if truthy token then
      match jwt_verify (jwtSecret cfg) token with
      | Some payload => Next (Some payload)
      | None => SendStatus status.UNAUTHENTICATED Token_invalido
      end
    else SendStatus status.UNAUTHENTICATED Token_ausente.
End Interceptor.

(** The credentials of a call as [ChatService.validateToken] reads them. *)
Definition source_of (call : Call) : ChatService.Source :=
  ChatService.mkSource
    (match authorization call with Some (raw :: _) => Some raw | _ => None end)
    (request_token call).
End AuthInterceptor.

(** Every stream that holds a room in [joinedRoom] holds a name that is
    not empty and is a member of that room. *)
Definition joined_are_members (w : ChatService.World) : Prop :=
  forall c st r,
    JsMap.get Nat.eq_dec c (ChatService.streams w) = Some st ->
    ChatService.joinedRoom st = Some r ->
    Js.truthy r = true /\ In c (ChatService.members r w).

(** Every key of the registry of rooms is a name that is not empty and has
    no white space at its ends. *)
Definition room_keys_trimmed (m : list (Js.jsstring * list Conn)) : Prop :=
  Forall (fun e => Js.truthy (fst e) = true /\ Js.trim (fst e) = fst e) m.

(** More small executions and requests, for the handlers above. *)
Module Scenario2.
Import Js Scenario.

(** A verification under a secret: any token, under the secret
    ['secret'] only. *)
Definition verify_under (secret token : jsstring) : option User :=
  if streq secret (lit "secret") then verify token else None.

Definition no_secret : AuthInterceptor.Config :=
  AuthInterceptor.mkConfig None None [lit "/AuthService/Login"].

Definition bearer_call (name : string) : AuthInterceptor.Call :=
  AuthInterceptor.mkCall (Some [lit "Bearer " ++ lit name]) None.

(** A task stream of [u1] opened with [completed: null] on call 7. *)
Definition null_filter_world : @TaskService.World T :=
  TaskService.run
    T [TaskService.EvStreamTasks 7 (TaskService.mkStreamRequest (lit "u1") JNull)
                                 (TaskService.AllResolves []) (lit "s7")]
    (TaskService.init T).

(** [task_world] after the peer of the new call 6 has gone. *)
Definition dead_call_world : @TaskService.World T :=
  TaskService.break T 6 task_world.

(** [lonely_world] after the peer of call 2 has gone. *)
Definition deaf_world : ChatService.World := ChatService.break 2 lonely_world.

Definition blank_request : TaskService.CreateRequest :=
  TaskService.mkCreateRequest (lit "u1") (JVal (lit "   ")) JUndefined JUndefined.

(** An update of the task [tarefa-] followed by c with a cedilla, which
    [u1] does not have. *)
Definition cedilla_request : TaskService.UpdateRequest :=
  TaskService.mkUpdateRequest (lit "u1") (lit "tarefa-" ++ [231%N]) JUndefined JUndefined
                              (JVal true) JUndefined.

Definition list_request (page limit : Z) : TaskQueries.ListRequest :=
  TaskQueries.mkListRequest (lit "u1") (JVal true) JUndefined (JVal page) (JVal limit).
End Scenario2.

(** * Properties *)

(** ** Maps and sets *)

Section JsMapFacts.
Context {K V : Type} (K_dec : forall a b : K, {a = b} + {a <> b}).
Implicit Types (m : list (K * V)) (k : K) (v : V).

Lemma delete_idempotent k m :
  JsMap.delete K_dec k (JsMap.delete K_dec k m) = JsMap.delete K_dec k m.
Proof.
  unfold JsMap.delete. induction m as [|[k' v'] m IH]; simpl; auto.
  destruct (JsMap.keyb K_dec k k') eqn:E; simpl; auto.
  rewrite E. simpl. now rewrite IH.
Qed.

Lemma delete_absent k m :
  JsMap.get K_dec k m = None -> JsMap.delete K_dec k m = m.
Proof.
  unfold JsMap.delete, JsMap.keyb.
  induction m as [|[k' v'] m IH]; simpl; auto.
  destruct (K_dec k k'); simpl; [discriminate|].
  intros H. now rewrite IH.
Qed.

Lemma get_delete_same k m : JsMap.get K_dec k (JsMap.delete K_dec k m) = None.
Proof.
  unfold JsMap.delete, JsMap.keyb.
  induction m as [|[k' v'] m IH]; simpl; auto.
  destruct (K_dec k k') eqn:E; simpl; auto. now rewrite E.
Qed.

Lemma in_delete k m e :
  In e (JsMap.delete K_dec k m) <-> In e m /\ fst e <> k.
Proof.
  unfold JsMap.delete. rewrite filter_In. unfold JsMap.keyb.
  destruct (K_dec k (fst e)); simpl; intuition congruence.
Qed.

Lemma get_set_same k v m : JsMap.get K_dec k (JsMap.set K_dec k v m) = Some v.
Proof.
  induction m as [|[k' v'] m IH]; simpl.
  - destruct (K_dec k k); congruence.
  - destruct (K_dec k k') eqn:E; simpl.
    + destruct (K_dec k k); congruence.
    + now rewrite E.
Qed.

Lemma set_set k v v0 m :
  JsMap.set K_dec k v (JsMap.set K_dec k v0 m) = JsMap.set K_dec k v m.
Proof.
  induction m as [|[k' v'] m IH]; simpl.
  - destruct (K_dec k k); congruence.
  - destruct (K_dec k k') eqn:E; simpl.
    + destruct (K_dec k k); congruence.
    + rewrite E. now rewrite IH.
Qed.

Lemma set_same k v m :
  JsMap.get K_dec k m = Some v -> JsMap.set K_dec k v m = m.
Proof.
  induction m as [|[k' v'] m IH]; simpl; [discriminate|].
  destruct (K_dec k k').
  - intros [= ->]. now subst.
  - intros H. now rewrite IH.
Qed.

Lemma in_set k v m e :
  In e (JsMap.set K_dec k v m) -> e = (k, v) \/ In e m.
Proof.
  induction m as [|[k' v'] m IH]; simpl.
  - intuition.
  - destruct (K_dec k k'); simpl; intuition.
Qed.

Lemma get_in k v m : JsMap.get K_dec k m = Some v -> In (k, v) m.
Proof.
  induction m as [|[k' v'] m IH]; simpl; [discriminate|].
  destruct (K_dec k k').
  - intros [= ->]. subst. now left.
  - intros H. right. auto.
Qed.

Lemma in_get_nodup k v m :
  NoDup (JsMap.keys m) -> In (k, v) m -> JsMap.get K_dec k m = Some v.
Proof.
  unfold JsMap.keys.
  induction m as [|[k' v'] m IH]; simpl; [tauto|].
  intros Hnd [Heq | Hin].
  - inversion Heq; subst. destruct (K_dec k k); congruence.
  - inversion Hnd as [|? ? Hnot Hnd']; subst.
    destruct (K_dec k k').
    + subst. exfalso. apply Hnot. apply (in_map fst) in Hin. exact Hin.
    + auto.
Qed.
End JsMapFacts.

Section ListFacts.
Context {A B : Type}.

Lemma NoDup_map_filter (g : A -> B) (f : A -> bool) (l : list A) :
  NoDup (List.map g l) -> NoDup (List.map g (filter f l)).
Proof.
  induction l as [|a l IH]; simpl; auto.
  intros H. inversion H as [|? ? Hnot Hnd]; subst.
  destruct (f a); simpl; auto.
  constructor; auto.
  intros Hin. apply Hnot. apply in_map_iff in Hin as [x [Hx Hin]].
  apply filter_In in Hin as [Hin _]. apply in_map_iff. eauto.
Qed.

Lemma filter_none (f : A -> bool) (l : list A) :
  (forall a, In a l -> f a = false) -> filter f l = [].
Proof.
  induction l as [|a l IH]; simpl; auto.
  intros H. rewrite (H a (or_introl eq_refl)). auto.
Qed.

Lemma filter_all (f : A -> bool) (l : list A) :
  (forall a, In a l -> f a = true) -> filter f l = l.
Proof.
  induction l as [|a l IH]; simpl; auto.
  intros H. rewrite (H a (or_introl eq_refl)). f_equal. auto.
Qed.

(** In a list whose images under [g] are distinct, the elements with the
    image of [a] are [a] alone. *)
Lemma filter_unique (g : A -> nat) (l : list A) (a : A) :
  NoDup (List.map g l) -> In a l ->
  filter (fun x => Nat.eqb (g x) (g a)) l = [a].
Proof.
  induction l as [|x l IH]; simpl; [tauto|].
  intros Hnd Hin. inversion Hnd as [|? ? Hnot Hnd']; subst.
  destruct Hin as [-> | Hin].
  - rewrite Nat.eqb_refl. f_equal. apply filter_none.
    intros y Hy. apply Nat.eqb_neq. intros E. apply Hnot.
    rewrite <- E. now apply in_map.
  - destruct (Nat.eqb (g x) (g a)) eqn:E.
    + apply Nat.eqb_eq in E. exfalso. apply Hnot. rewrite E. now apply in_map.
    + auto.
Qed.

Lemma skipn_app_length (l1 l2 : list A) : skipn (List.length l1) (l1 ++ l2) = l2.
Proof. induction l1; simpl; auto. Qed.
End ListFacts.

Lemma added_app {P} (l1 l2 : list (WriteCall P)) : added l1 (l1 ++ l2) = l2.
Proof. apply skipn_app_length. Qed.

Lemma writes_to_app {P} c (l1 l2 : list (WriteCall P)) :
  writes_to c (l1 ++ l2) = writes_to c l1 ++ writes_to c l2.
Proof. apply filter_app. Qed.

(** ** The dispatcher of TaskService *)

Section NotifyFacts.
Import Js.
Context (X : TaskService.Externals).
Context (action : jsstring) (task : TaskService.Task) (now : Z).

Local Abbreviation World := (@TaskService.World X).
Local Abbreviation step := (TaskService.notify_session X action task now).
Local Abbreviation loop l w := (fold_left step l w).

Lemma notify_session_frame (w : World) e :
  TaskService.broken (step w e) = TaskService.broken w
  /\ TaskService.listeners (step w e) = TaskService.listeners w
  /\ TaskService.destroyed (step w e) = TaskService.destroyed w
  /\ TaskService.dispatched (step w e) = TaskService.dispatched w.
Proof.
  unfold TaskService.notify_session.
  destruct (TaskService.payload_for X action task now (snd e)); auto.
  unfold TaskService.call_write.
  destruct (negb _); simpl; auto.
Qed.

Lemma notify_session_wire (w : World) e :
  TaskService.wire (step w e)
  = TaskService.wire w ++ write_of X action task now (TaskService.broken w) e.
Proof.
  unfold TaskService.notify_session, write_of.
  destruct (TaskService.payload_for X action task now (snd e)).
  - unfold TaskService.call_write. destruct (negb _); reflexivity.
  - now rewrite app_nil_r.
Qed.

Lemma notify_session_sessions (w : World) e :
  TaskService.streamingSessions (step w e)
  = if write_throws X action task now (TaskService.broken w) e
    then JsMap.delete jsstring_dec (fst e) (TaskService.streamingSessions w)
    else TaskService.streamingSessions w.
Proof.
  unfold TaskService.notify_session, write_throws.
  destruct (TaskService.payload_for X action task now (snd e)); auto.
  unfold TaskService.call_write.
  destruct (is_broken _ _); reflexivity.
Qed.

Lemma loop_frame l (w : World) :
  TaskService.broken (loop l w) = TaskService.broken w
  /\ TaskService.listeners (loop l w) = TaskService.listeners w
  /\ TaskService.destroyed (loop l w) = TaskService.destroyed w
  /\ TaskService.dispatched (loop l w) = TaskService.dispatched w.
Proof.
  revert w. induction l as [|e l IH]; intros w; simpl; auto.
  destruct (IH (step w e)) as (-> & -> & -> & ->).
  apply notify_session_frame.
Qed.

Lemma loop_wire l (w : World) :
  TaskService.wire (loop l w)
  = TaskService.wire w ++ flat_map (write_of X action task now (TaskService.broken w)) l.
Proof.
  revert w. induction l as [|e l IH]; intros w; simpl.
  - now rewrite app_nil_r.
  - rewrite IH, notify_session_wire.
    destruct (notify_session_frame w e) as (-> & _).
    now rewrite <- app_assoc.
Qed.

(** The entries that survive the loop: those whose key is not the key of
    a turn that ended in the [catch]. *)
Lemma loop_sessions l (w : World) e :
  In e (TaskService.streamingSessions (loop l w))
  <-> In e (TaskService.streamingSessions w)
      /\ (forall e', In e' l ->
                     write_throws X action task now (TaskService.broken w) e' = true ->
                     fst e' <> fst e).
Proof.
  revert w. induction l as [|x l IH]; intros w; simpl.
  - intuition.
  - rewrite IH. destruct (notify_session_frame w x) as (-> & _).
    rewrite notify_session_sessions.
    destruct (write_throws X action task now (TaskService.broken w) x) eqn:E.
    + rewrite in_delete. split.
      * intros [[Hin Hne] Hl]. split; auto.
        intros e' [<- | He'] Ht; auto.
      * intros [Hin Hl]. repeat split; auto.
        intros Heq. apply (Hl x); auto.
    + split.
      * intros [Hin Hl]. split; auto.
        intros e' [<- | He'] Ht; [congruence | auto].
      * intros [Hin Hl]. split; auto.
Qed.

Lemma loop_keys_nodup l (w : World) :
  NoDup (JsMap.keys (TaskService.streamingSessions w)) ->
  NoDup (JsMap.keys (TaskService.streamingSessions (loop l w))).
Proof.
  revert w. induction l as [|x l IH]; intros w H; simpl; auto.
  apply IH. rewrite notify_session_sessions.
  destruct (write_throws _ _ _ _ _); auto.
  now apply NoDup_map_filter.
Qed.

(** The writes of one dispatch, in the order of the registry. *)
Lemma notifyStreams_wire (w : World) :
  TaskService.wire (TaskService.notifyStreams X action task now w)
  = TaskService.wire w
    ++ flat_map (write_of X action task now (TaskService.broken w))
                (TaskService.streamingSessions w).
Proof. unfold TaskService.notifyStreams. now rewrite loop_wire. Qed.

Lemma notifyStreams_added (w : World) :
  added (TaskService.wire w)
        (TaskService.wire (TaskService.notifyStreams X action task now w))
  = flat_map (write_of X action task now (TaskService.broken w))
             (TaskService.streamingSessions w).
Proof. rewrite notifyStreams_wire. apply added_app. Qed.

Lemma notifyStreams_sessions (w : World) e :
  In e (TaskService.streamingSessions (TaskService.notifyStreams X action task now w))
  <-> In e (TaskService.streamingSessions w)
      /\ (forall e', In e' (TaskService.streamingSessions w) ->
                     write_throws X action task now (TaskService.broken w) e' = true ->
                     fst e' <> fst e).
Proof. unfold TaskService.notifyStreams. now rewrite loop_sessions. Qed.

Lemma notifyStreams_dispatched (w : World) :
  TaskService.dispatched (TaskService.notifyStreams X action task now w)
  = TaskService.dispatched w ++ [(action, task)].
Proof.
  unfold TaskService.notifyStreams.
  now destruct (loop_frame (TaskService.streamingSessions w)
                 (TaskService.record_dispatch X action task w)) as (_ & _ & _ & ->).
Qed.

(** The writes of a dispatch on one call are those of the sessions that
    hold the call. *)
Lemma writes_to_flat_map c broken (l : list (jsstring * TaskService.Session)) :
  writes_to c (flat_map (write_of X action task now broken) l)
  = flat_map (write_of X action task now broken)
             (filter (fun e => Nat.eqb (TaskService.session_call (snd e)) c) l).
Proof.
  induction l as [|e l IH]; simpl; auto.
  rewrite writes_to_app, IH.
  destruct (Nat.eqb (TaskService.session_call (snd e)) c) eqn:E; simpl.
  - f_equal. unfold write_of.
    destruct (TaskService.payload_for X action task now (snd e)); simpl; auto.
    now rewrite E.
  - unfold write_of at 1.
    destruct (TaskService.payload_for X action task now (snd e)); simpl; auto.
    now rewrite E.
Qed.

(** With one session per call, the writes of a dispatch on the call of a
    session are the write of the turn of that session. *)
Lemma notifyStreams_writes_to (w : World) e :
  calls_distinct w ->
  In e (TaskService.streamingSessions w) ->
  writes_to (TaskService.session_call (snd e))
            (added (TaskService.wire w)
                   (TaskService.wire (TaskService.notifyStreams X action task now w)))
  = write_of X action task now (TaskService.broken w) e.
Proof.
  intros Hd Hin. rewrite notifyStreams_added, writes_to_flat_map.
  rewrite (filter_unique (fun e => TaskService.session_call (snd e)) _ e Hd Hin).
  simpl. apply app_nil_r.
Qed.
End NotifyFacts.

(** ** Which sessions a dispatch writes to *)

Section DispatchClaims.
Import Js.
Context (X : TaskService.Externals).

Local Abbreviation World := (@TaskService.World X).

Lemma streq_true a b : streq a b = true <-> a = b.
Proof. unfold streq. destruct (jsstring_dec a b); split; congruence. Qed.

Lemma streq_false a b : streq a b = false <-> a <> b.
Proof. unfold streq. destruct (jsstring_dec a b); split; congruence. Qed.

Lemma streq_refl a : streq a a = true.
Proof. now apply streq_true. Qed.

(** C3. A dispatch of [TASK_DELETED] writes nothing on the call of a
    session that is not a notification stream, and writes on the call of
    every notification stream of the owner of the task one envelope, with
    type 2, the task, the message and the timestamp, whatever the filter
    of the session. *)
Theorem C3_deleted_never_reaches_task_streams
        (task : TaskService.Task) (now : Z) (w : World) :
  calls_distinct w ->
  let w' := TaskService.notifyStreams X (lit "TASK_DELETED") task now w in
  (forall sid s,
      In (sid, s) (TaskService.streamingSessions w) ->
      TaskService.is_notifications (TaskService.session_type s) = false ->
      writes_to (TaskService.session_call s)
                (added (TaskService.wire w) (TaskService.wire w')) = [])
  /\ (forall sid s,
         In (sid, s) (TaskService.streamingSessions w) ->
         TaskService.is_notifications (TaskService.session_type s) = true ->
         TaskService.session_userId s = TaskService.task_userId task ->
         writes_to (TaskService.session_call s)
                   (added (TaskService.wire w) (TaskService.wire w'))
         = [mkWrite (TaskService.session_call s)
                    (TaskService.PNotification
                       (TaskService.mkNotification
                          (Some 2%N)
                          (Some (TaskService.toProtobuf X task))
                          (lit "Tarefa task deleted")
                          (now / 1000)%Z))
                    (negb (is_broken (TaskService.broken w)
                                     (TaskService.session_call s)))]).
Proof.
  intros Hd w'. subst w'. split; intros sid s Hin Hty.
  - rewrite (notifyStreams_writes_to X _ task now w (sid, s) Hd Hin).
    unfold write_of, TaskService.payload_for. simpl. rewrite Hty.
    destruct (streq _ _); auto.
    destruct (TaskService.session_filter s); auto.
    destruct (TaskService.filter_matches _ _); auto.
  - intros Hown.
    rewrite (notifyStreams_writes_to X _ task now w (sid, s) Hd Hin).
    unfold write_of, TaskService.payload_for. simpl. rewrite Hty, Hown, streq_refl.
    reflexivity.
Qed.

(** C4. For a task stream of the owner of the task and an action other
    than [TASK_DELETED]: with a boolean filter the task is written on the
    call exactly when the filter equals [task.completed], and with the
    filter left [undefined] it is always written. *)
Theorem C4_filter_decides_delivery
        (action : jsstring) (task : TaskService.Task) (now : Z) (w : World)
        (sid : jsstring) (s : TaskService.Session) :
  calls_distinct w ->
  In (sid, s) (TaskService.streamingSessions w) ->
  TaskService.is_notifications (TaskService.session_type s) = false ->
  TaskService.session_userId s = TaskService.task_userId task ->
  action <> lit "TASK_DELETED" ->
  let sent :=
    writes_to (TaskService.session_call s)
              (added (TaskService.wire w)
                     (TaskService.wire (TaskService.notifyStreams X action task now w))) in
  let the_write :=
    mkWrite (TaskService.session_call s)
            (TaskService.PTask (TaskService.toProtobuf X task))
            (negb (is_broken (TaskService.broken w) (TaskService.session_call s))) in
  (forall b,
      TaskService.session_filter s = Some (TaskService.mkFilter (JVal b)) ->
      (b = TaskService.task_completed task -> sent = [the_write])
      /\ (b <> TaskService.task_completed task -> sent = []))
  /\ (TaskService.session_filter s = Some (TaskService.mkFilter JUndefined) ->
      sent = [the_write]).
Proof.
  intros Hd Hin Hty Hown Hact sent the_write. subst sent the_write.
  pose proof (notifyStreams_writes_to X action task now w (sid, s) Hd Hin) as E.
  cbn [snd] in E. rewrite E. clear E.
  apply streq_false in Hact.
  unfold write_of, TaskService.payload_for. simpl.
  rewrite Hty, Hown, streq_refl, Hact. simpl.
  split.
  - intros b ->. unfold TaskService.filter_matches. simpl. split.
    + intros ->. now rewrite Bool.eqb_reflx.
    + intros Hne. destruct (Bool.eqb b (TaskService.task_completed task)) eqn:E; auto.
      apply Bool.eqb_prop in E. contradiction.
  - intros ->. reflexivity.
Qed.

(** C5. A dispatch for a task of owner A writes nothing on the call of a
    session whose [userId] is not A. *)
Theorem C5_owner_isolation
        (action : jsstring) (task : TaskService.Task) (now : Z) (w : World)
        (sid : jsstring) (s : TaskService.Session) :
  calls_distinct w ->
  In (sid, s) (TaskService.streamingSessions w) ->
  TaskService.session_userId s <> TaskService.task_userId task ->
  writes_to (TaskService.session_call s)
            (added (TaskService.wire w)
                   (TaskService.wire (TaskService.notifyStreams X action task now w)))
  = [].
Proof.
  intros Hd Hin Hne.
  pose proof (notifyStreams_writes_to X action task now w (sid, s) Hd Hin) as E.
  cbn [snd] in E. rewrite E. clear E.
  apply streq_false in Hne.
  unfold write_of, TaskService.payload_for. simpl. now rewrite Hne.
Qed.
End DispatchClaims.

(** ** The handlers of TaskService and its executions *)

Section HandlerFacts.
Import Js.
Context (X : TaskService.Externals).

Local Abbreviation World := (@TaskService.World X).







End HandlerFacts.

Section ExecutionFacts.
Import Js.
Context (X : TaskService.Externals).

Local Abbreviation World := (@TaskService.World X).

Lemma type_of_three action :
  In action three_actions ->
  let t := JsMap.get jsstring_dec action (TaskService.notificationTypeMap) in
  t = Some 0%N \/ t = Some 1%N \/ t = Some 2%N.
Proof.
  intros [<- | [<- | [<- | []]]]; vm_compute; auto.
Qed.

Lemma write_of_typed action task now broken e :
  In action three_actions ->
  Forall typed_below_3 (write_of X action task now broken e).
Proof.
  intros Ha. unfold write_of, TaskService.payload_for.
  destruct (streq _ _); [|constructor].
  destruct (TaskService.is_notifications _).
  - constructor; [|constructor].
    unfold typed_below_3; simpl. now apply type_of_three.
  - destruct (TaskService.session_filter _); [|constructor].
    destruct (TaskService.filter_matches _ _); [|constructor].
    destruct (negb _); constructor; [exact I | constructor].
Qed.

Lemma notifyStreams_typed action task now (w : World) :
  In action three_actions ->
  exists l,
    TaskService.wire (TaskService.notifyStreams X action task now w)
    = TaskService.wire w ++ l
    /\ Forall typed_below_3 l.
Proof.
  intros Ha. eexists. split; [apply notifyStreams_wire|].
  induction (TaskService.streamingSessions w) as [|e l IH]; simpl.
  - constructor.
  - apply Forall_app. split; auto. now apply write_of_typed.
Qed.

Lemma replay_fields c rows (w : World) :
  TaskService.dispatched (fst (TaskService.replay X c rows w)) = TaskService.dispatched w
  /\ exists l,
       TaskService.wire (fst (TaskService.replay X c rows w)) = TaskService.wire w ++ l
       /\ Forall typed_below_3 l.
Proof.
  revert w. induction rows as [|row rows IH]; intros w; simpl.
  - split; auto. exists []. split; [now rewrite app_nil_r | constructor].
  - destruct (negb (is_broken (TaskService.broken w) c)) eqn:E.
    + match goal with |- context [TaskService.replay X c rows ?w1] =>
        destruct (IH w1) as [Hd [l [Hw Hl]]] end.
      rewrite Hd, Hw. simpl. split; auto.
      eexists. rewrite <- app_assoc. split; [reflexivity|].
      constructor; [exact I | exact Hl].
    + simpl. split; auto. eexists. split; [reflexivity|].
      constructor; [exact I | constructor].
Qed.

Lemma emit_fields c sg (w : World) :
  TaskService.wire (TaskService.emit X c sg w) = TaskService.wire w
  /\ TaskService.dispatched (TaskService.emit X c sg w) = TaskService.dispatched w.
Proof.
  unfold TaskService.emit. generalize (TaskService.listeners w).
  intros l. revert w. induction l as [|[[c' sg'] sid] l IH]; intros w; simpl; auto.
  destruct (Nat.eqb c c' && Signal_eqb sg sg'); auto.
  destruct (IH (TaskService.sessions_delete X sid w)) as [-> ->]. auto.
Qed.

Lemma nothing_added {A} (l : list A) (P : A -> Prop) :
  exists l', l = l ++ l' /\ Forall P l'.
Proof. exists []. split; [now rewrite app_nil_r | constructor]. Qed.

(** A step appends to the wire, and what it appends is a task or a
    notification of type 0, 1 or 2. *)
Lemma handle_wire (w : World) e :
  exists l,
    TaskService.wire (TaskService.handle X w e) = TaskService.wire w ++ l
    /\ Forall typed_below_3 l.
Proof.
  destruct e; simpl.
  - unfold TaskService.createTask.
    destruct (TaskService.createTask_commit X req uuid run); simpl.
    + apply notifyStreams_typed. simpl; auto.
    + apply nothing_added.
  - unfold TaskService.updateTask.
    destruct (TaskService.updateTask_commit X req existing run updated); simpl.
    + apply notifyStreams_typed. simpl; auto.
    + apply nothing_added.
  - unfold TaskService.deleteTask.
    destruct (TaskService.deleteTask_commit X req existing run); simpl.
    + apply notifyStreams_typed. simpl; auto.
    + apply nothing_added.
  - unfold TaskService.streamTasks.
    destruct (TaskService.validateToken X _); [|apply nothing_added].
    destruct all as [m|rows]; [apply nothing_added|].
    destruct (replay_fields c rows w) as [_ Hw].
    destruct (TaskService.replay X c rows w) as [w1 ok]. simpl in Hw.
    destruct ok; simpl; exact Hw.
  - unfold TaskService.streamNotifications.
    destruct (TaskService.validateToken X _); [|apply nothing_added].
    unfold TaskService.call_write. simpl.
    destruct (negb _); simpl; eexists; (split; [reflexivity|]);
      (constructor; [|constructor]); unfold typed_below_3; simpl; auto.
  - destruct (emit_fields c sg w) as [-> _]. apply nothing_added.
  - apply nothing_added.
Qed.

(** A step calls [notifyStreams] at most once, with one of the three
    actions. *)
Lemma handle_dispatched (w : World) e :
  exists l,
    TaskService.dispatched (TaskService.handle X w e) = TaskService.dispatched w ++ l
    /\ Forall (fun d => In (fst d) three_actions) l.
Proof.
  destruct e; simpl.
  - unfold TaskService.createTask.
    destruct (TaskService.createTask_commit X req uuid run); simpl.
    + rewrite notifyStreams_dispatched. eexists. split; [reflexivity|].
      constructor; simpl; auto.
    + apply nothing_added.
  - unfold TaskService.updateTask.
    destruct (TaskService.updateTask_commit X req existing run updated); simpl.
    + rewrite notifyStreams_dispatched. eexists. split; [reflexivity|].
      constructor; simpl; auto.
    + apply nothing_added.
  - unfold TaskService.deleteTask.
    destruct (TaskService.deleteTask_commit X req existing run); simpl.
    + rewrite notifyStreams_dispatched. eexists. split; [reflexivity|].
      constructor; simpl; auto.
    + apply nothing_added.
  - unfold TaskService.streamTasks.
    destruct (TaskService.validateToken X _); [|apply nothing_added].
    destruct all as [m|rows]; [apply nothing_added|].
    destruct (replay_fields c rows w) as [Hd _].
    destruct (TaskService.replay X c rows w) as [w1 ok]. simpl in Hd.
    destruct ok; simpl; rewrite Hd; apply nothing_added.
  - unfold TaskService.streamNotifications.
    destruct (TaskService.validateToken X _); [|apply nothing_added].
    unfold TaskService.call_write. simpl.
    destruct (negb _); simpl; apply nothing_added.
  - destruct (emit_fields c sg w) as [_ ->]. apply nothing_added.
  - apply nothing_added.
Qed.

Lemma run_wire events (w : World) :
  exists l,
    TaskService.wire (TaskService.run X events w) = TaskService.wire w ++ l
    /\ Forall typed_below_3 l.
Proof.
  revert w. induction events as [|e events IH]; intros w; simpl.
  - apply nothing_added.
  - destruct (IH (TaskService.handle X w e)) as [l2 [-> H2]].
    destruct (handle_wire w e) as [l1 [-> H1]].
    exists (l1 ++ l2). rewrite app_assoc. split; auto.
    apply Forall_app; auto.
Qed.

Lemma run_dispatched events (w : World) :
  exists l,
    TaskService.dispatched (TaskService.run X events w) = TaskService.dispatched w ++ l
    /\ Forall (fun d => In (fst d) three_actions) l.
Proof.
  revert w. induction events as [|e events IH]; intros w; simpl.
  - apply nothing_added.
  - destruct (IH (TaskService.handle X w e)) as [l2 [-> H2]].
    destruct (handle_dispatched w e) as [l1 [-> H1]].
    exists (l1 ++ l2). rewrite app_assoc. split; auto.
    apply Forall_app; auto.
Qed.
End ExecutionFacts.

Section StreamClaims.
Import Js.
Context (X : TaskService.Externals).

Local Abbreviation World := (@TaskService.World X).

(** C9. [streamNotifications] with a token that verifies writes one
    envelope on the call: type 0, which is the type of [TASK_CREATED],
    the message 'Stream de notificacoes iniciado' (with c-cedilla and
    o-tilde), the timestamp and no task. On a call on which nothing was
    written before, it stays the first write in every continuation of the
    execution, so every dispatched event comes after it. *)
Theorem C9_initial_notification_comes_first
        (c : Conn) (token uuid : jsstring) (now : Z) (w : World) (u : User) :
  TaskService.jwt_verify X token = Some u ->
  writes_to c (TaskService.wire w) = [] ->
  let first :=
    mkWrite c
            (TaskService.PNotification
               (TaskService.mkNotification
                  (Some 0%N) None
                  (lit "Stream de notifica" ++ [231%N; 245%N] ++ lit "es iniciado")
                  (now / 1000)%Z))
            (negb (is_broken (TaskService.broken w) c)) in
  let w' := TaskService.streamNotifications X c token uuid now w in
  added (TaskService.wire w) (TaskService.wire w') = [first]
  /\ JsMap.get jsstring_dec (lit "TASK_CREATED") TaskService.notificationTypeMap
     = Some 0%N
  /\ JsMap.get jsstring_dec uuid (TaskService.streamingSessions w')
     = Some (TaskService.mkSession c (user_id u) (Some (lit "notifications")) None)
  /\ forall events,
      exists rest,
        writes_to c (TaskService.wire (TaskService.run X events w')) = first :: rest.
Proof.
  intros Hu Hnew first w'.
  assert (Hw : TaskService.wire w' = TaskService.wire w ++ [first]).
  { subst w' first. unfold TaskService.streamNotifications, TaskService.validateToken.
    rewrite Hu. unfold TaskService.call_write. simpl.
    destruct (negb _); reflexivity. }
  split; [rewrite Hw; apply added_app|].
  split; [reflexivity|].
  split.
  - subst w'. unfold TaskService.streamNotifications, TaskService.validateToken.
    rewrite Hu. unfold TaskService.call_write. simpl.
    destruct (negb _); simpl; apply get_set_same.
  - intros events.
    destruct (run_wire X events w') as [l [-> _]].
    rewrite Hw, !writes_to_app, Hnew. simpl.
    subst first. simpl. rewrite Nat.eqb_refl. simpl. eauto.
Qed.

(** C10. In every execution of the service from its start, every call of
    [notifyStreams] has one of the actions [TASK_CREATED], [TASK_UPDATED]
    and [TASK_DELETED], never [TASK_COMPLETED]; no notification on the
    wire has the type 3, which the map of the dispatcher gives to
    [TASK_COMPLETED]; and what [updateTask] dispatches, whatever the
    request changes, is [TASK_UPDATED]. *)
Theorem C10_completed_is_never_dispatched (events : list TaskService.Event) :
  let w := TaskService.run X events (TaskService.init X) in
  Forall (fun d => In (fst d) three_actions /\ fst d <> lit "TASK_COMPLETED")
         (TaskService.dispatched w)
  /\ (forall wc n,
         In wc (TaskService.wire w) ->
         wc_payload wc = TaskService.PNotification n ->
         TaskService.n_type n <> Some 3%N)
  /\ JsMap.get jsstring_dec (lit "TASK_COMPLETED") TaskService.notificationTypeMap
     = Some 3%N
  /\ (forall req existing run updated now (w0 : World),
         exists l,
           TaskService.dispatched
             (fst (TaskService.updateTask X req existing run updated now w0))
           = TaskService.dispatched w0 ++ l
           /\ Forall (fun d => fst d = lit "TASK_UPDATED") l).
Proof.
  intros w. subst w. repeat split.
  - destruct (run_dispatched X events (TaskService.init X)) as [l [-> Hl]].
    simpl. eapply Forall_impl; [|exact Hl].
    intros d Hd. split; auto.
    simpl in Hd. destruct Hd as [<- | [<- | [<- | []]]]; discriminate.
  - intros wc n Hin Hp.
    destruct (run_wire X events (TaskService.init X)) as [l [E Hl]].
    rewrite E in Hin. simpl in Hin.
    rewrite Forall_forall in Hl. specialize (Hl wc Hin).
    unfold typed_below_3 in Hl. rewrite Hp in Hl.
    destruct Hl as [-> | [-> | ->]]; discriminate.
  - intros req existing run updated now w0. unfold TaskService.updateTask.
    destruct (TaskService.updateTask_commit X req existing run updated); simpl.
    + rewrite notifyStreams_dispatched. eexists. split; [reflexivity|].
      constructor; [reflexivity | constructor].
    + exists []. split; [now rewrite app_nil_r | constructor].
Qed.
End StreamClaims.

(** ** ChatService: broadcast *)

Section BroadcastFacts.
Import Js.

Lemma broadcast_fold message exc set (w : ChatService.World) :
  fold_left
    (fun w' c => if ChatService.is_except exc c then w'
                 else fst (ChatService.call_write c message w'))
    set w
  = ChatService.mkWorld
      (ChatService.rooms w) (ChatService.streams w)
      (ChatService.wire w
       ++ sends (ChatService.broken w) message
                (filter (fun c => negb (ChatService.is_except exc c)) set))
      (ChatService.destroyed w) (ChatService.ended w) (ChatService.broken w).
Proof.
  revert w. induction set as [|c set IH]; intros w; simpl.
  - rewrite app_nil_r. now destruct w.
  - destruct (ChatService.is_except exc c); simpl.
    + apply IH.
    + rewrite IH. simpl. now rewrite <- app_assoc.
Qed.

(** A broadcast changes the wire only: one write for each member of the
    room but the excepted call, in the order of the member set. *)
Lemma broadcast_eq room message exc (w : ChatService.World) :
  ChatService._broadcast room message exc w
  = ChatService.mkWorld
      (ChatService.rooms w) (ChatService.streams w)
      (ChatService.wire w
       ++ sends (ChatService.broken w) message
                (filter (fun c => negb (ChatService.is_except exc c))
                        (ChatService.members room w)))
      (ChatService.destroyed w) (ChatService.ended w) (ChatService.broken w).
Proof.
  unfold ChatService._broadcast, ChatService.members.
  destruct (JsMap.get jsstring_dec room (ChatService.rooms w)).
  - apply broadcast_fold.
  - simpl. rewrite app_nil_r. now destruct w.
Qed.

Lemma broadcast_all room message (w : ChatService.World) :
  ChatService._broadcast room message None w
  = ChatService.mkWorld
      (ChatService.rooms w) (ChatService.streams w)
      (ChatService.wire w
       ++ sends (ChatService.broken w) message (ChatService.members room w))
      (ChatService.destroyed w) (ChatService.ended w) (ChatService.broken w).
Proof.
  rewrite broadcast_eq. now rewrite filter_all.
Qed.

Lemma writes_to_sends c broken message set :
  NoDup set -> In c set ->
  writes_to c (sends broken message set)
  = [mkWrite c message (negb (is_broken broken c))].
Proof.
  intros Hnd Hin. unfold writes_to, sends.
  assert (E : forall l,
             filter (fun wc : WriteCall ChatService.ChatMessage => Nat.eqb (wc_conn wc) c)
                    (List.map (fun x => mkWrite x message (negb (is_broken broken x))) l)
             = List.map (fun x => mkWrite x message (negb (is_broken broken x)))
                        (filter (fun x => Nat.eqb x c) l)).
  { induction l as [|x l IH]; simpl; auto.
    destruct (Nat.eqb x c); simpl; now rewrite IH. }
  rewrite E.
  rewrite (filter_unique (fun x => x) set c); [reflexivity | | exact Hin].
  now rewrite map_id.
Qed.

Lemma truthy_trim s : truthy (trim s) = true -> truthy s = true.
Proof. destruct s; auto. Qed.
End BroadcastFacts.

Section ChatClaims.
Import Js.
Context (X : ChatService.Externals).

(** C1, as the code has it. On a stream that has joined the room [r], a
    message whose [room] and [text] are not empty after trimming makes
    the handler write the message of type 0 with the trimmed text, once
    on the call of every member of [r] in the order of the member set:
    [_broadcast] is called with no excepted call, so the call of the
    sender, a member of [r], is written the message as well. *)
Theorem C1_text_goes_to_every_member
        (c : Conn) (msg : ChatService.Inbound) (now : Z) (w : ChatService.World)
        (st : ChatService.Local) (r : jsstring) (u : User) :
  JsMap.get Nat.eq_dec c (ChatService.streams w) = Some st ->
  ChatService.joined st = Some r ->
  ChatService.user st = Some u ->
  truthy (trim (str_or_empty (ChatService.in_room msg))) = true ->
  truthy (trim (str_or_empty (ChatService.in_text msg))) = true ->
  let out :=
    ChatService.mkChatMessage
      r (trim (str_or_empty (ChatService.in_text msg)))
      (user_id u) (user_username u) (now / 1000)%Z 0%N in
  let w' := ChatService.on_data X c msg now w in
  added (ChatService.wire w) (ChatService.wire w')
  = sends (ChatService.broken w) out (ChatService.members r w)
  /\ ChatService.rooms w' = ChatService.rooms w
  /\ (In c (ChatService.members r w) ->
      In (mkWrite c out (negb (is_broken (ChatService.broken w) c)))
         (added (ChatService.wire w) (ChatService.wire w'))).
Proof.
  intros Hst Hj Hu Hroom Htext out w'.
  assert (E : w' = ChatService._broadcast r out None
                     (ChatService.with_local
                        c (ChatService.mkLocal (ChatService.joinedRoom st) (Some u)
                                               (ChatService.source st)) w)).
  { subst w' out. unfold ChatService.on_data, ChatService.authenticate.
    rewrite Hst, Hu, Hroom. unfold ChatService.join_block. rewrite Hj.
    rewrite Htext. rewrite (truthy_trim _ Htext). reflexivity. }
  assert (Hadd : added (ChatService.wire w) (ChatService.wire w')
                 = sends (ChatService.broken w) out (ChatService.members r w)).
  { rewrite E, broadcast_all. simpl. apply added_app. }
  split; [exact Hadd|]. split.
  - rewrite E, broadcast_all. reflexivity.
  - intros Hin. rewrite Hadd. unfold sends.
    apply (in_map (fun x => mkWrite x out (negb (is_broken (ChatService.broken w) x)))
                  _ _ Hin).
Qed.

(** C2, as the code has it. In a room one of whose members has a call
    whose write throws, a broadcast still delivers the message once to
    every other member, delivers nothing to the failing one and leaves
    the registry of rooms as it was: the [catch] of [_broadcast] is empty
    and the failing member stays in the set. In [notifyStreams] the write
    of every session that is due one is attempted, a session whose write
    throws is deleted from the registry and the others stay. *)
Theorem C2_failed_write_is_isolated :
  (forall (room : jsstring) (message : ChatService.ChatMessage)
          (w : ChatService.World) (set : list Conn) (k : Conn),
      JsMap.get jsstring_dec room (ChatService.rooms w) = Some set ->
      NoDup set ->
      In k set ->
      (forall c, In c set -> (is_broken (ChatService.broken w) c = true <-> c = k)) ->
      let w' := ChatService._broadcast room message None w in
      (forall c, In c set -> c <> k ->
                 delivered c (added (ChatService.wire w) (ChatService.wire w'))
                 = [message])
      /\ delivered k (added (ChatService.wire w) (ChatService.wire w')) = []
      /\ ChatService.rooms w' = ChatService.rooms w
      /\ In k (ChatService.members room w'))
  /\ (forall (T : TaskService.Externals) (action : jsstring) (task : TaskService.Task)
             (now : Z) (w : @TaskService.World T)
             (sid : jsstring) (s : TaskService.Session) (p : TaskService.Payload T),
         NoDup (JsMap.keys (TaskService.streamingSessions w)) ->
         In (sid, s) (TaskService.streamingSessions w) ->
         TaskService.payload_for T action task now s = Some p ->
         let w' := TaskService.notifyStreams T action task now w in
         let ok := negb (is_broken (TaskService.broken w) (TaskService.session_call s)) in
         In (mkWrite (TaskService.session_call s) p ok)
            (added (TaskService.wire w) (TaskService.wire w'))
         /\ (ok = false ->
             JsMap.get jsstring_dec sid (TaskService.streamingSessions w') = None)
         /\ (ok = true ->
             JsMap.get jsstring_dec sid (TaskService.streamingSessions w') = Some s)).
Proof.
  split.
  - intros room message w set k Hget Hnd Hk Hbroken w'. subst w'.
    rewrite broadcast_all. simpl. rewrite added_app.
    unfold ChatService.members. simpl. rewrite Hget.
    repeat split; auto.
    + intros c Hc Hne. unfold delivered.
      rewrite (writes_to_sends c _ message set Hnd Hc). simpl.
      destruct (is_broken (ChatService.broken w) c) eqn:E; simpl; auto.
      apply Hbroken in E; auto. contradiction.
    + unfold delivered. rewrite (writes_to_sends k _ message set Hnd Hk). simpl.
      destruct (is_broken (ChatService.broken w) k) eqn:E; simpl; auto.
      assert (is_broken (ChatService.broken w) k = true) by now apply Hbroken.
      congruence.
  - intros T action task now w sid s p Hnd Hin Hp w' ok. subst w' ok.
    rewrite notifyStreams_added. repeat split.
    + apply in_flat_map. exists (sid, s). split; auto.
      unfold write_of. simpl. rewrite Hp. now left.
    + intros Hok. apply negb_false_iff in Hok.
      destruct (JsMap.get jsstring_dec sid
                  (TaskService.streamingSessions
                     (TaskService.notifyStreams T action task now w))) eqn:G; auto.
      apply get_in in G. apply notifyStreams_sessions in G as [_ G].
      exfalso. apply (G (sid, s)); auto.
      unfold write_throws. simpl. now rewrite Hp.
    + intros Hok. apply negb_true_iff in Hok.
      apply in_get_nodup.
      * unfold TaskService.notifyStreams. apply loop_keys_nodup. exact Hnd.
      * apply notifyStreams_sessions. split; auto.
        intros [sid' s'] Hin' Ht Heq. simpl in Heq. subst sid'.
        assert (s' = s).
        { apply (in_get_nodup jsstring_dec) in Hin'; auto.
          apply (in_get_nodup jsstring_dec) in Hin; auto. congruence. }
        subst s'. unfold write_throws in Ht. simpl in Ht. rewrite Hp in Ht.
        congruence.
Qed.
End ChatClaims.

(** ** ChatService: the registry of rooms *)

Section RoomFacts.
Import Js.

Lemma has_get (room : jsstring) (m : list (jsstring * list Conn)) :
  JsMap.has jsstring_dec room m = true
  <-> exists s, JsMap.get jsstring_dec room m = Some s.
Proof.
  unfold JsMap.has. destruct (JsMap.get jsstring_dec room m); split; intros H;
    eauto; try discriminate.
  destruct H; discriminate.
Qed.

Lemma add_nonempty (c : Conn) (s : list Conn) : JsSet.add Nat.eq_dec c s <> [].
Proof.
  unfold JsSet.add. destruct (JsSet.mem Nat.eq_dec c s) eqn:E.
  - destruct s; [discriminate | congruence].
  - destruct s; discriminate.
Qed.

Lemma nonempty_set room s m :
  s <> [] -> rooms_nonempty m -> rooms_nonempty (JsMap.set jsstring_dec room s m).
Proof.
  unfold rooms_nonempty. rewrite !Forall_forall. intros Hs Hm e He.
  apply in_set in He as [-> | He]; auto.
Qed.

Lemma nonempty_set_delete room s m :
  rooms_nonempty m ->
  rooms_nonempty (JsMap.delete jsstring_dec room (JsMap.set jsstring_dec room s m)).
Proof.
  unfold rooms_nonempty. rewrite !Forall_forall. intros Hm e He.
  apply in_delete in He as [He Hne].
  apply in_set in He as [-> | He]; auto.
Qed.

(** The registry after [leaveRoom]. *)
Lemma leaveRoom_rooms c now (w : ChatService.World) :
  ChatService.rooms (ChatService.leaveRoom c now w)
  = match JsMap.get Nat.eq_dec c (ChatService.streams w) with
    | Some st =>
        match ChatService.joinedRoom st with
        | Some room =>
            match JsMap.get jsstring_dec room (ChatService.rooms w) with
            | Some set =>
                if truthy room then
                  if Nat.eqb (List.length (JsSet.delete Nat.eq_dec c set)) 0
                  then JsMap.delete jsstring_dec room
                         (JsMap.set jsstring_dec room (JsSet.delete Nat.eq_dec c set)
                                    (ChatService.rooms w))
                  else JsMap.set jsstring_dec room (JsSet.delete Nat.eq_dec c set)
                                 (ChatService.rooms w)
                else ChatService.rooms w
            | None => ChatService.rooms w
            end
        | None => ChatService.rooms w
        end
    | None => ChatService.rooms w
    end.
Proof.
  unfold ChatService.leaveRoom.
  destruct (JsMap.get Nat.eq_dec c (ChatService.streams w)) as [st|]; auto.
  destruct (ChatService.joinedRoom st) as [room|]; auto.
  destruct (JsMap.get jsstring_dec room (ChatService.rooms w)) as [set|]; auto.
  destruct (truthy room); auto.
  simpl. rewrite broadcast_all. simpl.
  destruct (Nat.eqb _ 0); reflexivity.
Qed.

Lemma leaveRoom_nonempty c now (w : ChatService.World) :
  rooms_nonempty (ChatService.rooms w) ->
  rooms_nonempty (ChatService.rooms (ChatService.leaveRoom c now w)).
Proof.
  intros H. rewrite leaveRoom_rooms.
  destruct (JsMap.get Nat.eq_dec c (ChatService.streams w)) as [st|]; auto.
  destruct (ChatService.joinedRoom st) as [room|]; auto.
  destruct (JsMap.get jsstring_dec room (ChatService.rooms w)) as [set|]; auto.
  destruct (truthy room); auto.
  destruct (Nat.eqb _ 0) eqn:E.
  - now apply nonempty_set_delete.
  - apply nonempty_set; auto. intros E'. rewrite E' in E. discriminate.
Qed.

(** The registry after the block that joins a room. *)
Lemma join_block_rooms c st u room now (w : ChatService.World) :
  ChatService.joined st = None ->
  ChatService.rooms (fst (fst (ChatService.join_block c st u room now w)))
  = JsMap.set jsstring_dec room
              (JsSet.add Nat.eq_dec c (ChatService.members room w))
              (ChatService.rooms w).
Proof.
  intros Hj. unfold ChatService.join_block. rewrite Hj.
  unfold ChatService.call_write. simpl. rewrite broadcast_all. simpl.
  unfold ChatService._ensureRoom. simpl.
  destruct (JsMap.has jsstring_dec room (ChatService.rooms w)) eqn:E.
  - reflexivity.
  - unfold ChatService.members. simpl. rewrite get_set_same.
    unfold JsMap.has in E.
    destruct (JsMap.get jsstring_dec room (ChatService.rooms w)); [discriminate|].
    now rewrite set_set.
Qed.

Lemma join_block_joined c st u room now (w : ChatService.World) r :
  ChatService.joined st = Some r ->
  ChatService.join_block c st u room now w = (w, r, true).
Proof. intros Hj. unfold ChatService.join_block. now rewrite Hj. Qed.
End RoomFacts.

Section RoomClaims.
Import Js.
Context (X : ChatService.Externals).

Lemma on_data_rooms c msg now (w : ChatService.World) :
  ChatService.rooms (ChatService.on_data X c msg now w) = ChatService.rooms w
  \/ exists room set,
      set <> []
      /\ ChatService.rooms (ChatService.on_data X c msg now w)
         = JsMap.set jsstring_dec room set (ChatService.rooms w).
Proof.
  unfold ChatService.on_data.
  destruct (JsMap.get Nat.eq_dec c (ChatService.streams w)) as [st|]; [|now left].
  destruct (ChatService.authenticate X st) as [u|e]; [|now left].
  destruct (truthy (trim (str_or_empty (ChatService.in_room msg)))); [|now left].
  destruct (ChatService.joined st) as [r|] eqn:Hj.
  - rewrite (join_block_joined _ _ _ _ _ _ r Hj).
    destruct (truthy _ && truthy _); [|now left].
    rewrite broadcast_all. now left.
  - match goal with |- context [ChatService.join_block c st u ?room now ?w0] =>
      pose proof (join_block_rooms c st u room now w0 Hj) as E;
      destruct (ChatService.join_block c st u room now w0) as [[w1 r] ok]
    end.
    simpl in E. right. eexists _, _. split; [apply (add_nonempty c)|].
    destruct ok.
    + destruct (truthy _ && truthy _); [rewrite broadcast_all|]; simpl; exact E.
    + simpl. exact E.
Qed.

Lemma handle_nonempty (w : ChatService.World) e :
  rooms_nonempty (ChatService.rooms w) ->
  rooms_nonempty (ChatService.rooms (ChatService.handle X w e)).
Proof.
  intros H. destruct e; simpl; auto.
  - destruct (on_data_rooms c msg now w) as [-> | [room [set [Hs ->]]]]; auto.
    now apply nonempty_set.
  - now apply leaveRoom_nonempty.
Qed.

Lemma run_nonempty events (w : ChatService.World) :
  rooms_nonempty (ChatService.rooms w) ->
  rooms_nonempty (ChatService.rooms (ChatService.run X events w)).
Proof.
  revert w. induction events as [|e events IH]; intros w H; simpl; auto.
  apply IH. now apply handle_nonempty.
Qed.

Lemma join_creates_room c msg now (w : ChatService.World) st u :
  JsMap.get Nat.eq_dec c (ChatService.streams w) = Some st ->
  ChatService.joined st = None ->
  ChatService.authenticate X st = Ok u ->
  truthy (trim (str_or_empty (ChatService.in_room msg))) = true ->
  JsMap.get jsstring_dec (trim (str_or_empty (ChatService.in_room msg)))
            (ChatService.rooms w) = None ->
  JsMap.get jsstring_dec (trim (str_or_empty (ChatService.in_room msg)))
            (ChatService.rooms (ChatService.on_data X c msg now w)) = Some [c].
Proof.
  intros Hst Hj Hu Hroom Habsent. unfold ChatService.on_data.
  rewrite Hst, Hu, Hroom.
  match goal with |- context [ChatService.join_block c st u ?room now ?w0] =>
    pose proof (join_block_rooms c st u room now w0 Hj) as E;
    destruct (ChatService.join_block c st u room now w0) as [[w1 r] ok]
  end.
  simpl in E. unfold ChatService.members in E. simpl in E. rewrite Habsent in E.
  assert (G : JsMap.get jsstring_dec (trim (str_or_empty (ChatService.in_room msg)))
                        (ChatService.rooms w1) = Some [c]).
  { rewrite E. apply get_set_same. }
  destruct ok.
  - destruct (truthy _ && truthy _); [rewrite broadcast_all|]; simpl; exact G.
  - simpl. exact G.
Qed.

Lemma leave_deletes_empty_room c now (w : ChatService.World) st room set :
  JsMap.get Nat.eq_dec c (ChatService.streams w) = Some st ->
  ChatService.joinedRoom st = Some room ->
  truthy room = true ->
  JsMap.get jsstring_dec room (ChatService.rooms w) = Some set ->
  JsSet.delete Nat.eq_dec c set = [] ->
  JsMap.get jsstring_dec room (ChatService.rooms (ChatService.on_signal c now w)) = None.
Proof.
  intros Hst Hj Ht Hget Hempty. unfold ChatService.on_signal. simpl.
  rewrite leaveRoom_rooms, Hst, Hj, Hget, Ht, Hempty. simpl.
  apply get_delete_same.
Qed.

(** C6. In every state the service reaches from its start, a name is a
    key of [rooms] exactly when the room has a member. A stream that is
    in no room and names a room that is not in the registry creates the
    entry with its own call as the one member; a leave that takes the
    last member out deletes the entry in the same run of the handler; and
    a join of the same name after that finds no entry and creates it
    again with the new call as the one member. *)
Theorem C6_room_present_iff_it_has_members :
  (forall events room,
      let w := ChatService.run X events ChatService.init in
      JsMap.has jsstring_dec room (ChatService.rooms w) = true
      <-> ChatService.members room w <> [])
  /\ (forall c msg now (w : ChatService.World) st u,
         JsMap.get Nat.eq_dec c (ChatService.streams w) = Some st ->
         ChatService.joined st = None ->
         ChatService.authenticate X st = Ok u ->
         truthy (trim (str_or_empty (ChatService.in_room msg))) = true ->
         JsMap.get jsstring_dec (trim (str_or_empty (ChatService.in_room msg)))
                   (ChatService.rooms w) = None ->
         JsMap.get jsstring_dec (trim (str_or_empty (ChatService.in_room msg)))
                   (ChatService.rooms (ChatService.on_data X c msg now w)) = Some [c])
  /\ (forall c now (w : ChatService.World) st room set,
         JsMap.get Nat.eq_dec c (ChatService.streams w) = Some st ->
         ChatService.joinedRoom st = Some room ->
         truthy room = true ->
         JsMap.get jsstring_dec room (ChatService.rooms w) = Some set ->
         JsSet.delete Nat.eq_dec c set = [] ->
         let w' := ChatService.on_signal c now w in
         JsMap.has jsstring_dec room (ChatService.rooms w') = false
         /\ (forall c2 msg now2 st2 u2,
                JsMap.get Nat.eq_dec c2 (ChatService.streams w') = Some st2 ->
                ChatService.joined st2 = None ->
                ChatService.authenticate X st2 = Ok u2 ->
                trim (str_or_empty (ChatService.in_room msg)) = room ->
                ChatService.members room (ChatService.on_data X c2 msg now2 w')
                = [c2])).
Proof.
  split; [|split].
  - intros events room w.
    assert (Hinv : rooms_nonempty (ChatService.rooms w)).
    { apply run_nonempty. constructor. }
    unfold ChatService.members. rewrite has_get. split.
    + intros [s Hs]. rewrite Hs. apply get_in in Hs.
      unfold rooms_nonempty in Hinv. rewrite Forall_forall in Hinv.
      apply (Hinv _ Hs).
    + destruct (JsMap.get jsstring_dec room (ChatService.rooms w)); eauto.
      congruence.
  - intros. now apply join_creates_room with (st := st) (u := u).
  - intros c now w st room set Hst Hj Ht Hget Hempty w'.
    assert (Hgone : JsMap.get jsstring_dec room (ChatService.rooms w') = None)
      by (eapply leave_deletes_empty_room; eauto).
    split.
    + unfold JsMap.has. now rewrite Hgone.
    + intros c2 msg now2 st2 u2 Hst2 Hj2 Hu2 Hroom. subst room.
      unfold ChatService.members.
      rewrite (join_creates_room c2 msg now2 w' st2 u2); auto.
Qed.
End RoomClaims.

(** ** Cleanup *)

Section CleanupClaims.
Import Js.

Lemma leaveRoom_shape c now (w : ChatService.World) st :
  JsMap.get Nat.eq_dec c (ChatService.streams w) = Some st ->
  exists w1,
    ChatService.leaveRoom c now w
    = ChatService.with_local
        c (ChatService.mkLocal None (ChatService.user st) (ChatService.source st)) w1.
Proof.
  intros Hst. unfold ChatService.leaveRoom. rewrite Hst. eexists. reflexivity.
Qed.

Lemma leaveRoom_twice c now1 now2 (w : ChatService.World) :
  ChatService.leaveRoom c now2 (ChatService.leaveRoom c now1 w)
  = ChatService.leaveRoom c now1 w.
Proof.
  destruct (JsMap.get Nat.eq_dec c (ChatService.streams w)) as [st|] eqn:Hst.
  - destruct (leaveRoom_shape c now1 w st Hst) as [w1 ->].
    unfold ChatService.leaveRoom. simpl. rewrite get_set_same. simpl.
    unfold ChatService.with_local. simpl. now rewrite set_set.
  - unfold ChatService.leaveRoom. rewrite Hst. now rewrite Hst.
Qed.

Lemma leaveRoom_not_joined c now (w : ChatService.World) st :
  JsMap.get Nat.eq_dec c (ChatService.streams w) = Some st ->
  ChatService.joinedRoom st = None ->
  ChatService.leaveRoom c now w = w.
Proof.
  intros Hst Hj. unfold ChatService.leaveRoom. rewrite Hst, Hj.
  unfold ChatService.with_local.
  rewrite set_same; [now destruct w|].
  rewrite Hst. destruct st; simpl in *. now subst.
Qed.

(** C8. Deleting a session id twice from [streamingSessions] leaves what
    deleting it once leaves, and deleting an id that is not a key leaves
    the registry as it is. [leaveRoom] run twice for a call leaves the
    world the first run left; for a call that is in no room it changes
    nothing; and the handlers of the closing signals, run one after the
    other, leave the registry of rooms of the first. The operations are
    total: none of them throws. *)
Theorem C8_cleanup_is_idempotent :
  (forall (T : TaskService.Externals) (sid : jsstring) (w : @TaskService.World T),
      TaskService.sessions_delete T sid (TaskService.sessions_delete T sid w)
      = TaskService.sessions_delete T sid w)
  /\ (forall (T : TaskService.Externals) (sid : jsstring) (w : @TaskService.World T),
         JsMap.get jsstring_dec sid (TaskService.streamingSessions w) = None ->
         TaskService.sessions_delete T sid w = w)
  /\ (forall c now1 now2 (w : ChatService.World),
         ChatService.leaveRoom c now2 (ChatService.leaveRoom c now1 w)
         = ChatService.leaveRoom c now1 w)
  /\ (forall c now (w : ChatService.World) st,
         JsMap.get Nat.eq_dec c (ChatService.streams w) = Some st ->
         ChatService.joinedRoom st = None ->
         ChatService.leaveRoom c now w = w)
  /\ (forall c now (w : ChatService.World),
         JsMap.get Nat.eq_dec c (ChatService.streams w) = None ->
         ChatService.leaveRoom c now w = w)
  /\ (forall c now1 now2 (w : ChatService.World),
         ChatService.rooms
           (ChatService.on_signal c now2 (ChatService.on_signal c now1 w))
         = ChatService.rooms (ChatService.on_signal c now1 w)).
Proof.
  repeat split.
  - intros T sid w. unfold TaskService.sessions_delete, TaskService.with_sessions.
    simpl. now rewrite delete_idempotent.
  - intros T sid w H. unfold TaskService.sessions_delete, TaskService.with_sessions.
    rewrite delete_absent; auto. now destruct w.
  - apply leaveRoom_twice.
  - apply leaveRoom_not_joined.
  - intros c now w H. unfold ChatService.leaveRoom. now rewrite H.
  - intros c now1 now2 w. unfold ChatService.on_signal. simpl.
    rewrite leaveRoom_rooms. simpl.
    destruct (JsMap.get Nat.eq_dec c (ChatService.streams w)) as [st|] eqn:Hst.
    + destruct (leaveRoom_shape c now1 w st Hst) as [w1 ->]. simpl.
      now rewrite get_set_same.
    + unfold ChatService.leaveRoom. now rewrite Hst, Hst.
Qed.
End CleanupClaims.

(** * The properties on the two executions *)

Section Runs.
Import Js Scenario.

Ltac found := vm_compute; repeat (try (left; reflexivity); right).

Lemma task_world_calls_distinct : calls_distinct task_world.
Proof.
  unfold calls_distinct. vm_compute.
  repeat constructor; simpl; intuition discriminate.
Defined.

Lemma task_world_keys_distinct :
  NoDup (JsMap.keys (TaskService.streamingSessions task_world)).
Proof.
  vm_compute. repeat constructor; simpl; intuition discriminate.
Defined.

(** C3 on the registry of [task_world]: a deletion of a task of [u1]
    writes nothing on the task stream of call 3 and one envelope of type 2
    on the notification stream of call 1. *)
Lemma C3_witness :
  writes_to 3
    (added (TaskService.wire task_world)
           (TaskService.wire
              (TaskService.notifyStreams T (lit "TASK_DELETED") (a_task false)
                                         9000 task_world)))
  = []
  /\ writes_to 1
       (added (TaskService.wire task_world)
              (TaskService.wire
                 (TaskService.notifyStreams T (lit "TASK_DELETED") (a_task false)
                                            9000 task_world)))
     = [mkWrite 1
                (TaskService.PNotification
                   (TaskService.mkNotification
                      (Some 2%N) (Some (a_task false : TaskService.Proto T))
                      (lit "Tarefa task deleted") 9%Z))
                true].
Proof.
  destruct (C3_deleted_never_reaches_task_streams
              T (a_task false) 9000 task_world task_world_calls_distinct)
    as [Htask Hnotif].
  split.
  - apply (Htask (lit "s3")
                 (TaskService.mkSession 3 (lit "u1") None
                                        (Some (TaskService.mkFilter JUndefined)))).
    + found.
    + reflexivity.
  - apply (Hnotif (lit "s1")
                  (TaskService.mkSession 1 (lit "u1") (Some (lit "notifications")) None)).
    + found.
    + reflexivity.
    + reflexivity.
Defined.

(** C4 on [task_world]: an update of a task that is not completed is
    written on the task stream whose filter is [false]. *)
Lemma C4_witness :
  writes_to 2
    (added (TaskService.wire task_world)
           (TaskService.wire
              (TaskService.notifyStreams T (lit "TASK_UPDATED") (a_task false)
                                         9000 task_world)))
  = [mkWrite 2 (TaskService.PTask (a_task false : TaskService.Proto T)) true].
Proof.
  assert (Hact : lit "TASK_UPDATED" <> lit "TASK_DELETED")
    by (vm_compute; discriminate).
  assert (Hin : In (lit "s2",
                    TaskService.mkSession 2 (lit "u1") None
                      (Some (TaskService.mkFilter (JVal false))))
                   (TaskService.streamingSessions task_world))
    by found.
  destruct (C4_filter_decides_delivery
              T (lit "TASK_UPDATED") (a_task false) 9000 task_world _ _
              task_world_calls_distinct Hin eq_refl eq_refl Hact)
    as [Hbool _].
  destruct (Hbool false eq_refl) as [Hsame _].
  apply Hsame. reflexivity.
Defined.

(** C5 on [task_world]: a task of [u1] writes nothing on the stream of
    [u2]. *)
Lemma C5_witness :
  writes_to 4
    (added (TaskService.wire task_world)
           (TaskService.wire
              (TaskService.notifyStreams T (lit "TASK_CREATED") (a_task false)
                                         9000 task_world)))
  = [].
Proof.
  apply (C5_owner_isolation
           T (lit "TASK_CREATED") (a_task false) 9000 task_world (lit "s4")
           (TaskService.mkSession 4 (lit "u2") (Some (lit "notifications")) None)).
  - exact task_world_calls_distinct.
  - found.
  - vm_compute. discriminate.
Defined.


(** C9 on [task_world]: [u1] opens a notification stream on the new call
    9 and then creates a task; the first write on call 9 is the initial
    envelope. *)
Lemma C9_witness :
  exists rest,
    writes_to 9
      (TaskService.wire
         (TaskService.run
            T [TaskService.EvCreateTask create_request (lit "t1")
                                        (TaskService.RunResolves 1) 7000]
            (TaskService.streamNotifications T 9 (lit "u1") (lit "s9") 6500
                                             task_world)))
    = mkWrite 9
              (TaskService.PNotification
                 (TaskService.mkNotification
                    (Some 0%N) None
                    (lit "Stream de notifica" ++ [231%N; 245%N] ++ lit "es iniciado")
                    (6500 / 1000)%Z))
              (negb (is_broken (TaskService.broken task_world) 9))
      :: rest.
Proof.
  assert (Hu : TaskService.jwt_verify T (lit "u1") = Some (mkUser (lit "u1") (lit "u1")))
    by reflexivity.
  assert (Hnew : writes_to 9 (TaskService.wire task_world) = []) by reflexivity.
  apply (proj2 (proj2 (proj2
           (C9_initial_notification_comes_first
              T 9 (lit "u1") (lit "s9") 6500 task_world _ Hu Hnew)))).
Defined.

(** C10 on an execution that completes a task: what is dispatched is
    [TASK_UPDATED]. *)
Lemma C10_witness :
  Forall (fun d => In (fst d) three_actions /\ fst d <> lit "TASK_COMPLETED")
         (TaskService.dispatched
            (TaskService.run
               T (streams_open
                  ++ [TaskService.EvUpdateTask
                        update_request
                        (TaskService.GetResolves (Some (a_row 0)))
                        (TaskService.RunResolves 1)
                        (TaskService.GetResolves (Some (a_row 1)))
                        9000])
               (TaskService.init T))).
Proof.
  apply (proj1 (C10_completed_is_never_dispatched T _)).
Defined.

(** C1 on [chat_world]: the text of [ana] is written on the calls of the
    three members, her own first. *)
Lemma C1_witness :
  added (ChatService.wire chat_world)
        (ChatService.wire
           (ChatService.on_data C 1 (says "general" " hello ") 3000 chat_world))
  = [mkWrite 1 hello true; mkWrite 2 hello false; mkWrite 3 hello true].
Proof.
  apply (proj1 (C1_text_goes_to_every_member
                  C 1 (says "general" " hello ") 3000 chat_world
                  (ChatService.mkLocal (Some (lit "general"))
                                       (Some (mkUser (lit "ana") (lit "ana")))
                                       (bearer "ana"))
                  (lit "general") (mkUser (lit "ana") (lit "ana"))
                  eq_refl eq_refl eq_refl eq_refl eq_refl)).
Defined.

(** C2 on the two executions: [bob], whose write throws, gets nothing,
    [ana] and [eva] get the message; and the dispatch of a completed task
    deletes the session of the gone call 5 and keeps the session of
    call 3, which is written the task. *)
Lemma C2_witness :
  (delivered 1 (added (ChatService.wire chat_world)
                      (ChatService.wire
                         (ChatService._broadcast (lit "general") hello None chat_world)))
   = [hello]
   /\ delivered 3 (added (ChatService.wire chat_world)
                         (ChatService.wire
                            (ChatService._broadcast (lit "general") hello None chat_world)))
      = [hello]
   /\ delivered 2 (added (ChatService.wire chat_world)
                         (ChatService.wire
                            (ChatService._broadcast (lit "general") hello None chat_world)))
      = [])
  /\ JsMap.get jsstring_dec (lit "s5")
       (TaskService.streamingSessions
          (TaskService.notifyStreams T (lit "TASK_UPDATED") (a_task true) 9000 task_world))
     = None
  /\ JsMap.get jsstring_dec (lit "s3")
       (TaskService.streamingSessions
          (TaskService.notifyStreams T (lit "TASK_UPDATED") (a_task true) 9000 task_world))
     = Some (TaskService.mkSession 3 (lit "u1") None
                                   (Some (TaskService.mkFilter JUndefined))).
Proof.
  destruct C2_failed_write_is_isolated as [Hchat Hdispatch].
  assert (Hset : JsMap.get jsstring_dec (lit "general") (ChatService.rooms chat_world)
                 = Some [1; 2; 3]) by reflexivity.
  assert (Hnd : NoDup [1; 2; 3])
    by (repeat constructor; simpl; intuition discriminate).
  assert (Hk : In 2 [1; 2; 3]) by (simpl; auto).
  assert (Hbroken : forall c, In c [1; 2; 3] ->
                              (is_broken (ChatService.broken chat_world) c = true
                               <-> c = 2)).
  { intros c [<- | [<- | [<- | []]]]; vm_compute; split; intros H;
      first [reflexivity | discriminate]. }
  destruct (Hchat (lit "general") hello chat_world [1; 2; 3] 2 Hset Hnd Hk Hbroken)
    as (Hothers & Hfailing & _).
  split; [|split].
  - split; [|split].
    + apply Hothers; [simpl; auto | discriminate].
    + apply Hothers; [simpl; auto | discriminate].
    + exact Hfailing.
  - assert (Hin : In (lit "s5",
                      TaskService.mkSession 5 (lit "u1") None
                        (Some (TaskService.mkFilter (JVal true))))
                     (TaskService.streamingSessions task_world)) by found.
    destruct (Hdispatch T (lit "TASK_UPDATED") (a_task true) 9000%Z task_world _ _
                        (TaskService.PTask (a_task true : TaskService.Proto T))
                        task_world_keys_distinct Hin eq_refl)
      as (_ & Hdeleted & _).
    apply Hdeleted. reflexivity.
  - assert (Hin : In (lit "s3",
                      TaskService.mkSession 3 (lit "u1") None
                        (Some (TaskService.mkFilter JUndefined)))
                     (TaskService.streamingSessions task_world)) by found.
    destruct (Hdispatch T (lit "TASK_UPDATED") (a_task true) 9000%Z task_world _ _
                        (TaskService.PTask (a_task true : TaskService.Proto T))
                        task_world_keys_distinct Hin eq_refl)
      as (_ & _ & Hkept).
    apply Hkept. reflexivity.
Defined.

(** C6 on [lonely_world]: [ana] leaves the room [sala], which she was
    alone in; the room goes, and [bob] joining [sala] is its one member. *)
Lemma C6_witness :
  JsMap.has jsstring_dec (lit "sala")
            (ChatService.rooms (ChatService.on_signal 1 4000 lonely_world)) = false
  /\ ChatService.members
       (lit "sala")
       (ChatService.on_data C 2 (says "sala" "oi") 5000
                            (ChatService.on_signal 1 4000 lonely_world))
     = [2].
Proof.
  destruct (proj2 (proj2 (C6_room_present_iff_it_has_members C))
              1 4000%Z lonely_world
              (ChatService.mkLocal (Some (lit "sala"))
                                   (Some (mkUser (lit "ana") (lit "ana")))
                                   (bearer "ana"))
              (lit "sala") [1]
              eq_refl eq_refl eq_refl eq_refl eq_refl) as [Hgone Hagain].
  split; [exact Hgone|].
  apply (Hagain 2 (says "sala" "oi") 5000%Z
                (ChatService.mkLocal None None (bearer "bob"))
                (mkUser (lit "bob") (lit "bob")));
    reflexivity.
Defined.

(** C8 on [task_world]: deleting an id that is not registered changes
    nothing. *)
Lemma C8_witness :
  TaskService.sessions_delete T (lit "s0") task_world = task_world
  /\ ChatService.leaveRoom 2 4000 lonely_world = lonely_world.
Proof.
  destruct C8_cleanup_is_idempotent as (_ & Habsent & _ & Hout & _ & _).
  split.
  - apply Habsent. reflexivity.
  - apply (Hout 2 4000%Z lonely_world (ChatService.mkLocal None None (bearer "bob")));
      reflexivity.
Defined.

(** The sender of a text is written its own message, and a message
    whose [room] is missing is not broadcast although its text is not
    empty: the handler throws before it reaches the text. *)
Lemma C1_sender_is_written_its_message :
  delivered 1
    (added (ChatService.wire chat_world)
           (ChatService.wire
              (ChatService.on_data C 1 (says "general" " hello ") 3000 chat_world)))
  = [hello]
  /\ truthy (trim (lit "hello")) = true
  /\ added (ChatService.wire chat_world)
           (ChatService.wire
              (ChatService.on_data
                 C 1 (ChatService.mkInbound JUndefined (JVal (lit "hello")))
                 3000 chat_world))
     = [].
Proof. repeat split. Qed.

(** The member whose write throws is a member after the broadcast. *)
Lemma C2_failing_member_stays :
  is_broken (ChatService.broken chat_world) 2 = true
  /\ In 2 (ChatService.members (lit "general") chat_world)
  /\ ChatService.members
       (lit "general")
       (ChatService._broadcast (lit "general") hello None chat_world)
     = [1; 2; 3].
Proof. repeat split. simpl. auto. Qed.

End Runs.

(** * More of the services *)

(** ** Trimming *)

Section TrimFacts.
Import Js.

Lemma trimStart_cases s :
  trimStart s = [] \/ exists c t, trimStart s = c :: t /\ is_white_space c = false.
Proof.
  induction s as [|a s IH]; simpl; auto.
  destruct (is_white_space a) eqn:E; auto.
  right. eauto.
Qed.

Lemma trimStart_fixed c t : is_white_space c = false -> trimStart (c :: t) = c :: t.
Proof. intros H. simpl. now rewrite H. Qed.

Lemma trimStart_snoc l c :
  is_white_space c = false -> exists l', trimStart (l ++ [c]) = l' ++ [c].
Proof.
  intros H. induction l as [|a l IH]; simpl.
  - rewrite H. now exists [].
  - destruct (is_white_space a); auto. now exists (a :: l).
Qed.

Lemma trimStart_idempotent s : trimStart (trimStart s) = trimStart s.
Proof.
  destruct (trimStart_cases s) as [-> | (c & t & -> & H)]; auto.
  now apply trimStart_fixed.
Qed.

(** What [trim] returns has no white space at either end. *)
Lemma trim_ends s :
  trimStart (trim s) = trim s /\ trimStart (rev (trim s)) = rev (trim s).
Proof.
  unfold trim, trimEnd. rewrite rev_involutive. split.
  - destruct (trimStart_cases s) as [-> | (c & t & -> & H)]; auto.
    change (rev (c :: t)) with (rev t ++ [c]).
    destruct (trimStart_snoc (rev t) c H) as [l' ->].
    rewrite rev_app_distr. apply trimStart_fixed. exact H.
  - apply trimStart_idempotent.
Qed.

Lemma trim_idempotent s : trim (trim s) = trim s.
Proof.
  destruct (trim_ends s) as [H1 H2].
  unfold trim at 1. rewrite H1. unfold trimEnd. rewrite H2. apply rev_involutive.
Qed.
End TrimFacts.

(** ** What the handlers of TaskService commit and answer *)

(** ** The metadata of an error *)

Section MetadataFacts.
Import Js.

Lemma isLegal_app a b :
  isLegalNonBinaryValue (a ++ b)
  = (isLegalNonBinaryValue a && isLegalNonBinaryValue b)%bool.
Proof. apply forallb_app. Qed.

Lemma hex_digit_legal d :
  (d < 16)%N ->
  (N.leb 32 (JSON.hex_digit d) && N.leb (JSON.hex_digit d) 126)%bool = true.
Proof.
  intros H. unfold JSON.hex_digit.
  destruct (N.ltb d 10) eqn:E;
    apply andb_true_iff; split; apply N.leb_le; lia.
Qed.

Lemma unicode_escape_legal c : isLegalNonBinaryValue (JSON.unicode_escape c) = true.
Proof.
  unfold JSON.unicode_escape, isLegalNonBinaryValue. cbn [forallb].
  rewrite !hex_digit_legal by (apply N.mod_lt; discriminate).
  reflexivity.
Qed.

Lemma quote_unit_legal c :
  (c <= 126)%N -> isLegalNonBinaryValue (JSON.quote_unit c) = true.
Proof.
  intros H. unfold JSON.quote_unit.
  repeat (match goal with
          | |- context [if N.eqb c ?k then _ else _] => destruct (N.eqb c k); [reflexivity|]
          end).
  destruct (N.ltb c 32) eqn:E; [apply unicode_escape_legal|].
  apply N.ltb_ge in E. unfold isLegalNonBinaryValue. cbn [forallb].
  rewrite andb_true_r. apply andb_true_iff. split; apply N.leb_le; lia.
Qed.

Lemma plain_not_surrogate c :
  (c <= 126)%N ->
  JSON.is_leading_surrogate c = false /\ JSON.is_trailing_surrogate c = false.
Proof.
  intros H. unfold JSON.is_leading_surrogate, JSON.is_trailing_surrogate.
  split; apply andb_false_iff; left; apply N.leb_gt; lia.
Qed.

(** The JSON of a string with no code unit above [~] is printable ASCII. *)
Lemma quote_units_legal s :
  plain_ascii s = true -> isLegalNonBinaryValue (JSON.quote_units s) = true.
Proof.
  induction s as [|c s IH]; [reflexivity|].
  unfold plain_ascii. cbn [forallb]. intros H.
  apply andb_true_iff in H as [Hc Hs]. apply N.leb_le in Hc.
  destruct (plain_not_surrogate c Hc) as [Hl Ht].
  cbn [JSON.quote_units]. rewrite Hl, Ht, isLegal_app, (quote_unit_legal c Hc).
  now apply IH.
Qed.

Lemma quote_unit_illegal c :
  (127 <= c)%N -> isLegalNonBinaryValue (JSON.quote_unit c) = false.
Proof.
  intros H. unfold JSON.quote_unit.
  repeat (match goal with
          | |- context [if N.eqb c ?k then _ else _] =>
              destruct (N.eqb c k) eqn:?E; [apply N.eqb_eq in E; lia|]; clear E
          end).
  destruct (N.ltb c 32) eqn:E; [apply N.ltb_lt in E; lia|].
  unfold isLegalNonBinaryValue. cbn [forallb].
  assert (N.leb c 126 = false) as -> by (apply N.leb_gt; lia).
  now rewrite andb_false_r.
Qed.

(** A code unit from DEL on that is no surrogate stays in the JSON as it
    is. *)
Lemma quote_units_illegal_upto n s c :
  (List.length s <= n)%nat ->
  In c s -> (127 <= c)%N ->
  JSON.is_leading_surrogate c = false -> JSON.is_trailing_surrogate c = false ->
  isLegalNonBinaryValue (JSON.quote_units s) = false.
Proof.
  revert s. induction n as [|n IH]; intros s Hlen Hin Hc Hl Ht.
  - destruct s; [destruct Hin | simpl in Hlen; lia].
  - destruct s as [|a s]; [destruct Hin|].
    simpl in Hlen. cbn [JSON.quote_units].
    destruct (JSON.is_leading_surrogate a) eqn:La.
    + destruct Hin as [-> | Hin]; [congruence|].
      destruct s as [|d s]; [destruct Hin|].
      destruct (JSON.is_trailing_surrogate d) eqn:Td.
      * destruct Hin as [-> | Hin]; [congruence|].
        unfold isLegalNonBinaryValue. cbn [forallb].
        assert (N.leb a 126 = false) as ->.
        { unfold JSON.is_leading_surrogate in La.
          apply andb_true_iff in La as [La _]. apply N.leb_le in La.
          apply N.leb_gt. lia. }
        now rewrite andb_false_r.
      * rewrite isLegal_app, unicode_escape_legal. simpl andb.
        apply (IH (d :: s)); auto. lia.
    + destruct (JSON.is_trailing_surrogate a) eqn:Ta.
      * destruct Hin as [-> | Hin]; [congruence|].
        rewrite isLegal_app, unicode_escape_legal. simpl andb.
        apply (IH s); auto. lia.
      * rewrite isLegal_app.
        destruct Hin as [-> | Hin].
        -- now rewrite (quote_unit_illegal c Hc).
        -- rewrite (IH s); auto; [apply andb_false_r | lia].
Qed.

Lemma isLegal_lit_quote : isLegalNonBinaryValue [34%N] = true.
Proof. reflexivity. Qed.

Lemma stringify_member_legal name value :
  plain_ascii name = true -> plain_ascii value = true ->
  isLegalNonBinaryValue (JSON.stringify_member name value) = true.
Proof.
  intros Hn Hv. unfold JSON.stringify_member, JSON.stringify_string.
  rewrite !isLegal_app, (quote_units_legal name Hn), (quote_units_legal value Hv).
  reflexivity.
Qed.

Lemma stringify_member_illegal name value c :
  In c value -> (127 <= c)%N ->
  JSON.is_leading_surrogate c = false -> JSON.is_trailing_surrogate c = false ->
  isLegalNonBinaryValue (JSON.stringify_member name value) = false.
Proof.
  intros Hin Hc Hl Ht. unfold JSON.stringify_member, JSON.stringify_string.
  rewrite !isLegal_app,
    (quote_units_illegal_upto (List.length value) value c (le_n _) Hin Hc Hl Ht).
  now rewrite !andb_false_r.
Qed.
End MetadataFacts.

Section MoreHandlerFacts.
Import Js.
Context (X : TaskService.Externals).

Local Abbreviation World := (@TaskService.World X).

Lemma or_else_nonempty a b : b <> [] -> or_else a b <> [].
Proof. unfold or_else. destruct a; simpl; auto. discriminate. Qed.

Lemma truthy_nonempty s : truthy s = true -> s <> [].
Proof. destruct s; simpl; [discriminate | discriminate]. Qed.

(** X1. A task that [createTask] has written to the store and dispatches: its
    id is the fresh uuid, it is not completed, it belongs to the user of
    the token, it passed [validate], and its title is not empty and has no
    white space at its ends. *)
Theorem createTask_commits_a_clean_task
        (req : TaskService.CreateRequest) (uuid : jsstring)
        (run : TaskService.RunResult) (task : TaskService.Task) :
  TaskService.createTask_commit X req uuid run = Ok task ->
  (exists u n,
      TaskService.jwt_verify X (TaskService.create_token req) = Some u
      /\ run = TaskService.RunResolves n
      /\ TaskService.task_userId task = user_id u)
  /\ TaskService.task_id task = uuid
  /\ TaskService.task_completed task = false
  /\ TaskService.task_title task <> []
  /\ trim (TaskService.task_title task) = TaskService.task_title task
  /\ TaskService.task_is_valid X task = true.
Proof.
  unfold TaskService.createTask_commit, TaskService.validateToken.
  destruct (TaskService.jwt_verify X _) as [u|] eqn:Hu; simpl; [|discriminate].
  destruct (truthy (str_or_empty (TaskService.create_title req))
            && truthy (trim (str_or_empty (TaskService.create_title req)))) eqn:Ht;
    simpl; [|discriminate].
  destruct (TaskService.task_is_valid X _) eqn:Hv; simpl; [|discriminate].
  destruct run as [m|n]; simpl; [discriminate|].
  intros [= <-]. simpl.
  apply andb_true_iff in Ht as [_ Ht].
  repeat split; eauto.
  - now apply truthy_nonempty.
  - apply trim_idempotent.
Qed.

Lemma new_GrpcAppError_thrown code m meta (codes : list N) :
  m <> [] -> In code codes -> In status.INTERNAL codes ->
  In (fst (toServiceError (new_GrpcAppError code m meta))) codes
  /\ snd (toServiceError (new_GrpcAppError code m meta)) <> [].
Proof.
  intros Hm Hc Hi. unfold new_GrpcAppError.
  destruct meta as [json|]; [destruct (isLegalNonBinaryValue json)|]; simpl; auto.
  split; auto. discriminate.
Qed.

Lemma createTask_commit_throws req uuid run e :
  TaskService.createTask_commit X req uuid run = Throw e ->
  In (fst (toServiceError e))
     [status.UNAUTHENTICATED; status.INVALID_ARGUMENT; status.INTERNAL]
  /\ snd (toServiceError e) <> [].
Proof.
  unfold TaskService.createTask_commit, TaskService.validateToken.
  destruct (TaskService.jwt_verify X _); simpl.
  - destruct (truthy _ && truthy _); simpl.
    + destruct (TaskService.task_is_valid X _); simpl.
      * destruct run as [m|n]; simpl; [|discriminate].
        intros [= <-]. simpl. split; auto.
        apply or_else_nonempty. discriminate.
      * intros [= <-].
        apply (new_GrpcAppError_thrown
                 status.INVALID_ARGUMENT TaskService.Dados_invalidos
                 (TaskService.validation_errors X (TaskService.taskData X req uuid u))
                 [status.UNAUTHENTICATED; status.INVALID_ARGUMENT; status.INTERNAL]);
          simpl; auto. discriminate.
    + intros [= <-]. simpl. split; auto. discriminate.
  - intros [= <-]. simpl. split; auto. discriminate.
Qed.

Lemma updateTask_commit_throws req existing run updated e :
  TaskService.updateTask_commit X req existing run updated = Throw e ->
  In (fst (toServiceError e))
     [status.UNAUTHENTICATED; status.NOT_FOUND; status.INTERNAL]
  /\ snd (toServiceError e) <> [].
Proof.
  unfold TaskService.updateTask_commit, TaskService.validateToken.
  destruct (TaskService.jwt_verify X _); simpl.
  - destruct existing as [m|[row|]]; simpl.
    + intros [= <-]. simpl. split; auto. apply or_else_nonempty. discriminate.
    + destruct run as [m|n]; simpl.
      * intros [= <-]. simpl. split; auto. apply or_else_nonempty. discriminate.
      * destruct (N.eqb n 0); simpl.
        -- intros [= <-]. simpl. split; auto. discriminate.
        -- destruct updated as [m|[row'|]]; simpl; try discriminate.
           ++ intros [= <-]. simpl. split; auto. apply or_else_nonempty. discriminate.
           ++ intros [= <-]. simpl. split; auto. discriminate.
    + intros [= <-].
      apply (new_GrpcAppError_thrown
               status.NOT_FOUND TaskService.Tarefa_nao_encontrada
               (meta_task_id (TaskService.update_task_id req))
               [status.UNAUTHENTICATED; status.NOT_FOUND; status.INTERNAL]);
        simpl; auto. discriminate.
  - intros [= <-]. simpl. split; auto. discriminate.
Qed.

Lemma deleteTask_commit_throws req existing run e :
  TaskService.deleteTask_commit X req existing run = Throw e ->
  In (fst (toServiceError e))
     [status.UNAUTHENTICATED; status.NOT_FOUND; status.INTERNAL]
  /\ snd (toServiceError e) <> [].
Proof.
  unfold TaskService.deleteTask_commit, TaskService.validateToken.
  destruct (TaskService.jwt_verify X _); simpl.
  - destruct existing as [m|[row|]]; simpl.
    + intros [= <-]. simpl. split; auto. apply or_else_nonempty. discriminate.
    + destruct run as [m|n]; simpl.
      * intros [= <-]. simpl. split; auto. apply or_else_nonempty. discriminate.
      * destruct (N.eqb n 0); simpl; try discriminate.
        intros [= <-]. simpl. split; auto. discriminate.
    + intros [= <-].
      apply (new_GrpcAppError_thrown
               status.NOT_FOUND TaskService.Tarefa_nao_encontrada
               (meta_task_id (TaskService.delete_task_id req))
               [status.UNAUTHENTICATED; status.NOT_FOUND; status.INTERNAL]);
        simpl; auto. discriminate.
  - intros [= <-]. simpl. split; auto. discriminate.
Qed.

(** The error a handler throws with [{ task_id }] as [meta]. *)
Lemma thrown_with_plain_id code m task_id :
  plain_ascii task_id = true ->
  new_GrpcAppError code m (meta_task_id task_id) = GrpcAppError code m.
Proof.
  intros H. unfold new_GrpcAppError, meta_task_id.
  now rewrite (stringify_member_legal (lit "task_id") task_id eq_refl H).
Qed.

Lemma thrown_with_other_id code m task_id c :
  In c task_id -> (127 <= c)%N ->
  JSON.is_leading_surrogate c = false -> JSON.is_trailing_surrogate c = false ->
  new_GrpcAppError code m (meta_task_id task_id)
  = illegal_value (JSON.stringify_member (lit "task_id") task_id).
Proof.
  intros Hin Hc Hl Ht. unfold new_GrpcAppError, meta_task_id.
  now rewrite (stringify_member_illegal (lit "task_id") task_id c Hin Hc Hl Ht).
Qed.

(** X2. Whatever makes [createTask], [updateTask] or [deleteTask] fail, the
    error given to [callback] has a message that is not empty and one of
    the codes UNAUTHENTICATED, INVALID_ARGUMENT (create), NOT_FOUND (update
    and delete) and INTERNAL, and the world is as it was. INTERNAL is also
    what comes out when the constructor of the error throws on its
    metadata. With a token that verifies and no row of the id,
    [updateTask], [deleteTask] and [getTask] answer NOT_FOUND when the id
    has no code unit above [~], and INTERNAL with the message of
    [Metadata.add] when the id has a code unit from DEL on that is no
    surrogate. [createTask] answers INVALID_ARGUMENT for a blank title;
    for a task that does not validate it answers INVALID_ARGUMENT when the
    errors of the validation are falsy or printable ASCII as JSON, and
    INTERNAL otherwise. *)
Theorem failed_mutations_answer_a_coded_error (now : Z) (w : World) :
  (forall req uuid run code details,
      snd (TaskService.createTask X req uuid run now w)
      = TaskService.Failure X code details ->
      In code [status.UNAUTHENTICATED; status.INVALID_ARGUMENT; status.INTERNAL]
      /\ details <> []
      /\ fst (TaskService.createTask X req uuid run now w) = w)
  /\ (forall req existing run updated code details,
         snd (TaskService.updateTask X req existing run updated now w)
         = TaskService.Failure X code details ->
         In code [status.UNAUTHENTICATED; status.NOT_FOUND; status.INTERNAL]
         /\ details <> []
         /\ fst (TaskService.updateTask X req existing run updated now w) = w)
  /\ (forall req existing run code details,
         snd (TaskService.deleteTask X req existing run now w)
         = TaskService.Failure X code details ->
         In code [status.UNAUTHENTICATED; status.NOT_FOUND; status.INTERNAL]
         /\ details <> []
         /\ fst (TaskService.deleteTask X req existing run now w) = w)
  /\ (forall req run updated u,
         TaskService.jwt_verify X (TaskService.update_token req) = Some u ->
         (plain_ascii (TaskService.update_task_id req) = true ->
          snd (TaskService.updateTask X req (TaskService.GetResolves None) run updated now w)
          = TaskService.Failure X status.NOT_FOUND TaskService.Tarefa_nao_encontrada)
         /\ (forall c,
                In c (TaskService.update_task_id req) -> (127 <= c)%N ->
                JSON.is_leading_surrogate c = false ->
                JSON.is_trailing_surrogate c = false ->
                snd (TaskService.updateTask X req (TaskService.GetResolves None)
                                            run updated now w)
                = TaskService.Failure
                    X status.INTERNAL
                    (error_message
                       (illegal_value
                          (JSON.stringify_member (lit "task_id")
                                                 (TaskService.update_task_id req))))))
  /\ (forall req run u,
         TaskService.jwt_verify X (TaskService.delete_token req) = Some u ->
         (plain_ascii (TaskService.delete_task_id req) = true ->
          snd (TaskService.deleteTask X req (TaskService.GetResolves None) run now w)
          = TaskService.Failure X status.NOT_FOUND TaskService.Tarefa_nao_encontrada)
         /\ (forall c,
                In c (TaskService.delete_task_id req) -> (127 <= c)%N ->
                JSON.is_leading_surrogate c = false ->
                JSON.is_trailing_surrogate c = false ->
                snd (TaskService.deleteTask X req (TaskService.GetResolves None) run now w)
                = TaskService.Failure
                    X status.INTERNAL
                    (error_message
                       (illegal_value
                          (JSON.stringify_member (lit "task_id")
                                                 (TaskService.delete_task_id req))))))
  /\ (forall req u,
         TaskService.jwt_verify X (TaskQueries.get_token req) = Some u ->
         (plain_ascii (TaskQueries.get_task_id req) = true ->
          TaskQueries.getTask X req (TaskService.GetResolves None)
          = TaskService.Failure X status.NOT_FOUND TaskService.Tarefa_nao_encontrada)
         /\ (forall c,
                In c (TaskQueries.get_task_id req) -> (127 <= c)%N ->
                JSON.is_leading_surrogate c = false ->
                JSON.is_trailing_surrogate c = false ->
                TaskQueries.getTask X req (TaskService.GetResolves None)
                = TaskService.Failure
                    X status.INTERNAL
                    (error_message
                       (illegal_value
                          (JSON.stringify_member (lit "task_id")
                                                 (TaskQueries.get_task_id req))))))
  /\ (forall req uuid run u,
         TaskService.jwt_verify X (TaskService.create_token req) = Some u ->
         (truthy (str_or_empty (TaskService.create_title req))
          && truthy (trim (str_or_empty (TaskService.create_title req))) = false ->
          snd (TaskService.createTask X req uuid run now w)
          = TaskService.Failure X status.INVALID_ARGUMENT TaskService.Titulo_obrigatorio)
         /\ (truthy (str_or_empty (TaskService.create_title req))
             && truthy (trim (str_or_empty (TaskService.create_title req))) = true ->
             TaskService.task_is_valid X (TaskService.taskData X req uuid u) = false ->
             (TaskService.validation_errors X (TaskService.taskData X req uuid u) = None
              \/ (exists json,
                     TaskService.validation_errors X (TaskService.taskData X req uuid u)
                     = Some json
                     /\ isLegalNonBinaryValue json = true) ->
              snd (TaskService.createTask X req uuid run now w)
              = TaskService.Failure X status.INVALID_ARGUMENT TaskService.Dados_invalidos)
             /\ (forall json,
                    TaskService.validation_errors X (TaskService.taskData X req uuid u)
                    = Some json ->
                    isLegalNonBinaryValue json = false ->
                    snd (TaskService.createTask X req uuid run now w)
                    = TaskService.Failure X status.INTERNAL
                                          (error_message (illegal_value json))))).
Proof.
  split; [|split; [|split; [|split; [|split; [|split]]]]].
  - intros req uuid run code details. unfold TaskService.createTask.
    destruct (TaskService.createTask_commit X req uuid run) eqn:E; simpl;
      [discriminate|].
    unfold TaskService.reply_error. intros [= <- <-].
    destruct (createTask_commit_throws _ _ _ _ E). auto.
  - intros req existing run updated code details. unfold TaskService.updateTask.
    destruct (TaskService.updateTask_commit X req existing run updated) eqn:E; simpl;
      [discriminate|].
    unfold TaskService.reply_error. intros [= <- <-].
    destruct (updateTask_commit_throws _ _ _ _ _ E). auto.
  - intros req existing run code details. unfold TaskService.deleteTask.
    destruct (TaskService.deleteTask_commit X req existing run) eqn:E; simpl;
      [discriminate|].
    unfold TaskService.reply_error. intros [= <- <-].
    destruct (deleteTask_commit_throws _ _ _ _ E). auto.
  - intros req run updated u Hu.
    unfold TaskService.updateTask, TaskService.updateTask_commit,
      TaskService.validateToken.
    rewrite Hu. cbn -[new_GrpcAppError meta_task_id]. split.
    + intros Hp. now rewrite (thrown_with_plain_id _ _ _ Hp).
    + intros c Hin Hc Hl Ht.
      now rewrite (thrown_with_other_id _ _ _ c Hin Hc Hl Ht).
  - intros req run u Hu.
    unfold TaskService.deleteTask, TaskService.deleteTask_commit,
      TaskService.validateToken.
    rewrite Hu. cbn -[new_GrpcAppError meta_task_id]. split.
    + intros Hp. now rewrite (thrown_with_plain_id _ _ _ Hp).
    + intros c Hin Hc Hl Ht.
      now rewrite (thrown_with_other_id _ _ _ c Hin Hc Hl Ht).
  - intros req u Hu.
    unfold TaskQueries.getTask, TaskService.validateToken.
    rewrite Hu. cbn -[new_GrpcAppError meta_task_id]. split.
    + intros Hp. now rewrite (thrown_with_plain_id _ _ _ Hp).
    + intros c Hin Hc Hl Ht.
      now rewrite (thrown_with_other_id _ _ _ c Hin Hc Hl Ht).
  - intros req uuid run u Hu.
    unfold TaskService.createTask, TaskService.createTask_commit,
      TaskService.validateToken.
    rewrite Hu. simpl. split.
    + intros ->. reflexivity.
    + intros -> Hv. simpl. rewrite Hv. simpl. split.
      * intros [-> | [json [-> Hj]]]; simpl; [reflexivity|].
        now rewrite Hj.
      * intros json -> Hj. simpl. now rewrite Hj.
Qed.

(** X3. A token that does not verify stops every handler at once: the unary
    handlers answer UNAUTHENTICATED and leave the world as it was, whatever
    the request and the database hold, and the stream handlers destroy the
    call without a write and without a session. *)
Theorem unverified_token_stops_every_handler (token : jsstring) (now : Z) (w : World) :
  TaskService.jwt_verify X token = None ->
  (forall req uuid run,
      TaskService.create_token req = token ->
      TaskService.createTask X req uuid run now w
      = (w, TaskService.Failure X status.UNAUTHENTICATED TaskService.Token_invalido))
  /\ (forall req existing run updated,
         TaskService.update_token req = token ->
         TaskService.updateTask X req existing run updated now w
         = (w, TaskService.Failure X status.UNAUTHENTICATED TaskService.Token_invalido))
  /\ (forall req existing run,
         TaskService.delete_token req = token ->
         TaskService.deleteTask X req existing run now w
         = (w, TaskService.Failure X status.UNAUTHENTICATED TaskService.Token_invalido))
  /\ (forall req result,
         TaskQueries.list_token req = token ->
         TaskQueries.getTasks X req result
         = TaskQueries.ListFailure X status.UNAUTHENTICATED TaskService.Token_invalido)
  /\ (forall req existing,
         TaskQueries.get_token req = token ->
         TaskQueries.getTask X req existing
         = TaskService.Failure X status.UNAUTHENTICATED TaskService.Token_invalido)
  /\ (forall c req all uuid,
         TaskService.stream_token req = token ->
         let w' := TaskService.streamTasks X c req all uuid w in
         TaskService.streamingSessions w' = TaskService.streamingSessions w
         /\ TaskService.wire w' = TaskService.wire w
         /\ TaskService.destroyed w'
            = TaskService.destroyed w ++ [(c, TaskService.Token_invalido)])
  /\ (forall c uuid,
         let w' := TaskService.streamNotifications X c token uuid now w in
         TaskService.streamingSessions w' = TaskService.streamingSessions w
         /\ TaskService.wire w' = TaskService.wire w
         /\ TaskService.destroyed w'
            = TaskService.destroyed w ++ [(c, TaskService.Token_invalido)]).
Proof.
  intros Hbad. split; [|split; [|split; [|split; [|split; [|split]]]]].
  - intros req uuid run <-.
    unfold TaskService.createTask, TaskService.createTask_commit,
      TaskService.validateToken. now rewrite Hbad.
  - intros req existing run updated <-.
    unfold TaskService.updateTask, TaskService.updateTask_commit,
      TaskService.validateToken. now rewrite Hbad.
  - intros req existing run <-.
    unfold TaskService.deleteTask, TaskService.deleteTask_commit,
      TaskService.validateToken. now rewrite Hbad.
  - intros req result <-.
    unfold TaskQueries.getTasks, TaskQueries.getTasks_query,
      TaskService.validateToken. now rewrite Hbad.
  - intros req existing <-.
    unfold TaskQueries.getTask, TaskService.validateToken. now rewrite Hbad.
  - intros c req all uuid <- w'. subst w'.
    unfold TaskService.streamTasks, TaskService.validateToken.
    rewrite Hbad. simpl. auto.
  - intros c uuid w'. subst w'.
    unfold TaskService.streamNotifications, TaskService.validateToken.
    rewrite Hbad. simpl. auto.
Qed.
End MoreHandlerFacts.

(** ** More on the dispatcher and the streams *)

Section MoreDispatchFacts.
Import Js.
Context (X : TaskService.Externals).

Local Abbreviation World := (@TaskService.World X).

Lemma write_of_short action task now broken e :
  List.length (write_of X action task now broken e) <= 1.
Proof.
  unfold write_of. destruct (TaskService.payload_for X action task now (snd e)); simpl; lia.
Qed.

Lemma loop_sessions_kept action task now l (w : World) :
  (forall e, In e l -> write_throws X action task now (TaskService.broken w) e = false) ->
  TaskService.streamingSessions
    (fold_left (TaskService.notify_session X action task now) l w)
  = TaskService.streamingSessions w.
Proof.
  revert w. induction l as [|e l IH]; intros w H; simpl; auto.
  rewrite IH.
  - rewrite notify_session_sessions. rewrite H; simpl; auto.
  - intros e' He'. destruct (notify_session_frame X action task now w e) as (-> & _).
    apply H. now right.
Qed.

Lemma loop_listeners action task now (w : World) :
  TaskService.listeners (TaskService.notifyStreams X action task now w)
  = TaskService.listeners w.
Proof.
  unfold TaskService.notifyStreams.
  now destruct (loop_frame X action task now (TaskService.streamingSessions w)
                 (TaskService.record_dispatch X action task w)) as (_ & -> & _).
Qed.

(** X4. One call of [notifyStreams] writes at most once on the call of a
    session, whatever the action; it registers no session and installs no
    listener; and when no write throws the registry is what it was. *)
Theorem notifyStreams_writes_once_and_only_removes
        (action : jsstring) (task : TaskService.Task) (now : Z) (w : World) :
  let w' := TaskService.notifyStreams X action task now w in
  (calls_distinct w ->
   forall sid s,
     In (sid, s) (TaskService.streamingSessions w) ->
     List.length
       (writes_to (TaskService.session_call s)
                  (added (TaskService.wire w) (TaskService.wire w'))) <= 1)
  /\ (forall e, In e (TaskService.streamingSessions w') ->
                In e (TaskService.streamingSessions w))
  /\ TaskService.listeners w' = TaskService.listeners w
  /\ ((forall e, In e (TaskService.streamingSessions w) ->
                 is_broken (TaskService.broken w) (TaskService.session_call (snd e))
                 = false) ->
      TaskService.streamingSessions w' = TaskService.streamingSessions w).
Proof.
  intros w'. subst w'. split; [|split; [|split]].
  - intros Hd sid s Hin.
    pose proof (notifyStreams_writes_to X action task now w (sid, s) Hd Hin) as E.
    cbn [snd] in E. rewrite E. apply write_of_short.
  - intros e He. now apply notifyStreams_sessions in He as [He _].
  - apply loop_listeners.
  - intros Hok. unfold TaskService.notifyStreams.
    rewrite loop_sessions_kept; auto.
    intros e He. unfold write_throws.
    destruct (TaskService.payload_for X action task now (snd e)); auto.
Qed.

(** X5. A task stream opened with [completed: null] is registered with a
    filter that no task passes: no dispatch writes on its call. *)
Theorem null_filter_blocks_every_task
        (action : jsstring) (task : TaskService.Task) (now : Z) (w : World)
        (sid : jsstring) (s : TaskService.Session) :
  calls_distinct w ->
  In (sid, s) (TaskService.streamingSessions w) ->
  TaskService.is_notifications (TaskService.session_type s) = false ->
  TaskService.session_filter s = Some (TaskService.mkFilter JNull) ->
  writes_to (TaskService.session_call s)
            (added (TaskService.wire w)
                   (TaskService.wire (TaskService.notifyStreams X action task now w)))
  = [].
Proof.
  intros Hd Hin Hty Hf.
  pose proof (notifyStreams_writes_to X action task now w (sid, s) Hd Hin) as E.
  cbn [snd] in E. rewrite E.
  unfold write_of, TaskService.payload_for. simpl. rewrite Hty, Hf.
  destruct (streq _ _); reflexivity.
Qed.

Lemma replay_healthy c rows (w : World) :
  is_broken (TaskService.broken w) c = false ->
  TaskService.replay X c rows w
  = (TaskService.mkWorld
       (TaskService.streamingSessions w) (TaskService.listeners w)
       (TaskService.wire w
        ++ List.map (fun row =>
                       mkWrite c (TaskService.PTask
                                    (TaskService.toProtobuf X (TaskService.Task_of_row row)))
                               true) rows)
       (TaskService.destroyed w) (TaskService.broken w) (TaskService.dispatched w),
     true).
Proof.
  intros Hc. revert w Hc. induction rows as [|row rows IH]; intros w Hc; simpl.
  - rewrite app_nil_r. now destruct w.
  - rewrite Hc. simpl. rewrite IH; simpl; auto.
    now rewrite <- app_assoc.
Qed.

(** X6. [streamTasks] with a token that verifies, on a call whose writes go
    through: the existing tasks are written in the order of the rows the
    database returned, each with [completed] as a boolean; then the session
    is registered under the fresh id with the filter of the request, and
    the one listener installed is that of ['cancelled']. *)
Theorem streamTasks_replays_then_registers
        (c : Conn) (req : TaskService.StreamRequest) (rows : list TaskService.Row)
        (uuid : jsstring) (w : World) (u : User) :
  TaskService.jwt_verify X (TaskService.stream_token req) = Some u ->
  is_broken (TaskService.broken w) c = false ->
  let w' := TaskService.streamTasks X c req (TaskService.AllResolves rows) uuid w in
  added (TaskService.wire w) (TaskService.wire w')
  = List.map (fun row =>
                mkWrite c (TaskService.PTask
                             (TaskService.toProtobuf X (TaskService.Task_of_row row)))
                        true) rows
  /\ JsMap.get jsstring_dec uuid (TaskService.streamingSessions w')
     = Some (TaskService.mkSession
               c (user_id u) None
               (Some (TaskService.mkFilter (TaskService.stream_completed req))))
  /\ TaskService.listeners w' = TaskService.listeners w ++ [(c, sig_cancelled, uuid)]
  /\ TaskService.destroyed w' = TaskService.destroyed w.
Proof.
  intros Hu Hc w'. subst w'.
  unfold TaskService.streamTasks, TaskService.validateToken.
  rewrite Hu, (replay_healthy c rows w Hc). simpl.
  split; [apply added_app|]. split; [apply get_set_same|]. auto.
Qed.

(** X7. [streamTasks] on a call whose write throws, with at least one existing
    task: one write is attempted, the call is destroyed and no session is
    registered. With no existing task nothing is written and the session is
    registered all the same. *)
Theorem streamTasks_on_a_dead_call
        (c : Conn) (req : TaskService.StreamRequest) (uuid : jsstring)
        (w : World) (u : User) :
  TaskService.jwt_verify X (TaskService.stream_token req) = Some u ->
  is_broken (TaskService.broken w) c = true ->
  (forall row rows,
      let w' := TaskService.streamTasks X c req (TaskService.AllResolves (row :: rows))
                                        uuid w in
      added (TaskService.wire w) (TaskService.wire w')
      = [mkWrite c (TaskService.PTask
                      (TaskService.toProtobuf X (TaskService.Task_of_row row))) false]
      /\ TaskService.streamingSessions w' = TaskService.streamingSessions w
      /\ TaskService.listeners w' = TaskService.listeners w
      /\ TaskService.destroyed w'
         = TaskService.destroyed w
           ++ [(c, or_else (error_message (TaskService.write_error X))
                           (lit "Erro no streaming"))])
  /\ (let w' := TaskService.streamTasks X c req (TaskService.AllResolves []) uuid w in
      TaskService.wire w' = TaskService.wire w
      /\ JsMap.get jsstring_dec uuid (TaskService.streamingSessions w')
         = Some (TaskService.mkSession
                   c (user_id u) None
                   (Some (TaskService.mkFilter (TaskService.stream_completed req))))).
Proof.
  intros Hu Hc. split.
  - intros row rows w'. subst w'.
    unfold TaskService.streamTasks, TaskService.validateToken.
    rewrite Hu. simpl. rewrite Hc. simpl.
    split; [apply added_app | auto].
  - unfold TaskService.streamTasks, TaskService.validateToken.
    rewrite Hu. simpl. split; auto. apply get_set_same.
Qed.
End MoreDispatchFacts.

Section StreamLifeFacts.
Import Js.
Context (X : TaskService.Externals).

Local Abbreviation World := (@TaskService.World X).

Lemma set_absent {V} (k : jsstring) (v : V) (m : list (jsstring * V)) :
  JsMap.get jsstring_dec k m = None ->
  JsMap.set jsstring_dec k v m = m ++ [(k, v)].
Proof.
  induction m as [|[k' v'] m IH]; simpl; auto.
  destruct (jsstring_dec k k'); [discriminate|].
  intros H. now rewrite IH.
Qed.

Lemma delete_set_absent {V} (k : jsstring) (v : V) (m : list (jsstring * V)) :
  JsMap.get jsstring_dec k m = None ->
  JsMap.delete jsstring_dec k (JsMap.set jsstring_dec k v m) = m.
Proof.
  intros H. rewrite (set_absent k v m H).
  unfold JsMap.delete. rewrite filter_app. simpl.
  unfold JsMap.keyb at 2. destruct (jsstring_dec k k); [|congruence]. simpl.
  rewrite app_nil_r. now apply delete_absent.
Qed.

(** The listeners of other calls do nothing when a call emits a signal. *)
Lemma emit_fold_other c sg ls (w : World) :
  (forall l, In l ls -> fst (fst l) <> c) ->
  fold_left
    (fun w' l =>
       match l with
       | (c', sg', sid) =>
           if Nat.eqb c c' && Signal_eqb sg sg'
           then TaskService.sessions_delete X sid w' else w'
       end) ls w
  = w.
Proof.
  revert w. induction ls as [|[[c' sg'] sid] ls IH]; intros w H; simpl; auto.
  destruct (Nat.eqb c c') eqn:E.
  - apply Nat.eqb_eq in E. exfalso. apply (H (c', sg', sid)); simpl; auto.
  - simpl. apply IH. intros l Hl. apply H. now right.
Qed.

(** X8. Opening a stream on a new call under a fresh id and then cancelling it
    leaves the registry as it was before the stream was opened. For a
    notification stream ['error'] does the same; for a task stream only
    ['cancelled'] has a listener, so after ['error'] or ['end'] the session
    is still registered. *)
Theorem open_then_cancel_restores_the_registry
        (c : Conn) (token uuid : jsstring) (now : Z) (w : World) (u : User) :
  TaskService.jwt_verify X token = Some u ->
  is_broken (TaskService.broken w) c = false ->
  JsMap.get jsstring_dec uuid (TaskService.streamingSessions w) = None ->
  (forall l, In l (TaskService.listeners w) -> fst (fst l) <> c) ->
  (forall sg,
      sg = sig_cancelled \/ sg = sig_error ->
      TaskService.streamingSessions
        (TaskService.emit X c sg (TaskService.streamNotifications X c token uuid now w))
      = TaskService.streamingSessions w)
  /\ (forall completed rows,
         let opened :=
           TaskService.streamTasks X c (TaskService.mkStreamRequest token completed)
                                   (TaskService.AllResolves rows) uuid w in
         TaskService.streamingSessions (TaskService.emit X c sig_cancelled opened)
         = TaskService.streamingSessions w
         /\ (forall sg,
                sg = sig_error \/ sg = sig_end ->
                JsMap.get jsstring_dec uuid
                          (TaskService.streamingSessions (TaskService.emit X c sg opened))
                = Some (TaskService.mkSession
                          c (user_id u) None (Some (TaskService.mkFilter completed))))).
Proof.
  intros Hu Hc Hfresh Hnew. split.
  - intros sg Hsg.
    unfold TaskService.streamNotifications, TaskService.validateToken.
    rewrite Hu. unfold TaskService.call_write. simpl. rewrite Hc. simpl.
    unfold TaskService.emit. simpl.
    rewrite <- app_assoc, fold_left_app.
    rewrite (emit_fold_other c sg (TaskService.listeners w) _ Hnew).
    simpl. rewrite Nat.eqb_refl.
    destruct Hsg as [-> | ->]; simpl; now apply delete_set_absent.
  - intros completed rows opened. subst opened.
    unfold TaskService.streamTasks, TaskService.validateToken. simpl.
    rewrite Hu, (replay_healthy X c rows w Hc). simpl.
    unfold TaskService.emit. simpl. split.
    + rewrite fold_left_app.
      rewrite (emit_fold_other c sig_cancelled (TaskService.listeners w) _ Hnew).
      simpl. rewrite Nat.eqb_refl. simpl. now apply delete_set_absent.
    + intros sg Hsg. rewrite fold_left_app.
      rewrite (emit_fold_other c sg (TaskService.listeners w) _ Hnew).
      simpl. rewrite Nat.eqb_refl.
      destruct Hsg as [-> | ->]; simpl; apply get_set_same.
Qed.

(** X9. [streamNotifications] on a call whose write throws registers the
    session before the write and installs no listener after it: no signal
    of the call removes the session, and it stays in the registry until a
    dispatch for its owner tries the call and deletes it. *)
Theorem dead_notification_stream_stays_until_a_dispatch
        (c : Conn) (token uuid : jsstring) (now : Z) (w : World) (u : User) :
  TaskService.jwt_verify X token = Some u ->
  is_broken (TaskService.broken w) c = true ->
  (forall l, In l (TaskService.listeners w) -> fst (fst l) <> c) ->
  let w' := TaskService.streamNotifications X c token uuid now w in
  JsMap.get jsstring_dec uuid (TaskService.streamingSessions w')
  = Some (TaskService.mkSession c (user_id u) (Some (lit "notifications")) None)
  /\ (forall sg, TaskService.emit X c sg w' = w')
  /\ (forall action task now2,
         TaskService.task_userId task = user_id u ->
         JsMap.get jsstring_dec uuid
                   (TaskService.streamingSessions
                      (TaskService.notifyStreams X action task now2 w'))
         = None).
Proof.
  intros Hu Hc Hnew w'.
  assert (E : w' = TaskService.call_destroy
                     X c (TaskService.write_error X)
                     (fst (TaskService.call_write
                             X c (TaskService.PNotification
                                    (TaskService.initial_notification X now))
                             (TaskService.sessions_set
                                X uuid
                                (TaskService.mkSession c (user_id u)
                                                       (Some (lit "notifications")) None)
                                w)))).
  { subst w'. unfold TaskService.streamNotifications, TaskService.validateToken.
    rewrite Hu. unfold TaskService.call_write. simpl. rewrite Hc. reflexivity. }
  assert (Hget : JsMap.get jsstring_dec uuid (TaskService.streamingSessions w')
                 = Some (TaskService.mkSession c (user_id u)
                                               (Some (lit "notifications")) None)).
  { rewrite E. simpl. apply get_set_same. }
  split; [exact Hget|]. split.
  - intros sg. unfold TaskService.emit. apply emit_fold_other.
    rewrite E. simpl. exact Hnew.
  - intros action task now2 Hown.
    destruct (JsMap.get jsstring_dec uuid
                (TaskService.streamingSessions
                   (TaskService.notifyStreams X action task now2 w'))) eqn:G; auto.
    apply get_in in G. apply notifyStreams_sessions in G as [_ G].
    exfalso. apply get_in in Hget. apply (G _ Hget); auto.
    unfold write_throws, TaskService.payload_for. simpl.
    rewrite Hown, streq_refl. simpl.
    rewrite E. simpl. exact Hc.
Qed.
End StreamLifeFacts.

(** ** The handlers that read, and the row of an update *)

Section QueryFacts.
Import Js.
Context (X : TaskService.Externals).

Lemma exponent_form_positive : (0 < 10 ^ 21)%Z.
Proof. apply Z.pow_pos_nonneg; lia. Qed.

Lemma parseInt10_plain leading n :
  (Z.abs n < 10 ^ 21)%Z -> TaskQueries.parseInt10 leading n = n.
Proof.
  intros H. unfold TaskQueries.parseInt10.
  destruct (Z.ltb_spec (Z.abs n) (10 ^ 21)); [reflexivity | lia].
Qed.

Lemma parseInt10_exponent leading n :
  (10 ^ 21 <= n)%Z -> TaskQueries.parseInt10 leading n = leading n.
Proof.
  intros H. pose proof exponent_form_positive as H21.
  unfold TaskQueries.parseInt10.
  destruct (Z.ltb_spec (Z.abs n) (10 ^ 21)); [lia|].
  rewrite Z.sgn_pos, Z.abs_eq by lia. apply Z.mul_1_l.
Qed.

Lemma parseInt10_negative_exponent leading n :
  (n <= - 10 ^ 21)%Z -> TaskQueries.parseInt10 leading n = (- leading (- n))%Z.
Proof.
  intros H. pose proof exponent_form_positive as H21.
  unfold TaskQueries.parseInt10.
  destruct (Z.ltb_spec (Z.abs n) (10 ^ 21)); [lia|].
  rewrite Z.sgn_neg, Z.abs_neq by lia. lia.
Qed.

Lemma parsed_or_missing (n : jsopt Z) d :
  n = JUndefined \/ n = JNull \/ n = JVal 0%Z -> TaskQueries.parsed_or X n d = d.
Proof. intros [-> | [-> | ->]]; reflexivity. Qed.

Lemma parsed_or_plain n d :
  n <> 0%Z -> (Z.abs n < 10 ^ 21)%Z -> TaskQueries.parsed_or X (JVal n) d = n.
Proof.
  intros Hn Hb. unfold TaskQueries.parsed_or.
  destruct (Z.eqb_spec n 0); [contradiction|]. now apply parseInt10_plain.
Qed.

Lemma parsed_or_exponent n d :
  (10 ^ 21 <= n)%Z ->
  TaskQueries.parsed_or X (JVal n) d = TaskService.leading_digit X n.
Proof.
  intros Hb. pose proof exponent_form_positive as H21.
  unfold TaskQueries.parsed_or.
  destruct (Z.eqb_spec n 0); [lia|]. now apply parseInt10_exponent.
Qed.

Lemma parsed_or_negative n d :
  (n < 0)%Z ->
  ((n <= - 10 ^ 21)%Z -> (1 <= TaskService.leading_digit X (- n))%Z) ->
  (TaskQueries.parsed_or X (JVal n) d < 0)%Z.
Proof.
  intros Hn Hd. unfold TaskQueries.parsed_or.
  destruct (Z.eqb_spec n 0); [lia|].
  destruct (Z_lt_le_dec (- 10 ^ 21) n) as [Hs | Hl].
  - rewrite parseInt10_plain; lia.
  - rewrite parseInt10_negative_exponent by exact Hl. specialize (Hd Hl). lia.
Qed.

(** X10. A query [getTasks] hands to the database is scoped and bounded: the
    statement starts with the selection by [userId] and its first value is
    the id of the user of the token; the page is at least 1 and the limit
    between 1 and 100; a missing or zero page is read as 1 and a missing or
    zero limit as 10, a number below 1e21 in size as itself, and a number
    from 1e21 on as the first digit of its decimal form; and the statement
    has as many [?] as values are bound. *)
Theorem getTasks_query_is_scoped_and_bounded
        (req : TaskQueries.ListRequest) (q : TaskQueries.Query) :
  TaskQueries.getTasks_query X req = Ok q ->
  (exists u,
      TaskService.jwt_verify X (TaskQueries.list_token req) = Some u
      /\ hd_error (TaskQueries.q_params q) = Some (TaskQueries.SqlText (user_id u)))
  /\ startsWith (TaskQueries.q_sql q) (lit "SELECT * FROM tasks WHERE userId = ?") = true
  /\ (1 <= TaskQueries.q_page q)%Z
  /\ (1 <= TaskQueries.q_limit q <= 100)%Z
  /\ (TaskQueries.list_page req = JUndefined \/ TaskQueries.list_page req = JNull
      \/ TaskQueries.list_page req = JVal 0%Z ->
      TaskQueries.q_page q = 1%Z)
  /\ (forall n,
         TaskQueries.list_page req = JVal n -> n <> 0%Z -> (Z.abs n < 10 ^ 21)%Z ->
         TaskQueries.q_page q = n)
  /\ (forall n,
         TaskQueries.list_page req = JVal n -> (10 ^ 21 <= n)%Z ->
         TaskQueries.q_page q = TaskService.leading_digit X n)
  /\ (TaskQueries.list_limit req = JUndefined \/ TaskQueries.list_limit req = JNull
      \/ TaskQueries.list_limit req = JVal 0%Z ->
      TaskQueries.q_limit q = 10%Z)
  /\ (forall n,
         TaskQueries.list_limit req = JVal n -> n <> 0%Z -> (Z.abs n < 10 ^ 21)%Z ->
         TaskQueries.q_limit q = n)
  /\ (forall n,
         TaskQueries.list_limit req = JVal n -> (10 ^ 21 <= n)%Z ->
         TaskQueries.q_limit q = TaskService.leading_digit X n)
  /\ TaskQueries.placeholders (TaskQueries.q_sql q)
     = List.length (TaskQueries.q_params q).
Proof.
  unfold TaskQueries.getTasks_query, TaskService.validateToken.
  destruct (TaskService.jwt_verify X _) as [u|] eqn:Hu; simpl; [|discriminate].
  destruct (Z.ltb (TaskQueries.parsed_or X (TaskQueries.list_page req) 1) 1) eqn:Hp;
    simpl; [discriminate|].
  destruct (Z.ltb (TaskQueries.parsed_or X (TaskQueries.list_limit req) 10) 1
            || Z.ltb 100 (TaskQueries.parsed_or X (TaskQueries.list_limit req) 10)) eqn:Hl;
    simpl; [discriminate|].
  intros [= <-]. simpl.
  apply Z.ltb_ge in Hp. apply orb_false_iff in Hl as [Hl1 Hl2].
  apply Z.ltb_ge in Hl1. apply Z.ltb_ge in Hl2.
  split; [exists u; split; auto;
          destruct (TaskQueries.list_completed req), (TaskQueries.list_priority req);
          reflexivity|].
  split; [destruct (TaskQueries.list_completed req), (TaskQueries.list_priority req);
          reflexivity|].
  split; [exact Hp|].
  split; [split; assumption|].
  split; [apply parsed_or_missing|].
  split; [intros n ->; apply parsed_or_plain|].
  split; [intros n ->; apply parsed_or_exponent|].
  split; [apply parsed_or_missing|].
  split; [intros n ->; apply parsed_or_plain|].
  split; [intros n ->; apply parsed_or_exponent|].
  destruct (TaskQueries.list_completed req), (TaskQueries.list_priority req);
    reflexivity.
Qed.

(** X11. With a token that verifies, [getTasks] answers INVALID_ARGUMENT
    without asking the database when the page is negative, and, for a page
    that is not, when the limit is negative or above 100 and below 1e21,
    the page checked first. A limit from 1e21 on is read as the first digit
    of its decimal form and the query is made with that limit. *)
Theorem getTasks_rejects_bad_paging
        (req : TaskQueries.ListRequest) (result : TaskQueries.PageResult)
        (u : User) (page limit : Z) :
  TaskService.jwt_verify X (TaskQueries.list_token req) = Some u ->
  TaskQueries.list_page req = JVal page ->
  TaskQueries.list_limit req = JVal limit ->
  ((page < 0)%Z ->
   ((page <= - 10 ^ 21)%Z -> (1 <= TaskService.leading_digit X (- page))%Z) ->
   TaskQueries.getTasks X req result
   = TaskQueries.ListFailure X status.INVALID_ARGUMENT (lit "page deve ser >= 1"))
  /\ ((0 <= page < 10 ^ 21)%Z ->
      (limit < 0 \/ 100 < limit < 10 ^ 21)%Z ->
      ((limit <= - 10 ^ 21)%Z -> (1 <= TaskService.leading_digit X (- limit))%Z) ->
      TaskQueries.getTasks X req result
      = TaskQueries.ListFailure X status.INVALID_ARGUMENT
                                (lit "limit deve estar entre 1 e 100"))
  /\ ((0 <= page < 10 ^ 21)%Z ->
      (10 ^ 21 <= limit)%Z ->
      (1 <= TaskService.leading_digit X limit <= 100)%Z ->
      exists q,
        TaskQueries.getTasks_query X req = Ok q
        /\ TaskQueries.q_page q = (if Z.eqb page 0 then 1 else page)%Z
        /\ TaskQueries.q_limit q = TaskService.leading_digit X limit).
Proof.
  intros Hu Hp Hl.
  assert (Hpage : (0 <= page < 10 ^ 21)%Z ->
                  TaskQueries.parsed_or X (JVal page) 1
                  = (if Z.eqb page 0 then 1 else page)%Z
                  /\ Z.ltb (TaskQueries.parsed_or X (JVal page) 1) 1 = false).
  { intros Hb. destruct (Z.eqb_spec page 0) as [-> | Hn]; [split; reflexivity|].
    rewrite parsed_or_plain by lia. split; [reflexivity | apply Z.ltb_ge; lia]. }
  unfold TaskQueries.getTasks, TaskQueries.getTasks_query, TaskService.validateToken.
  rewrite Hu, Hp, Hl. cbn [bind]. split; [|split].
  - intros Hneg Hd.
    pose proof (parsed_or_negative page 1 Hneg Hd) as H.
    assert (Z.ltb (TaskQueries.parsed_or X (JVal page) 1) 1 = true) as ->
        by (apply Z.ltb_lt; lia).
    reflexivity.
  - intros Hpos Hbad Hd. destruct (Hpage Hpos) as [_ ->].
    assert (Z.ltb (TaskQueries.parsed_or X (JVal limit) 10) 1
            || Z.ltb 100 (TaskQueries.parsed_or X (JVal limit) 10) = true) as ->.
    { apply orb_true_iff. destruct Hbad as [Hneg | Hbig].
      - left. pose proof (parsed_or_negative limit 10 Hneg Hd). apply Z.ltb_lt. lia.
      - right. rewrite parsed_or_plain by lia. apply Z.ltb_lt. lia. }
    reflexivity.
  - intros Hpos Hbig Hd. destruct (Hpage Hpos) as [Epage ->].
    rewrite Epage, (parsed_or_exponent limit 10 Hbig).
    assert (Z.ltb (TaskService.leading_digit X limit) 1
            || Z.ltb 100 (TaskService.leading_digit X limit) = false) as ->.
    { apply orb_false_iff. split; apply Z.ltb_ge; lia. }
    cbn [bind]. eexists. split; [reflexivity|]. split; reflexivity.
Qed.

(** X12. The values [updateTask] binds to its UPDATE: a field the request
    leaves [undefined] keeps the value of the existing row, [completed]
    goes in as 0 or 1, a [null] title keeps the stored title, a [null]
    description is written as NULL and a [null] completed as 0. *)
Theorem update_keeps_what_the_request_leaves_out
        (req : TaskService.UpdateRequest) (existing : TaskService.Row) (user : User) :
  (exists title description completed priority,
      TaskQueries.update_params X req existing user
      = [TaskQueries.SqlText title; description; TaskQueries.SqlInt completed;
         TaskQueries.SqlText priority;
         TaskQueries.SqlText (TaskService.update_task_id req);
         TaskQueries.SqlText (user_id user)]
      /\ (completed = 0 \/ completed = 1)%Z
      /\ (TaskService.update_title req = JUndefined \/ TaskService.update_title req = JNull ->
          title = TaskService.row_title existing)
      /\ (TaskService.update_description req = JUndefined ->
          description = TaskQueries.SqlText (TaskService.row_description existing))
      /\ (TaskService.update_description req = JNull -> description = TaskQueries.SqlNull)
      /\ (TaskService.update_completed req = JUndefined ->
          completed = if N.eqb (TaskService.row_completed existing) 1 then 1%Z else 0%Z)
      /\ (TaskService.update_completed req = JNull -> completed = 0%Z)
      /\ (TaskService.update_priority req = JUndefined ->
          priority = TaskService.row_priority existing)).
Proof.
  unfold TaskQueries.update_params, TaskQueries.updateData. simpl.
  eexists _, _, _, _. split; [reflexivity|].
  split.
  { destruct (TaskService.update_completed req) as [| |[|]];
      try destruct (N.eqb _ 1); auto. }
  split; [intros [-> | ->]; reflexivity|].
  split; [intros ->; reflexivity|].
  split; [intros ->; reflexivity|].
  split; [intros ->; reflexivity|].
  split; [intros ->; reflexivity|].
  intros ->; reflexivity.
Qed.
End QueryFacts.

(** ** The interceptor *)

Section InterceptorFacts.
Import Js.
Context (jwt_verify : jsstring -> jsstring -> option User).

Lemma existsb_streq path l : existsb (streq path) l = true <-> In path l.
Proof.
  rewrite existsb_exists. split.
  - intros [x [Hx E]]. apply streq_true in E. now subst.
  - intros H. exists path. split; auto. apply streq_refl.
Qed.

(** X13. The interceptor goes on without a user exactly for the public paths,
    whatever the call carries; for another path it goes on only with the
    payload of a token of the call that verifies under the configured
    secret, and every refusal is UNAUTHENTICATED. *)
Theorem interceptor_passes_only_public_or_verified
        (cfg : AuthInterceptor.Config) (call : AuthInterceptor.Call) (path : jsstring) :
  (In path (AuthInterceptor.publicMethods cfg) ->
   AuthInterceptor.authInterceptor jwt_verify cfg call path = AuthInterceptor.Next None)
  /\ (~ In path (AuthInterceptor.publicMethods cfg) ->
      match AuthInterceptor.authInterceptor jwt_verify cfg call path with
      | AuthInterceptor.Next None => False
      | AuthInterceptor.Next (Some u) =>
          AuthInterceptor.token_of call <> []
          /\ jwt_verify (AuthInterceptor.jwtSecret cfg) (AuthInterceptor.token_of call)
             = Some u
      | AuthInterceptor.SendStatus code _ => code = status.UNAUTHENTICATED
      end).
Proof.
  unfold AuthInterceptor.authInterceptor. split.
  - intros H. apply existsb_streq in H. now rewrite H.
  - intros H.
    destruct (existsb (streq path) (AuthInterceptor.publicMethods cfg)) eqn:E.
    + apply existsb_streq in E. contradiction.
    + destruct (truthy (AuthInterceptor.token_of call)) eqn:Ht; auto.
      destruct (jwt_verify _ _) eqn:Hv; auto.
      split; auto. destruct (AuthInterceptor.token_of call); discriminate.
Qed.

(** X14. With no secret configured, the interceptor and
    [ChatService.validateToken] take the same token of a call and accept
    the same user whenever the call has no [authorization] header or one
    that starts with ['Bearer '], both falling back on [request.token]. A
    header without the prefix is the token for the interceptor, while
    ChatService ignores it. *)
Theorem interceptor_and_chat_agree_on_bearer
        (X : ChatService.Externals) (cfg : AuthInterceptor.Config)
        (call : AuthInterceptor.Call) (path : jsstring) :
  AuthInterceptor.secret cfg = None ->
  AuthInterceptor.env_JWT_SECRET cfg = None ->
  (forall t, ChatService.jwt_verify X t = jwt_verify (lit "secret") t) ->
  ~ In path (AuthInterceptor.publicMethods cfg) ->
  (match AuthInterceptor.authorization call with
   | Some (raw :: _) => startsWith raw (lit "Bearer ") = true
   | _ => True
   end ->
   forall u,
     AuthInterceptor.authInterceptor jwt_verify cfg call path
     = AuthInterceptor.Next (Some u)
     <-> ChatService.validateToken X (AuthInterceptor.source_of call) = Ok u)
  /\ (forall raw rest,
         AuthInterceptor.authorization call = Some (raw :: rest) ->
         startsWith raw (lit "Bearer ") = false ->
         raw <> [] ->
         AuthInterceptor.token_of call = raw
         /\ ChatService.validateToken X (AuthInterceptor.source_of call)
            = ChatService.validateToken
                X (ChatService.mkSource None (AuthInterceptor.request_token call))).
Proof.
  intros Hs He Hv Hpath. split.
  - intros Hbearer u.
    unfold AuthInterceptor.authInterceptor, ChatService.validateToken,
      AuthInterceptor.source_of, AuthInterceptor.token_of, AuthInterceptor.jwtSecret.
    rewrite Hs, He. cbn -[slice lit].
    destruct (existsb (streq path) (AuthInterceptor.publicMethods cfg)) eqn:E;
      [apply existsb_streq in E; contradiction|].
    destruct (AuthInterceptor.authorization call) as [[|raw rest]|]; cbn -[slice lit].
    + destruct (AuthInterceptor.request_token call) as [t|]; cbn -[slice lit].
      * destruct (truthy t); [|split; discriminate].
        rewrite Hv. destruct (jwt_verify (lit "secret") t); split; congruence.
      * split; discriminate.
    + rewrite Hbearer.
      destruct (truthy (slice 7 raw)) eqn:T; cbn -[slice lit]; rewrite ?T.
      * rewrite Hv. destruct (jwt_verify (lit "secret") (slice 7 raw)); split; congruence.
      * destruct (AuthInterceptor.request_token call) as [t|]; cbn -[slice lit].
        -- destruct (truthy t); [|split; discriminate].
           rewrite Hv. destruct (jwt_verify (lit "secret") t); split; congruence.
        -- split; discriminate.
    + destruct (AuthInterceptor.request_token call) as [t|]; cbn -[slice lit].
      * destruct (truthy t); [|split; discriminate].
        rewrite Hv. destruct (jwt_verify (lit "secret") t); split; congruence.
      * split; discriminate.
  - intros raw rest Hraw Hno Hne.
    unfold AuthInterceptor.token_of, AuthInterceptor.source_of,
      ChatService.validateToken.
    rewrite Hraw. simpl. rewrite Hno. split.
    + destruct raw; [congruence | reflexivity].
    + reflexivity.
Qed.
End InterceptorFacts.

(** ** More on the chat *)

Section MoreMapFacts.
Context {K V : Type} (K_dec : forall a b : K, {a = b} + {a <> b}).

Lemma get_set_other (k k' : K) (v : V) m :
  k <> k' -> JsMap.get K_dec k' (JsMap.set K_dec k v m) = JsMap.get K_dec k' m.
Proof.
  intros Hne. induction m as [|[k0 v0] m IH]; simpl.
  - destruct (K_dec k' k); congruence.
  - destruct (K_dec k k0); simpl.
    + subst. destruct (K_dec k' k0); congruence.
    + destruct (K_dec k' k0); auto.
Qed.

Lemma get_delete_other (k k' : K) (m : list (K * V)) :
  k <> k' -> JsMap.get K_dec k' (JsMap.delete K_dec k m) = JsMap.get K_dec k' m.
Proof.
  unfold JsMap.delete, JsMap.keyb. intros Hne.
  induction m as [|[k0 v0] m IH]; simpl; auto.
  destruct (K_dec k k0); simpl.
  - subst. destruct (K_dec k' k0); [congruence|auto].
  - destruct (K_dec k' k0); auto.
Qed.
End MoreMapFacts.

Section ChatShape.
Import Js.
Context (X : ChatService.Externals).

Lemma in_add (c x : Conn) (s : list Conn) :
  In x (JsSet.add Nat.eq_dec c s) <-> x = c \/ In x s.
Proof.
  unfold JsSet.add. destruct (JsSet.mem Nat.eq_dec c s) eqn:E.
  - split; auto. intros [-> | H]; auto.
    unfold JsSet.mem in E. apply existsb_exists in E as [y [Hy E]].
    destruct (Nat.eq_dec c y); [now subst | discriminate].
  - rewrite in_app_iff. simpl. intuition.
Qed.

Lemma add_absent (c : Conn) (s : list Conn) :
  ~ In c s -> JsSet.add Nat.eq_dec c s = s ++ [c].
Proof.
  intros H. unfold JsSet.add.
  destruct (JsSet.mem Nat.eq_dec c s) eqn:E; auto.
  unfold JsSet.mem in E. apply existsb_exists in E as [y [Hy E]].
  destruct (Nat.eq_dec c y); [subst; contradiction | discriminate].
Qed.

Lemma in_set_delete (c x : Conn) (s : list Conn) :
  In x (JsSet.delete Nat.eq_dec c s) <-> In x s /\ x <> c.
Proof.
  unfold JsSet.delete. rewrite filter_In.
  destruct (Nat.eq_dec c x); intuition congruence.
Qed.

Lemma members_ensure room (w : ChatService.World) :
  ChatService.members room (ChatService._ensureRoom room w) = ChatService.members room w.
Proof.
  unfold ChatService._ensureRoom, ChatService.members, JsMap.has.
  destruct (JsMap.get jsstring_dec room (ChatService.rooms w)) eqn:E.
  - now rewrite E.
  - simpl. now rewrite get_set_same.
Qed.

(** The world after the block that joins a room. *)
Lemma join_block_eq c st u room now (w : ChatService.World) :
  ChatService.joined st = None ->
  ChatService.join_block c st u room now w
  = (ChatService.mkWorld
       (JsMap.set jsstring_dec room
                  (JsSet.add Nat.eq_dec c (ChatService.members room w))
                  (ChatService.rooms w))
       (JsMap.set Nat.eq_dec c
                  (ChatService.mkLocal (Some room) (Some u) (ChatService.source st))
                  (ChatService.streams w))
       (ChatService.wire w
        ++ sends (ChatService.broken w) (ChatService.join_message room u now)
                 (JsSet.add Nat.eq_dec c (ChatService.members room w))
        ++ [mkWrite c (ChatService.welcome_message room now)
                    (negb (is_broken (ChatService.broken w) c))])
       (ChatService.destroyed w) (ChatService.ended w) (ChatService.broken w),
     room, negb (is_broken (ChatService.broken w) c)).
Proof.
  intros Hj. unfold ChatService.join_block. rewrite Hj.
  unfold ChatService.call_write. rewrite broadcast_all.
  unfold ChatService._ensureRoom.
  cbn [ChatService.rooms ChatService.with_local ChatService.with_rooms
       ChatService.streams ChatService.wire ChatService.destroyed
       ChatService.ended ChatService.broken fst snd].
  destruct (JsMap.has jsstring_dec room (ChatService.rooms w)) eqn:E;
    unfold ChatService.members;
    cbn [ChatService.rooms ChatService.with_local ChatService.with_rooms
         ChatService.streams ChatService.wire ChatService.destroyed
         ChatService.ended ChatService.broken fst snd].
  - rewrite get_set_same. now rewrite app_assoc.
  - rewrite !get_set_same. unfold JsMap.has in E.
    destruct (JsMap.get jsstring_dec room (ChatService.rooms w)); [discriminate|].
    rewrite set_set. now rewrite app_assoc.
Qed.

(** The world after a message on a stream that is in no room, when the
    token verifies and the message names a room. *)
Lemma on_data_join_eq c msg now (w : ChatService.World) st u :
  JsMap.get Nat.eq_dec c (ChatService.streams w) = Some st ->
  ChatService.joined st = None ->
  ChatService.authenticate X st = Ok u ->
  truthy (trim (str_or_empty (ChatService.in_room msg))) = true ->
  let room := trim (str_or_empty (ChatService.in_room msg)) in
  let text := trim (str_or_empty (ChatService.in_text msg)) in
  let set := JsSet.add Nat.eq_dec c (ChatService.members room w) in
  let ok := negb (is_broken (ChatService.broken w) c) in
  ChatService.on_data X c msg now w
  = ChatService.mkWorld
      (JsMap.set jsstring_dec room set (ChatService.rooms w))
      (JsMap.set Nat.eq_dec c
                 (ChatService.mkLocal (Some room) (Some u) (ChatService.source st))
                 (ChatService.streams w))
      (ChatService.wire w
       ++ sends (ChatService.broken w) (ChatService.join_message room u now) set
       ++ [mkWrite c (ChatService.welcome_message room now) ok]
       ++ (if ok && truthy text
           then sends (ChatService.broken w) (ChatService.text_message room text u now) set
           else []))
      (if ok then ChatService.destroyed w
       else ChatService.destroyed w ++ [(c, ChatService.write_error X)])
      (ChatService.ended w) (ChatService.broken w).
Proof.
  intros Hst Hj Hu Hroom room text set ok.
  unfold ChatService.on_data. rewrite Hst, Hu, Hroom.
  rewrite (join_block_eq c st u room now _ Hj).
  cbn [ChatService.rooms ChatService.with_local ChatService.with_rooms
       ChatService.streams ChatService.wire ChatService.destroyed
       ChatService.ended ChatService.broken fst snd].
  unfold ChatService.members at 1 2.
  cbn [ChatService.rooms ChatService.with_local ChatService.with_rooms
       ChatService.streams ChatService.wire ChatService.destroyed
       ChatService.ended ChatService.broken fst snd].
  fold (ChatService.members room w). fold set. fold ok.
  rewrite set_set.
  destruct ok; cbn [andb].
  - fold text.
    assert (Ht : truthy (str_or_empty (ChatService.in_text msg)) && truthy text
                 = truthy text).
    { destruct (truthy text) eqn:T; [|apply andb_false_r].
      subst text. now rewrite (truthy_trim _ T). }
    rewrite Ht. destruct (truthy text).
    + rewrite broadcast_all.
      cbn [ChatService.rooms ChatService.with_local ChatService.with_rooms
           ChatService.streams ChatService.wire ChatService.destroyed
           ChatService.ended ChatService.broken fst snd].
      unfold ChatService.members.
      cbn [ChatService.rooms]. rewrite get_set_same.
      now rewrite <- !app_assoc.
    + now rewrite app_nil_r.
  - unfold ChatService.call_destroy.
    cbn [ChatService.rooms ChatService.with_local ChatService.with_rooms
         ChatService.streams ChatService.wire ChatService.destroyed
         ChatService.ended ChatService.broken fst snd].
    now rewrite app_nil_r.
Qed.
End ChatShape.

Section ChatOrderFacts.
Import Js.
Context (X : ChatService.Externals).

Lemma delivered_app {P} c (l1 l2 : list (WriteCall P)) :
  delivered c (l1 ++ l2) = delivered c l1 ++ delivered c l2.
Proof. unfold delivered. now rewrite writes_to_app, filter_app, map_app. Qed.

Lemma delivered_sends c broken message set :
  NoDup set -> In c set ->
  delivered c (sends broken message set)
  = if is_broken broken c then [] else [message].
Proof.
  intros Hnd Hin. unfold delivered.
  rewrite (writes_to_sends c broken message set Hnd Hin). simpl.
  now destruct (is_broken broken c).
Qed.

Lemma writes_to_sends_absent c broken message set :
  ~ In c set -> writes_to c (sends broken message set) = [].
Proof.
  intros Hno. unfold writes_to, sends. apply filter_none.
  intros wc Hwc. apply in_map_iff in Hwc as [x [<- Hx]]. simpl.
  apply Nat.eqb_neq. congruence.
Qed.

(** X15. The first message of a stream whose token verifies and whose call is
    written without error: the call becomes the last member of the room it
    names; it is delivered the announcement of its own join, then the
    welcome, then its own text if the message has one; and a member that
    was in the room is delivered the announcement and the text, not the
    welcome. *)
Theorem first_message_joins_greets_then_speaks
        (c : Conn) (msg : ChatService.Inbound) (now : Z) (w : ChatService.World)
        (st : ChatService.Local) (u : User) :
  JsMap.get Nat.eq_dec c (ChatService.streams w) = Some st ->
  ChatService.joined st = None ->
  ChatService.authenticate X st = Ok u ->
  truthy (trim (str_or_empty (ChatService.in_room msg))) = true ->
  is_broken (ChatService.broken w) c = false ->
  NoDup (ChatService.members (trim (str_or_empty (ChatService.in_room msg))) w) ->
  ~ In c (ChatService.members (trim (str_or_empty (ChatService.in_room msg))) w) ->
  let room := trim (str_or_empty (ChatService.in_room msg)) in
  let text := trim (str_or_empty (ChatService.in_text msg)) in
  let said := if truthy text then [ChatService.text_message room text u now] else [] in
  let w' := ChatService.on_data X c msg now w in
  ChatService.members room w' = ChatService.members room w ++ [c]
  /\ delivered c (added (ChatService.wire w) (ChatService.wire w'))
     = [ChatService.join_message room u now; ChatService.welcome_message room now]
       ++ said
  /\ (forall c',
         In c' (ChatService.members room w) ->
         is_broken (ChatService.broken w) c' = false ->
         delivered c' (added (ChatService.wire w) (ChatService.wire w'))
         = ChatService.join_message room u now :: said).
Proof.
  intros Hst Hj Hu Hroom Hc Hnd Hno room text said w'.
  assert (E := on_data_join_eq X c msg now w st u Hst Hj Hu Hroom).
  cbv zeta in E. rewrite (add_absent c _ Hno), Hc in E.
  cbn [negb andb] in E. fold room in E. fold text in E. fold w' in E.
  assert (Hnd' : NoDup (ChatService.members room w ++ [c])).
  { apply NoDup_app; auto.
    - repeat constructor. simpl. tauto.
    - intros a Ha [<- | []]. contradiction. }
  assert (Hin : In c (ChatService.members room w ++ [c]))
    by (apply in_or_app; right; simpl; auto).
  rewrite E. cbn [ChatService.wire]. rewrite added_app.
  split; [|split].
  - unfold ChatService.members at 1. cbn [ChatService.rooms].
    now rewrite get_set_same.
  - rewrite !delivered_app, (delivered_sends c _ _ _ Hnd' Hin), Hc.
    unfold delivered at 1. simpl. rewrite Nat.eqb_refl. simpl.
    subst said. destruct (truthy text); simpl; auto.
    rewrite (delivered_sends c _ _ _ Hnd' Hin), Hc. reflexivity.
  - intros c' Hc' Hok.
    assert (Hin' : In c' (ChatService.members room w ++ [c]))
      by (apply in_or_app; now left).
    assert (Hne : c <> c') by (intros ->; contradiction).
    rewrite !delivered_app, (delivered_sends c' _ _ _ Hnd' Hin'), Hok.
    unfold delivered at 1. simpl.
    destruct (Nat.eqb c c') eqn:B; [apply Nat.eqb_eq in B; contradiction|]. simpl.
    subst said. destruct (truthy text); simpl; auto.
    rewrite (delivered_sends c' _ _ _ Hnd' Hin'), Hok. reflexivity.
Qed.

(** X16. The first message of a stream whose own write throws: the call has
    joined the room and its stream holds the room, the members were written
    the announcement, but the write of the welcome threw, so the call is
    destroyed with that error and the text of the message, if any, is not
    broadcast. *)
Theorem failed_welcome_joins_but_drops_the_text
        (c : Conn) (msg : ChatService.Inbound) (now : Z) (w : ChatService.World)
        (st : ChatService.Local) (u : User) :
  JsMap.get Nat.eq_dec c (ChatService.streams w) = Some st ->
  ChatService.joined st = None ->
  ChatService.authenticate X st = Ok u ->
  truthy (trim (str_or_empty (ChatService.in_room msg))) = true ->
  is_broken (ChatService.broken w) c = true ->
  let room := trim (str_or_empty (ChatService.in_room msg)) in
  let w' := ChatService.on_data X c msg now w in
  In c (ChatService.members room w')
  /\ JsMap.get Nat.eq_dec c (ChatService.streams w')
     = Some (ChatService.mkLocal (Some room) (Some u) (ChatService.source st))
  /\ added (ChatService.wire w) (ChatService.wire w')
     = sends (ChatService.broken w) (ChatService.join_message room u now)
             (ChatService.members room w')
       ++ [mkWrite c (ChatService.welcome_message room now) false]
  /\ ChatService.destroyed w'
     = ChatService.destroyed w ++ [(c, ChatService.write_error X)].
Proof.
  intros Hst Hj Hu Hroom Hc room w'.
  assert (E := on_data_join_eq X c msg now w st u Hst Hj Hu Hroom).
  cbv zeta in E. rewrite Hc in E.
  cbn [negb andb] in E. fold room in E. fold w' in E.
  assert (Hm : ChatService.members room w'
               = JsSet.add Nat.eq_dec c (ChatService.members room w)).
  { rewrite E. unfold ChatService.members at 1. cbn [ChatService.rooms].
    now rewrite get_set_same. }
  rewrite Hm. rewrite E.
  cbn [ChatService.wire ChatService.streams ChatService.destroyed].
  rewrite added_app, app_nil_r.
  split; [apply in_add; now left|].
  split; [apply get_set_same|]. auto.
Qed.
End ChatOrderFacts.

Section ChatLeaveFacts.
Import Js.
Context (X : ChatService.Externals).

Lemma leaveRoom_streams c now (w : ChatService.World) :
  ChatService.streams (ChatService.leaveRoom c now w)
  = match JsMap.get Nat.eq_dec c (ChatService.streams w) with
    | Some st =>
        JsMap.set Nat.eq_dec c
                  (ChatService.mkLocal None (ChatService.user st) (ChatService.source st))
                  (ChatService.streams w)
    | None => ChatService.streams w
    end.
Proof.
  unfold ChatService.leaveRoom.
  destruct (JsMap.get Nat.eq_dec c (ChatService.streams w)) as [st|]; auto.
  destruct (ChatService.joinedRoom st) as [room|]; auto.
  destruct (JsMap.get jsstring_dec room (ChatService.rooms w)) as [set|]; auto.
  destruct (truthy room); auto.
  simpl. rewrite broadcast_all. simpl.
  destruct (Nat.eqb _ 0); reflexivity.
Qed.

(** X17. When a stream that is in a room ends, is cancelled or errs, its call
    is taken out of the room, the message of type 2 that announces it is
    written once on the call of each member that stays, in their order,
    nothing is written on the call that leaves, and the stream holds no
    room any more. *)
Theorem leave_is_announced_to_those_who_stay
        (c : Conn) (now : Z) (w : ChatService.World)
        (st : ChatService.Local) (room : jsstring) (set : list Conn) :
  JsMap.get Nat.eq_dec c (ChatService.streams w) = Some st ->
  ChatService.joinedRoom st = Some room ->
  truthy room = true ->
  JsMap.get jsstring_dec room (ChatService.rooms w) = Some set ->
  let w' := ChatService.on_signal c now w in
  let bye := ChatService.leave_message room (ChatService.user st) now in
  ChatService.members room w' = JsSet.delete Nat.eq_dec c set
  /\ ~ In c (ChatService.members room w')
  /\ added (ChatService.wire w) (ChatService.wire w')
     = sends (ChatService.broken w) bye (JsSet.delete Nat.eq_dec c set)
  /\ writes_to c (added (ChatService.wire w) (ChatService.wire w')) = []
  /\ ChatService.msg_type bye = 2%N
  /\ JsMap.get Nat.eq_dec c (ChatService.streams w')
     = Some (ChatService.mkLocal None (ChatService.user st) (ChatService.source st)).
Proof.
  intros Hst Hj Ht Hget w' bye.
  assert (Hm : ChatService.members room w' = JsSet.delete Nat.eq_dec c set).
  { subst w'. unfold ChatService.members, ChatService.on_signal. simpl.
    rewrite leaveRoom_rooms, Hst, Hj, Hget, Ht.
    destruct (Nat.eqb (List.length (JsSet.delete Nat.eq_dec c set)) 0) eqn:E.
    - rewrite get_delete_same. apply Nat.eqb_eq in E.
      destruct (JsSet.delete Nat.eq_dec c set); [reflexivity | discriminate].
    - now rewrite get_set_same. }
  assert (Hw : added (ChatService.wire w) (ChatService.wire w')
               = sends (ChatService.broken w) bye (JsSet.delete Nat.eq_dec c set)).
  { subst w' bye. unfold ChatService.on_signal, ChatService.leaveRoom.
    rewrite Hst, Hj, Hget, Ht.
    destruct (Nat.eqb (List.length (JsSet.delete Nat.eq_dec c set)) 0) eqn:E;
      simpl; rewrite broadcast_all; simpl; rewrite added_app; f_equal;
      unfold ChatService.members; simpl.
    - rewrite get_delete_same. apply Nat.eqb_eq in E.
      destruct (JsSet.delete Nat.eq_dec c set); [reflexivity | discriminate].
    - now rewrite get_set_same. }
  assert (Hout : ~ In c (JsSet.delete Nat.eq_dec c set)).
  { intros H. apply in_set_delete in H as [_ H]. congruence. }
  split; [exact Hm|]. split; [now rewrite Hm|]. split; [exact Hw|].
  split; [rewrite Hw; now apply writes_to_sends_absent|].
  split; [reflexivity|].
  subst w'. unfold ChatService.on_signal. simpl.
  rewrite leaveRoom_streams, Hst. apply get_set_same.
Qed.

(** X18. A message that is turned away changes no room and writes nothing.
    When the token of the stream does not verify, the call is destroyed
    with the error of the verification and the stream stays without a
    user; when the token verifies and the room of the message is empty
    after trimming, the call is destroyed with INVALID_ARGUMENT and the
    stream keeps the user and the room it had. *)
Theorem turned_away_message_changes_no_room
        (c : Conn) (msg : ChatService.Inbound) (now : Z) (w : ChatService.World)
        (st : ChatService.Local) :
  JsMap.get Nat.eq_dec c (ChatService.streams w) = Some st ->
  let w' := ChatService.on_data X c msg now w in
  (forall e,
      ChatService.authenticate X st = Throw e ->
      ChatService.rooms w' = ChatService.rooms w
      /\ ChatService.wire w' = ChatService.wire w
      /\ ChatService.streams w' = ChatService.streams w
      /\ ChatService.destroyed w' = ChatService.destroyed w ++ [(c, e)]
      /\ exists details, e = GrpcAppError status.UNAUTHENTICATED details)
  /\ (forall u,
         ChatService.authenticate X st = Ok u ->
         truthy (trim (str_or_empty (ChatService.in_room msg))) = false ->
         ChatService.rooms w' = ChatService.rooms w
         /\ ChatService.wire w' = ChatService.wire w
         /\ JsMap.get Nat.eq_dec c (ChatService.streams w')
            = Some (ChatService.mkLocal (ChatService.joinedRoom st) (Some u)
                                        (ChatService.source st))
         /\ ChatService.destroyed w'
            = ChatService.destroyed w
              ++ [(c, GrpcAppError status.INVALID_ARGUMENT ChatService.room_obrigatorio)]).
Proof.
  intros Hst w'. subst w'. unfold ChatService.on_data. rewrite Hst. split.
  - intros e He. rewrite He. simpl. repeat split; auto.
    unfold ChatService.authenticate, ChatService.validateToken in He.
    destruct (ChatService.user st); [discriminate|].
    destruct (truthy _); [|injection He as <-; eauto].
    destruct (ChatService.jwt_verify X _); [discriminate|].
    injection He as <-. eauto.
  - intros u Hu Hroom. rewrite Hu, Hroom. simpl. repeat split; auto.
    apply get_set_same.
Qed.
End ChatLeaveFacts.

Section ChatInvariants.
Import Js.
Context (X : ChatService.Externals).

(** What a message does to the streams and to the rooms: nothing, or it
    sets the user of its stream, or it also joins the room it names. *)
Lemma on_data_shape c msg now (w : ChatService.World) :
  let w' := ChatService.on_data X c msg now w in
  let room := trim (str_or_empty (ChatService.in_room msg)) in
  (ChatService.streams w' = ChatService.streams w
   /\ ChatService.rooms w' = ChatService.rooms w)
  \/ exists st u,
      JsMap.get Nat.eq_dec c (ChatService.streams w) = Some st
      /\ ((ChatService.streams w'
           = JsMap.set Nat.eq_dec c
                       (ChatService.mkLocal (ChatService.joinedRoom st) (Some u)
                                            (ChatService.source st))
                       (ChatService.streams w)
           /\ ChatService.rooms w' = ChatService.rooms w)
          \/ (truthy room = true
              /\ ChatService.streams w'
                 = JsMap.set Nat.eq_dec c
                             (ChatService.mkLocal (Some room) (Some u)
                                                  (ChatService.source st))
                             (ChatService.streams w)
              /\ ChatService.rooms w'
                 = JsMap.set jsstring_dec room
                             (JsSet.add Nat.eq_dec c (ChatService.members room w))
                             (ChatService.rooms w))).
Proof.
  intros w' room.
  destruct (JsMap.get Nat.eq_dec c (ChatService.streams w)) as [st|] eqn:Hst.
  2:{ left. subst w'. unfold ChatService.on_data. now rewrite Hst. }
  destruct (ChatService.authenticate X st) as [u|e] eqn:Hu.
  2:{ left. subst w'. unfold ChatService.on_data. now rewrite Hst, Hu. }
  right. exists st, u. split; auto.
  destruct (truthy room) eqn:Hroom.
  2:{ left. subst w' room. unfold ChatService.on_data. now rewrite Hst, Hu, Hroom. }
  destruct (ChatService.joined st) as [r|] eqn:Hj.
  - left. subst w' room. unfold ChatService.on_data. rewrite Hst, Hu, Hroom.
    rewrite (join_block_joined _ _ _ _ _ _ r Hj).
    destruct (truthy _ && truthy _); [rewrite broadcast_all|]; auto.
  - right. split; auto.
    pose proof (on_data_join_eq X c msg now w st u Hst Hj Hu Hroom) as E.
    cbv zeta in E. subst w' room. rewrite E. auto.
Qed.

Lemma members_set_same room set (w : ChatService.World) m :
  ChatService.rooms w = JsMap.set jsstring_dec room set m ->
  ChatService.members room w = set.
Proof. intros E. unfold ChatService.members. now rewrite E, get_set_same. Qed.

Lemma members_set_other room r set (w w0 : ChatService.World) :
  ChatService.rooms w = JsMap.set jsstring_dec room set (ChatService.rooms w0) ->
  room <> r ->
  ChatService.members r w = ChatService.members r w0.
Proof. intros E H. unfold ChatService.members. now rewrite E, get_set_other. Qed.

Lemma members_same r (w w0 : ChatService.World) :
  ChatService.rooms w = ChatService.rooms w0 ->
  ChatService.members r w = ChatService.members r w0.
Proof. intros E. unfold ChatService.members. now rewrite E. Qed.

Lemma on_data_keeps_members c msg now (w : ChatService.World) :
  joined_are_members w -> joined_are_members (ChatService.on_data X c msg now w).
Proof.
  intros I.
  destruct (on_data_shape c msg now w) as [[Hs Hr] | (st & u & Hst & [[Hs Hr] | (Ht & Hs & Hr)])];
    intros c0 st0 r0 Hg Hj0.
  - rewrite Hs in Hg. rewrite (members_same r0 _ w Hr). eauto.
  - rewrite (members_same r0 _ w Hr). rewrite Hs in Hg.
    destruct (Nat.eq_dec c c0) as [<- | Hne].
    + rewrite get_set_same in Hg. injection Hg as <-. simpl in Hj0. eauto.
    + rewrite get_set_other in Hg; eauto.
  - rewrite Hs in Hg.
    destruct (Nat.eq_dec c c0) as [<- | Hne].
    + rewrite get_set_same in Hg. injection Hg as <-. simpl in Hj0.
      injection Hj0 as <-. split; auto.
      rewrite (members_set_same _ _ _ _ Hr). apply in_add. now left.
    + rewrite get_set_other in Hg; auto.
      destruct (I c0 st0 r0 Hg Hj0) as [Htr Hin]. split; auto.
      destruct (jsstring_dec (trim (str_or_empty (ChatService.in_room msg))) r0)
        as [<- | Hr0].
      * rewrite (members_set_same _ _ _ _ Hr). apply in_add. now right.
      * now rewrite (members_set_other _ _ _ _ _ Hr Hr0).
Qed.

Lemma on_signal_keeps_members c now (w : ChatService.World) :
  joined_are_members w -> joined_are_members (ChatService.on_signal c now w).
Proof.
  intros I c0 st0 r0 Hg Hj0.
  unfold ChatService.on_signal in *. simpl in Hg.
  unfold ChatService.members. simpl.
  rewrite leaveRoom_streams in Hg. rewrite leaveRoom_rooms.
  destruct (JsMap.get Nat.eq_dec c (ChatService.streams w)) as [st|] eqn:Hst;
    [|now apply (I c0 st0 r0)].
  destruct (Nat.eq_dec c c0) as [<- | Hne].
  { rewrite get_set_same in Hg. injection Hg as <-. discriminate. }
  rewrite get_set_other in Hg; auto.
  destruct (I c0 st0 r0 Hg Hj0) as [Htr Hin]. split; auto.
  destruct (ChatService.joinedRoom st) as [room|]; auto.
  destruct (JsMap.get jsstring_dec room (ChatService.rooms w)) as [set|] eqn:Hget; auto.
  destruct (truthy room); auto.
  destruct (jsstring_dec room r0) as [<- | Hr0].
  - unfold ChatService.members in Hin. rewrite Hget in Hin.
    assert (Hstay : In c0 (JsSet.delete Nat.eq_dec c set))
      by (apply in_set_delete; split; auto).
    destruct (Nat.eqb (List.length (JsSet.delete Nat.eq_dec c set)) 0) eqn:E.
    + apply Nat.eqb_eq in E.
      destruct (JsSet.delete Nat.eq_dec c set); [contradiction | discriminate].
    + now rewrite get_set_same.
  - destruct (Nat.eqb _ 0);
      [rewrite get_delete_other; auto|]; rewrite get_set_other; auto.
Qed.

Lemma handle_keeps_members (w : ChatService.World) e :
  joined_are_members w -> joined_are_members (ChatService.handle X w e).
Proof.
  intros I. destruct e; simpl.
  - intros c0 st0 r0 Hg Hj0. simpl in Hg.
    destruct (Nat.eq_dec c c0) as [<- | Hne].
    + rewrite get_set_same in Hg. injection Hg as <-. discriminate.
    + rewrite get_set_other in Hg; auto. apply (I c0 st0 r0 Hg Hj0).
  - now apply on_data_keeps_members.
  - now apply on_signal_keeps_members.
  - exact I.
Qed.

(** X19. In every state the chat reaches from its start, a stream that holds a
    room in [joinedRoom] holds a name that is not empty, and its call is a
    member of that room: with C1, what a joined stream says is written on
    its own call too. *)
Theorem joined_streams_are_members (events : list ChatService.Event) :
  joined_are_members (ChatService.run X events ChatService.init).
Proof.
  assert (H : forall w, joined_are_members w ->
                        joined_are_members (ChatService.run X events w)).
  { induction events as [|e events IH]; intros w I; simpl; auto.
    apply IH. now apply handle_keeps_members. }
  apply H. intros c st r Hg. discriminate.
Qed.

Lemma trimmed_set room set m :
  truthy room = true -> trim room = room ->
  room_keys_trimmed m -> room_keys_trimmed (JsMap.set jsstring_dec room set m).
Proof.
  unfold room_keys_trimmed. rewrite !Forall_forall. intros Ht Hr Hm e He.
  apply in_set in He as [-> | He]; auto.
Qed.

Lemma trimmed_delete room m :
  room_keys_trimmed m -> room_keys_trimmed (JsMap.delete jsstring_dec room m).
Proof.
  unfold room_keys_trimmed. rewrite !Forall_forall. intros Hm e He.
  apply in_delete in He as [He _]. auto.
Qed.

Lemma handle_keeps_keys_trimmed (w : ChatService.World) e :
  room_keys_trimmed (ChatService.rooms w) ->
  room_keys_trimmed (ChatService.rooms (ChatService.handle X w e)).
Proof.
  intros I. destruct e; simpl; auto.
  - destruct (on_data_shape c msg now w)
      as [[_ ->] | (st & u & _ & [[_ ->] | (Ht & _ & ->)])]; auto.
    apply trimmed_set; auto. apply trim_idempotent.
  - rewrite leaveRoom_rooms.
    destruct (JsMap.get Nat.eq_dec c (ChatService.streams w)) as [st|]; auto.
    destruct (ChatService.joinedRoom st) as [room|]; auto.
    destruct (JsMap.get jsstring_dec room (ChatService.rooms w)) as [set|] eqn:Hget; auto.
    destruct (truthy room); auto.
    assert (Hk : truthy room = true /\ trim room = room).
    { apply get_in in Hget. unfold room_keys_trimmed in I.
      rewrite Forall_forall in I. apply (I _ Hget). }
    destruct Hk as [Hk1 Hk2].
    destruct (Nat.eqb _ 0); [apply trimmed_delete|]; now apply trimmed_set.
Qed.

(** X20. In every state the chat reaches from its start, every key of [rooms]
    is a name that is not empty and has no white space at its ends: the
    key of a room is the trimmed [room] of the message that created it, so
    names that differ in the white space around them are one room. *)
Theorem room_names_are_trimmed (events : list ChatService.Event) (room : jsstring) :
  JsMap.has jsstring_dec room (ChatService.rooms (ChatService.run X events ChatService.init))
  = true ->
  room <> [] /\ trim room = room.
Proof.
  assert (H : forall w, room_keys_trimmed (ChatService.rooms w) ->
                        room_keys_trimmed
                          (ChatService.rooms (ChatService.run X events w))).
  { induction events as [|e events IH]; intros w I; simpl; auto.
    apply IH. now apply handle_keeps_keys_trimmed. }
  intros Hhas. apply has_get in Hhas as [s Hs]. apply get_in in Hs.
  specialize (H ChatService.init (Forall_nil _)).
  unfold room_keys_trimmed in H. rewrite Forall_forall in H.
  destruct (H _ Hs) as [Ht Hr]. simpl in *. split; auto.
  destruct room; [discriminate | discriminate].
Qed.
End ChatInvariants.

(** * More properties on the executions *)

Section MoreRuns.
Import Js Scenario Scenario2.

Ltac found := vm_compute; repeat (try (left; reflexivity); right).

(** X1 on one of the small executions. *)
Lemma createTask_commits_a_clean_task_witness :
  TaskService.task_title (a_task false) <> []
  /\ trim (TaskService.task_title (a_task false)) = TaskService.task_title (a_task false).
Proof.
  assert (H : TaskService.createTask_commit T create_request (lit "t1")
                                            (TaskService.RunResolves 1)
              = Ok (a_task false)) by reflexivity.
  destruct (createTask_commits_a_clean_task T _ _ _ _ H)
    as (_ & _ & _ & Hne & Htrim & _).
  split; [exact Hne | exact Htrim].
Defined.

(** X2 on one of the small executions. *)
Lemma failed_mutations_answer_a_coded_error_witness :
  (In status.INVALID_ARGUMENT
      [status.UNAUTHENTICATED; status.INVALID_ARGUMENT; status.INTERNAL]
   /\ TaskService.Titulo_obrigatorio <> []
   /\ fst (TaskService.createTask T blank_request (lit "t1") (TaskService.RunResolves 1)
                                  9000 task_world)
      = task_world)
  /\ snd (TaskService.updateTask T cedilla_request (TaskService.GetResolves None)
                                 (TaskService.RunResolves 1) (TaskService.GetResolves None)
                                 9000 task_world)
     = TaskService.Failure
         T status.INTERNAL
         (lit "Metadata string value " ++ [34%N]
          ++ lit "{" ++ [34%N] ++ lit "task_id" ++ [34%N] ++ lit ":"
          ++ [34%N] ++ lit "tarefa-" ++ [231%N] ++ [34%N] ++ lit "}"
          ++ [34%N] ++ lit " contains illegal characters").
Proof.
  split.
  - apply (proj1 (failed_mutations_answer_a_coded_error T 9000 task_world)
                 blank_request (lit "t1") (TaskService.RunResolves 1)).
    reflexivity.
  - apply (proj2 (proj1 (proj2 (proj2 (proj2
                   (failed_mutations_answer_a_coded_error T 9000 task_world))))
                   cedilla_request (TaskService.RunResolves 1)
                   (TaskService.GetResolves None)
                   (mkUser (lit "u1") (lit "u1")) eq_refl)
                 231%N).
    + vm_compute. repeat (try (left; reflexivity); right).
    + vm_compute. discriminate.
    + reflexivity.
    + reflexivity.
Defined.

(** X3 on one of the small executions. *)
Lemma unverified_token_stops_every_handler_witness :
  TaskService.createTask
    T (TaskService.mkCreateRequest [] (JVal (lit "Comprar leite")) JUndefined JUndefined)
    (lit "t1") (TaskService.RunResolves 1) 9000 task_world
  = (task_world,
     TaskService.Failure T status.UNAUTHENTICATED TaskService.Token_invalido).
Proof.
  assert (Hbad : TaskService.jwt_verify T [] = None) by reflexivity.
  apply (proj1 (unverified_token_stops_every_handler T [] 9000 task_world Hbad)).
  reflexivity.
Defined.

(** X4 on one of the small executions. *)
Lemma notifyStreams_writes_once_and_only_removes_witness :
  List.length
    (writes_to 1
       (added (TaskService.wire task_world)
              (TaskService.wire
                 (TaskService.notifyStreams T (lit "TASK_UPDATED") (a_task true)
                                            9000 task_world))))
  <= 1.
Proof.
  apply (proj1 (notifyStreams_writes_once_and_only_removes
                  T (lit "TASK_UPDATED") (a_task true) 9000 task_world)
               task_world_calls_distinct
               (lit "s1")
               (TaskService.mkSession 1 (lit "u1") (Some (lit "notifications")) None)).
  found.
Defined.

(** X5 on one of the small executions. *)
Lemma null_filter_blocks_every_task_witness :
  writes_to 7
    (added (TaskService.wire null_filter_world)
           (TaskService.wire
              (TaskService.notifyStreams T (lit "TASK_CREATED") (a_task false)
                                         9000 null_filter_world)))
  = [].
Proof.
  apply (null_filter_blocks_every_task
           T (lit "TASK_CREATED") (a_task false) 9000 null_filter_world (lit "s7")
           (TaskService.mkSession 7 (lit "u1") None
                                  (Some (TaskService.mkFilter JNull)))).
  - unfold calls_distinct. vm_compute. repeat constructor. simpl. tauto.
  - found.
  - reflexivity.
  - reflexivity.
Defined.

(** X6 on one of the small executions. *)
Lemma streamTasks_replays_then_registers_witness :
  added (TaskService.wire task_world)
        (TaskService.wire
           (TaskService.streamTasks
              T 8 (TaskService.mkStreamRequest (lit "u1") JUndefined)
              (TaskService.AllResolves [a_row 0; a_row 1]) (lit "s8") task_world))
  = [mkWrite 8 (TaskService.PTask (a_task false : TaskService.Proto T)) true;
     mkWrite 8 (TaskService.PTask (a_task true : TaskService.Proto T)) true].
Proof.
  apply (proj1 (streamTasks_replays_then_registers
                  T 8 (TaskService.mkStreamRequest (lit "u1") JUndefined)
                  [a_row 0; a_row 1] (lit "s8") task_world
                  (mkUser (lit "u1") (lit "u1")) eq_refl eq_refl)).
Defined.

(** X7 on one of the small executions. *)
Lemma streamTasks_on_a_dead_call_witness :
  TaskService.streamingSessions
    (TaskService.streamTasks
       T 5 (TaskService.mkStreamRequest (lit "u1") JUndefined)
       (TaskService.AllResolves [a_row 0; a_row 1]) (lit "s8") task_world)
  = TaskService.streamingSessions task_world.
Proof.
  destruct (streamTasks_on_a_dead_call
              T 5 (TaskService.mkStreamRequest (lit "u1") JUndefined) (lit "s8")
              task_world (mkUser (lit "u1") (lit "u1")) eq_refl eq_refl)
    as [Hrows _].
  destruct (Hrows (a_row 0) [a_row 1]) as (_ & Hsessions & _).
  exact Hsessions.
Defined.

Lemma task_world_has_no_listener_on (c : Conn) :
  5 < c ->
  forall l, In l (TaskService.listeners task_world) -> fst (fst l) <> c.
Proof.
  intros Hc l Hl. vm_compute in Hl.
  repeat (destruct Hl as [<- | Hl]; [simpl; lia|]). destruct Hl.
Defined.

(** X8 on one of the small executions. *)
Lemma open_then_cancel_restores_the_registry_witness :
  TaskService.streamingSessions
    (TaskService.emit
       T 9 sig_cancelled
       (TaskService.streamNotifications T 9 (lit "u1") (lit "s9") 6500 task_world))
  = TaskService.streamingSessions task_world.
Proof.
  assert (Hnew : forall l, In l (TaskService.listeners task_world) -> fst (fst l) <> 9)
    by (apply task_world_has_no_listener_on; lia).
  apply (proj1 (open_then_cancel_restores_the_registry
                  T 9 (lit "u1") (lit "s9") 6500 task_world
                  (mkUser (lit "u1") (lit "u1")) eq_refl eq_refl eq_refl Hnew)).
  now left.
Defined.

(** X9 on one of the small executions. *)
Lemma dead_notification_stream_stays_until_a_dispatch_witness :
  JsMap.get jsstring_dec (lit "s6")
            (TaskService.streamingSessions
               (TaskService.notifyStreams
                  T (lit "TASK_CREATED") (a_task false) 9000
                  (TaskService.streamNotifications T 6 (lit "u1") (lit "s6") 6500
                                                   dead_call_world)))
  = None.
Proof.
  assert (Hnew : forall l, In l (TaskService.listeners dead_call_world) ->
                           fst (fst l) <> 6)
    by (apply task_world_has_no_listener_on; lia).
  destruct (dead_notification_stream_stays_until_a_dispatch
              T 6 (lit "u1") (lit "s6") 6500 dead_call_world
              (mkUser (lit "u1") (lit "u1")) eq_refl eq_refl Hnew)
    as (_ & _ & Hgone).
  apply Hgone. reflexivity.
Defined.

(** X10 on one of the small executions. *)
Lemma getTasks_query_is_scoped_and_bounded_witness :
  TaskQueries.placeholders
    (lit "SELECT * FROM tasks WHERE userId = ? AND completed = ? ORDER BY createdAt DESC")
  = 2
  /\ (1 <= 3 <= 100)%Z
  /\ 3%Z = TaskService.leading_digit T (3 * 10 ^ 21).
Proof.
  assert (H : TaskQueries.getTasks_query T (list_request 0 (3 * 10 ^ 21))
              = Ok (TaskQueries.mkQuery
                      (lit "SELECT * FROM tasks WHERE userId = ? AND completed = ? ORDER BY createdAt DESC")
                      [TaskQueries.SqlText (lit "u1"); TaskQueries.SqlInt 1] 1 3))
    by (vm_compute; reflexivity).
  destruct (getTasks_query_is_scoped_and_bounded T _ _ H)
    as (_ & _ & _ & Hlimit & _ & _ & _ & _ & _ & Hdigit & Hcount).
  split; [exact Hcount | split; [exact Hlimit|]].
  apply (Hdigit (3 * 10 ^ 21)%Z eq_refl). lia.
Defined.

(** X11 on one of the small executions. *)
Lemma getTasks_rejects_bad_paging_witness :
  TaskQueries.getTasks T (list_request 2 101) (TaskQueries.PageResolves [] 0 2 101)
  = TaskQueries.ListFailure T status.INVALID_ARGUMENT
                            (lit "limit deve estar entre 1 e 100")
  /\ exists q,
      TaskQueries.getTasks_query T (list_request 2 (10 ^ 21)) = Ok q
      /\ TaskQueries.q_page q = 2%Z
      /\ TaskQueries.q_limit q = TaskService.leading_digit T (10 ^ 21).
Proof.
  split.
  - apply (proj1 (proj2 (getTasks_rejects_bad_paging
                           T (list_request 2 101) (TaskQueries.PageResolves [] 0 2 101)
                           (mkUser (lit "u1") (lit "u1")) 2 101
                           eq_refl eq_refl eq_refl)));
      [vm_compute; split; [discriminate | reflexivity]
      | right; vm_compute; split; reflexivity
      | vm_compute; intros H; exfalso; apply H; reflexivity].
  - apply (proj2 (proj2 (getTasks_rejects_bad_paging
                           T (list_request 2 (10 ^ 21))
                           (TaskQueries.PageResolves [] 0 2 1)
                           (mkUser (lit "u1") (lit "u1")) 2 (10 ^ 21)
                           eq_refl eq_refl eq_refl)));
      [vm_compute; split; [discriminate | reflexivity]
      | vm_compute; discriminate
      | vm_compute; split; discriminate].
Defined.

(** X12 on one of the small executions. *)
Lemma update_keeps_what_the_request_leaves_out_witness :
  exists title description completed priority,
    TaskQueries.update_params T update_request (a_row 0) (mkUser (lit "u1") (lit "u1"))
    = [TaskQueries.SqlText title; description; TaskQueries.SqlInt completed;
       TaskQueries.SqlText priority; TaskQueries.SqlText (lit "t1");
       TaskQueries.SqlText (lit "u1")]
    /\ title = lit "Comprar leite".
Proof.
  destruct (update_keeps_what_the_request_leaves_out
              T update_request (a_row 0) (mkUser (lit "u1") (lit "u1")))
    as (title & description & completed & priority & Hp & _ & Ht & _).
  exists title, description, completed, priority. split; [exact Hp|].
  apply Ht. now left.
Defined.

(** X13 on one of the small executions. *)
Lemma interceptor_passes_only_public_or_verified_witness :
  AuthInterceptor.authInterceptor verify_under no_secret
                                  (AuthInterceptor.mkCall None None)
                                  (lit "/AuthService/Login")
  = AuthInterceptor.Next None.
Proof.
  apply (proj1 (interceptor_passes_only_public_or_verified
                  verify_under no_secret (AuthInterceptor.mkCall None None)
                  (lit "/AuthService/Login"))).
  simpl. auto.
Defined.

(** X14 on one of the small executions. *)
Lemma interceptor_and_chat_agree_on_bearer_witness :
  ChatService.validateToken C (AuthInterceptor.source_of (bearer_call "ana"))
  = Ok (mkUser (lit "ana") (lit "ana")).
Proof.
  assert (Hpath : ~ In (lit "/TaskService/GetTasks")
                       (AuthInterceptor.publicMethods no_secret)).
  { simpl. intros [H | []]. vm_compute in H. discriminate. }
  apply (proj1 (interceptor_and_chat_agree_on_bearer
                  verify_under C no_secret (bearer_call "ana")
                  (lit "/TaskService/GetTasks")
                  eq_refl eq_refl (fun t => eq_refl) Hpath)
               eq_refl (mkUser (lit "ana") (lit "ana"))).
  reflexivity.
Defined.

(** X15 on one of the small executions. *)
Lemma first_message_joins_greets_then_speaks_witness :
  delivered 2
    (added (ChatService.wire lonely_world)
           (ChatService.wire (ChatService.on_data C 2 (says " sala " " oi ") 5000
                                                  lonely_world)))
  = [ChatService.join_message (lit "sala") (mkUser (lit "bob") (lit "bob")) 5000;
     ChatService.welcome_message (lit "sala") 5000;
     ChatService.text_message (lit "sala") (lit "oi") (mkUser (lit "bob") (lit "bob"))
                              5000].
Proof.
  assert (Hnd : NoDup (ChatService.members
                         (trim (str_or_empty (ChatService.in_room (says " sala " " oi "))))
                         lonely_world))
    by (vm_compute; repeat constructor; simpl; tauto).
  assert (Hno : ~ In 2 (ChatService.members
                          (trim (str_or_empty (ChatService.in_room (says " sala " " oi "))))
                          lonely_world))
    by (vm_compute; intros [H | []]; discriminate).
  destruct (first_message_joins_greets_then_speaks
              C 2 (says " sala " " oi ") 5000 lonely_world
              (ChatService.mkLocal None None (bearer "bob"))
              (mkUser (lit "bob") (lit "bob"))
              eq_refl eq_refl eq_refl eq_refl eq_refl Hnd Hno)
    as (_ & Hown & _).
  exact Hown.
Defined.

(** X16 on one of the small executions. *)
Lemma failed_welcome_joins_but_drops_the_text_witness :
  In 2 (ChatService.members (lit "sala")
                            (ChatService.on_data C 2 (says "sala" "oi") 5000 deaf_world))
  /\ added (ChatService.wire deaf_world)
           (ChatService.wire (ChatService.on_data C 2 (says "sala" "oi") 5000 deaf_world))
     = [mkWrite 1 (ChatService.join_message (lit "sala") (mkUser (lit "bob") (lit "bob"))
                                            5000) true;
        mkWrite 2 (ChatService.join_message (lit "sala") (mkUser (lit "bob") (lit "bob"))
                                            5000) false;
        mkWrite 2 (ChatService.welcome_message (lit "sala") 5000) false].
Proof.
  destruct (failed_welcome_joins_but_drops_the_text
              C 2 (says "sala" "oi") 5000 deaf_world
              (ChatService.mkLocal None None (bearer "bob"))
              (mkUser (lit "bob") (lit "bob"))
              eq_refl eq_refl eq_refl eq_refl eq_refl)
    as (Hin & _ & Hwire & _).
  split; [exact Hin | exact Hwire].
Defined.

(** X17 on one of the small executions. *)
Lemma leave_is_announced_to_those_who_stay_witness :
  added (ChatService.wire chat_world)
        (ChatService.wire (ChatService.on_signal 1 4000 chat_world))
  = sends [2]
          (ChatService.leave_message (lit "general")
                                     (Some (mkUser (lit "ana") (lit "ana"))) 4000)
          [2; 3].
Proof.
  destruct (leave_is_announced_to_those_who_stay
              1 4000 chat_world
              (ChatService.mkLocal (Some (lit "general"))
                                   (Some (mkUser (lit "ana") (lit "ana")))
                                   (bearer "ana"))
              (lit "general") [1; 2; 3] eq_refl eq_refl eq_refl eq_refl)
    as (_ & _ & Hwire & _).
  exact Hwire.
Defined.

(** X18 on one of the small executions. *)
Lemma turned_away_message_changes_no_room_witness :
  ChatService.rooms
    (ChatService.on_data C 2 (ChatService.mkInbound JUndefined (JVal (lit "oi"))) 5000
                         lonely_world)
  = ChatService.rooms lonely_world.
Proof.
  destruct (turned_away_message_changes_no_room
              C 2 (ChatService.mkInbound JUndefined (JVal (lit "oi"))) 5000 lonely_world
              (ChatService.mkLocal None None (bearer "bob")) eq_refl)
    as [_ Hroom].
  destruct (Hroom (mkUser (lit "bob") (lit "bob")) eq_refl eq_refl) as [Hrooms _].
  exact Hrooms.
Defined.

(** X19 on one of the small executions. *)
Lemma joined_streams_are_members_witness :
  In 1 (ChatService.members (lit "general") chat_world).
Proof.
  apply (joined_streams_are_members
           C three_join 1
           (ChatService.mkLocal (Some (lit "general"))
                                (Some (mkUser (lit "ana") (lit "ana")))
                                (bearer "ana"))
           (lit "general")); reflexivity.
Defined.

(** X20 on one of the small executions. *)
Lemma room_names_are_trimmed_witness :
  lit "general" <> [] /\ trim (lit "general") = lit "general".
Proof.
  apply (room_names_are_trimmed C three_join (lit "general")). reflexivity.
Defined.
End MoreRuns.
